(** * FAIR EVA command-line client: a shallow embedding of [scripts/fair-eva.py]

    The development follows the script top-down:
    - Python values and the numeric primitives the script relies on,
    - exceptions and the two monads used for pure and effectful code,
    - [calcpoints], [format_msg_for_table], [collect_score_data],
      [print_table], [search], [store] and [main],
    - the properties of each of them. *)

From Stdlib Require Import ZArith QArith Qabs Qround String Ascii List Bool Lia.
From Stdlib Require Import DecimalString DecimalZ.
Import ListNotations.
Local Open Scope string_scope.
Local Open Scope Z_scope.

Set Implicit Arguments.
Set Warnings "-register-all".

(** ** Python primitives

    JSON numbers reach the script as Python [int] or [float] objects.  The
    script only adds, multiplies, divides, rounds and prints them, so the
    arithmetic is kept behind an interface: every property below holds for
    any implementation of it, IEEE doubles included.  An int is unbounded
    and a float is a double, so arithmetic that has to turn an int into a
    float can raise [OverflowError]; the interface says when. *)

Class PyPrims (num : Type) : Type := {
  nint : Z -> num;                      (* an int object *)
  nadd : num -> num -> num;             (* x + y *)
  nmul : num -> num -> num;             (* x * y *)
  nis_zero : num -> bool;               (* x == 0 *)
  ndiv : num -> num -> num;             (* x / y, for a divisor that is not 0 *)
  nround : nat -> num -> num;           (* round(x, ndigits) *)
  nis_float : num -> bool;              (* isinstance(x, float) *)
  nfmt_2f : num -> string;              (* "%.2f" % x *)
  nstr : num -> string;                 (* str(x) *)
  nparse : string -> option num;        (* numeric value of a str cell for pandas.to_numeric *)
  str_repr : string -> string;          (* repr(s) for a str s *)
  py_int : string -> option Z;          (* int(s); None when it raises ValueError *)
  nadd_overflow : num -> num -> bool;   (* x + y raises OverflowError *)
  nmul_overflow : num -> num -> bool;   (* x * y raises OverflowError *)
  ndiv_operand_overflow : num -> num -> bool;
                                        (* x / y of an int and a float: the int
                                           is too large to convert to float *)
  ndiv_result_overflow : num -> num -> bool;
                                        (* x / y of two ints, y not 0: the
                                           result is too large for a float *)
  npos : num -> bool;                   (* 0 < x *)
  pd_column : list num -> option (list num);
                                        (* the values of the column that
                                           pandas.to_numeric makes of these
                                           numbers, one dtype for all of them;
                                           None when it raises OverflowError *)
  pd_column_length : forall l c, pd_column l = Some c -> length c = length l;
  nis_zero_0 : nis_zero (nint 0) = true;
  npos_nonzero : forall x, npos x = true -> nis_zero x = false;
  npos_add_0 : forall y, npos y = true -> npos (nadd (nint 0) y) = true;
  npos_add : forall x y, npos x = true -> npos y = true -> npos (nadd x y) = true
}.

(** The int literal [0]. *)
Definition nzero {num} `{PyPrims num} : num := nint 0.

(** ** Exceptions *)

Inductive exn : Type :=
| KeyError (key : string)
| ZeroDivisionError
| OverflowError
| TypeError
| AttributeError
| ValueError
| IndexError
| EOFError
| NameError (name : string)
| ConnectionError
| OSError
| ImportError
| ArrowTypeError
| SystemExit (code : option Z).

Inductive exc (A : Type) : Type :=
| Ok (a : A)
| Raise (e : exn).
Arguments Ok {A} a.
Arguments Raise {A} e.

Definition exc_bind {A B} (c : exc A) (k : A -> exc B) : exc B :=
  match c with
  | Ok a => k a
  | Raise e => Raise e
  end.

Declare Scope exc_scope.
Delimit Scope exc_scope with exc.
Notation "x <- c ;; k" := (exc_bind c (fun x => k))
  (at level 61, c at next level, right associativity) : exc_scope.
Notation "' pat <- c ;; k" := (exc_bind c (fun x => match x with pat => k end))
  (at level 61, pat pattern, c at next level, right associativity) : exc_scope.

(** [for x in xs: acc = body(acc, x)] where the body may raise. *)
Fixpoint exc_fold {A B} (body : A -> B -> exc A) (xs : list B) (acc : A) : exc A :=
  match xs with
  | [] => Ok acc
  | x :: xs' => exc_bind (body acc x) (exc_fold body xs')
  end.

(** [[f(x) for x in xs]] where [f] may raise. *)
Fixpoint exc_map {A B} (f : A -> exc B) (xs : list A) : exc (list B) :=
  match xs with
  | [] => Ok []
  | x :: xs' => exc_bind (f x) (fun y => exc_bind (exc_map f xs') (fun ys => Ok (y :: ys)))
  end.

(** ** Strings *)

(** [str(z)] for an int. *)
Definition string_of_Z (z : Z) : string := NilZero.string_of_int (Z.to_int z).

Definition newline : string := String (ascii_of_nat 10) EmptyString.

(** [sep.join(items)] *)
Definition join (sep : string) (items : list string) : string := String.concat sep items.

Definition ascii_upper (c : ascii) : ascii :=
  let n := nat_of_ascii c in
  if (97 <=? n)%nat && (n <=? 122)%nat then ascii_of_nat (n - 32) else c.

Definition ascii_lower (c : ascii) : ascii :=
  let n := nat_of_ascii c in
  if (65 <=? n)%nat && (n <=? 90)%nat then ascii_of_nat (n + 32) else c.

Fixpoint string_map (f : ascii -> ascii) (s : string) : string :=
  match s with
  | EmptyString => EmptyString
  | String c s' => String (f c) (string_map f s')
  end.

(** [s.upper()] and [s.capitalize()] on ASCII text. *)
Definition upper (s : string) : string := string_map ascii_upper s.

Definition capitalize (s : string) : string :=
  match s with
  | EmptyString => EmptyString
  | String c s' => String (ascii_upper c) (string_map ascii_lower s')
  end.

(** ** Dictionaries

    A Python [dict] keeps insertion order and has unique keys; it is
    modelled as an association list and read from the front. *)

Definition dict (V : Type) : Type := list (string * V).

Fixpoint dict_find {V} (d : dict V) (k : string) : option V :=
  match d with
  | [] => None
  | (k', v) :: d' => if String.eqb k' k then Some v else dict_find d' k
  end.

(** [d[k]] *)
Definition dict_getitem {V} (d : dict V) (k : string) : exc V :=
  match dict_find d k with
  | Some v => Ok v
  | None => Raise (KeyError k)
  end.

(** [d.get(k, default)] *)
Definition dict_get {V} (d : dict V) (k : string) (default : V) : V :=
  match dict_find d k with
  | Some v => v
  | None => default
  end.

(** The dictionary [d.pop(k, default)] leaves. *)
Fixpoint dict_remove {V} (d : dict V) (k : string) : dict V :=
  match d with
  | [] => []
  | (k', v) :: d' => if String.eqb k' k then dict_remove d' k else (k', v) :: dict_remove d' k
  end.

Definition dict_values {V} (d : dict V) : list V := map snd d.

(** ** Python values of a decoded JSON document *)

Inductive pyval (num : Type) : Type :=
| VNone
| VBool (b : bool)
| VNum (n : num)
| VStr (s : string)
| VList (items : list (pyval num))
| VDict (entries : list (string * pyval num)).
Arguments VNone {num}.
Arguments VBool {num} b.
Arguments VNum {num} n.
Arguments VStr {num} s.
Arguments VList {num} items.
Arguments VDict {num} entries.

Section Values.
Context {num : Type} `{PyPrims num}.

(** [repr(v)] *)
Fixpoint py_repr (v : pyval num) : string :=
  match v with
  | VNone => "None"
  | VBool true => "True"
  | VBool false => "False"
  | VNum n => nstr n
  | VStr s => str_repr s
  | VList items => "[" ++ join ", " (map py_repr items) ++ "]"
  | VDict entries =>
      "{" ++ join ", " (map (fun kv => str_repr (fst kv) ++ ": " ++ py_repr (snd kv)) entries) ++ "}"
  end.

(** [str(v)], also what ["%s" % v] inserts. *)
Definition py_str (v : pyval num) : string :=
  match v with
  | VStr s => s
  | _ => py_repr v
  end.

(** [len(v)] for the values that reach the final branch of
    [format_msg_for_table] (neither [str] nor [dict]). *)
Definition py_len (v : pyval num) : exc nat :=
  match v with
  | VList items => Ok (length items)
  | VStr s => Ok (String.length s)
  | VDict entries => Ok (length entries)
  | _ => Raise TypeError
  end.

(** [v[k]] for a string key. *)
Definition py_getitem (v : pyval num) (k : string) : exc (pyval num) :=
  match v with
  | VDict entries => dict_getitem entries k
  | _ => Raise TypeError
  end.

(** [v.get(k, default)] *)
Definition py_get (v : pyval num) (k : string) (default : pyval num) : exc (pyval num) :=
  match v with
  | VDict entries => Ok (dict_get entries k default)
  | _ => Raise AttributeError
  end.

(** [sep.join(items)]: every item has to be a [str]. *)
Definition py_join (sep : string) (items : list (pyval num)) : exc string :=
  (strs <- exc_map (fun v => match v with VStr s => Ok s | _ => Raise TypeError end) items ;;
   Ok (join sep strs))%exc.

(** *** [format_msg_for_table] *)

Definition isinstance_str (v : pyval num) : bool :=
  match v with VStr _ => true | _ => false end.

Definition format_item (item : pyval num) : exc string :=
  (m <- py_getitem item "message" ;;
   p <- py_getitem item "points" ;;
   Ok (py_str m ++ " (points: " ++ py_str p ++ ")"))%exc.

Definition format_msg_for_table (message_data : pyval num) : exc (pyval num) :=
  let output_message := VStr "Not available" in
  match message_data with
  | VStr s => Ok (VStr s)
  | VDict _ => Ok (VStr (py_str message_data))
  | _ =>
      (n <- py_len message_data ;;
       if (0 <? n)%nat then
         match message_data with
         | VList (first :: rest) =>
             if isinstance_str first then
               (s <- py_join newline (first :: rest) ;; Ok (VStr s))
             else if (1 <? n)%nat then
               (lines <- exc_map format_item (first :: rest) ;;
                Ok (VStr (join newline lines)))
             else if (n =? 1)%nat then
               py_get first "message" (VStr "Not available")
             else Ok output_message
         | _ => Ok output_message
         end
       else Ok output_message)%exc
  end.

End Values.

(** ** Data model of an evaluation result *)

Definition FAIR_PRINCIPLES : list string :=
  ["findable"; "accessible"; "interoperable"; "reusable"].

(** One indicator of the response: [name], [points], [score.weight] and the
    optional [msg]; [indicator] and [name_smart] are the two display fields
    [calcpoints] adds. *)
Record Indicator (num : Type) : Type := mkIndicator {
  name : string;
  points : num;
  weight : num;
  msg : option (pyval num);
  indicator : option string;
  name_smart : option string
}.

Definition PrincipleResult (num : Type) : Type := dict (Indicator num).
Definition EvaluationResult (num : Type) : Type := dict (PrincipleResult num).

(** [d[k] = v] on an existing or a new key. *)
Fixpoint dict_set {V} (d : dict V) (k : string) (v : V) : dict V :=
  match d with
  | [] => [(k, v)]
  | (k', v') :: d' => if String.eqb k' k then (k, v) :: d' else (k', v') :: dict_set d' k v
  end.

Section Aggregation.
Context {num : Type} `{PyPrims num}.
Variable gettext : string -> string.

(** [x + y] and [x * y] *)
Definition py_add (x y : num) : exc num :=
  if nadd_overflow x y then Raise OverflowError else Ok (nadd x y).

Definition py_mul (x y : num) : exc num :=
  if nmul_overflow x y then Raise OverflowError else Ok (nmul x y).

(** [x / y]: a mixed division converts its int operand first, the divisor
    is then compared with 0, and a quotient of two ints is converted to float
    last. *)
Definition truediv (x y : num) : exc num :=
  if ndiv_operand_overflow x y then Raise OverflowError
  else if nis_zero y then Raise ZeroDivisionError
  else if ndiv_result_overflow x y then Raise OverflowError
  else Ok (ndiv x y).

(** *** [calcpoints] *)

(** The running totals of the two loops. *)
Record Totals : Type := mkTotals {
  result_points : num;
  weight_of_tests : num;
  g_weight : num;
  g_points : num
}.

Definition annotate (i : Indicator num) : Indicator num :=
  mkIndicator (name i) (points i) (weight i) (msg i)
    (Some (gettext (name i ++ ".indicator")))
    (Some (gettext (name i))).

(** Body of [for kk in result[key]]: the four [+=] in source order. *)
Definition calcpoints_indicator (t : Totals) (i : Indicator num) : exc Totals :=
  let weight := weight i in
  (weight_of_tests <- py_add (weight_of_tests t) weight ;;
   g_weight <- py_add (g_weight t) weight ;;
   product <- py_mul (points i) weight ;;
   result_points <- py_add (result_points t) product ;;
   product' <- py_mul (points i) weight ;;
   g_points <- py_add (g_points t) product' ;;
   Ok (mkTotals result_points weight_of_tests g_weight g_points))%exc.

(** State of the outer loop: the (mutated) [result], the [points]
    dictionary and the two totals that survive an iteration. *)
Record CalcState : Type := mkCalcState {
  cs_result : EvaluationResult num;
  cs_points : dict num;
  cs_result_points : num;
  cs_weight_of_tests : num
}.

(** Body of [for key in keys[:-1]].  The inner loop visits the keys of
    [result[key]] and reads [result[key][kk]]; the keys of a dictionary
    being unique, that is a pass over its entries in order. *)
Definition calcpoints_principle (st : CalcState) (key : string) : exc CalcState :=
  (principle <- dict_getitem (cs_result st) key ;;
   let t0 := mkTotals (cs_result_points st) (cs_weight_of_tests st) nzero nzero in
   t <- exc_fold calcpoints_indicator (dict_values principle) t0 ;;
   let principle' := map (fun kv => (fst kv, annotate (snd kv))) principle in
   score <- truediv (g_points t) (g_weight t) ;;
   Ok (mkCalcState (dict_set (cs_result st) key principle')
                   (dict_set (cs_points st) key (nround 3 score))
                   (result_points t) (weight_of_tests t)))%exc.

Definition calcpoints (result : EvaluationResult num)
  : exc (dict num * EvaluationResult num) :=
  let keys := (FAIR_PRINCIPLES ++ ["total"])%list in
  let values := [nzero; nzero; nzero; nzero; nzero] in
  let points := combine keys values in
  (st <- exc_fold calcpoints_principle (removelast keys)
           (mkCalcState result points nzero nzero) ;;
   total <- truediv (cs_result_points st) (cs_weight_of_tests st) ;;
   Ok (dict_set (cs_points st) "total" (nround 2 total), cs_result st))%exc.

(** *** The aggregation as the specification words it *)

(** sum(points*weight) and sum(weight) over a sequence of indicators, summed
    from 0 in iteration order. *)
Definition weighted_points (l : list (Indicator num)) : num :=
  fold_left (fun acc i => nadd acc (nmul (points i) (weight i))) l nzero.

Definition weight_sum (l : list (Indicator num)) : num :=
  fold_left (fun acc i => nadd acc (weight i)) l nzero.

Definition weighted_average (l : list (Indicator num)) : num :=
  ndiv (weighted_points l) (weight_sum l).

(** Every indicator of every principle, principles in their fixed order. *)
Definition all_indicators (f a i r : PrincipleResult num) : list (Indicator num) :=
  (dict_values f ++ dict_values a ++ dict_values i ++ dict_values r)%list.

Definition score_summary (f a i r : PrincipleResult num) : dict num :=
  [("findable", nround 3 (weighted_average (dict_values f)));
   ("accessible", nround 3 (weighted_average (dict_values a)));
   ("interoperable", nround 3 (weighted_average (dict_values i)));
   ("reusable", nround 3 (weighted_average (dict_values r)));
   ("total", nround 2 (weighted_average (all_indicators f a i r)))].

(** Whether an addition of the running sum [acc + t1 + t2 + ...] raises
    [OverflowError]. *)
Fixpoint sum_overflows (acc : num) (terms : list num) : bool :=
  match terms with
  | [] => false
  | t :: terms' => nadd_overflow acc t || sum_overflows (nadd acc t) terms'
  end.

Definition weights (l : list (Indicator num)) : list num :=
  map (fun i => weight i) l.

Definition products (l : list (Indicator num)) : list num :=
  map (fun i => nmul (points i) (weight i)) l.

Definition product_overflows (l : list (Indicator num)) : bool :=
  existsb (fun i => nmul_overflow (points i) (weight i)) l.

(** Whether the weighted average of [l] cannot be computed for the size of
    its numbers: a product, a step of one of the two sums, or the quotient
    raises [OverflowError]. *)
Definition average_overflows (l : list (Indicator num)) : bool :=
  product_overflows l
  || sum_overflows nzero (weights l)
  || sum_overflows nzero (products l)
  || ndiv_operand_overflow (weighted_points l) (weight_sum l)
  || ndiv_result_overflow (weighted_points l) (weight_sum l).

Definition aggregation_overflows (f a i r : PrincipleResult num) : bool :=
  average_overflows (dict_values f)
  || average_overflows (dict_values a)
  || average_overflows (dict_values i)
  || average_overflows (dict_values r)
  || average_overflows (all_indicators f a i r).

End Aggregation.
Arguments Totals num : clear implicits.
Arguments CalcState num : clear implicits.

(** ** The indicator catalogue *)

Record CatalogEntry : Type := mkCatalogEntry {
  ce_id : string;
  ce_indicator : string;
  ce_priority : string
}.

(** The source literal lists ["RDA_A1_02D"] twice with the same content;
    the dictionary it builds has one entry for it. *)
Definition FAIR_RDA_INDICATORS : dict CatalogEntry :=
  [
   ("RDA_F1_01M",
    mkCatalogEntry "RDA-F1-01M"
      "Metadata is identified by a persistent identifier"
      "Essential (***)");
   ("RDA_F1_01D",
    mkCatalogEntry "RDA-F1-01D"
      "Data is identified by a persistent identifier"
      "Essential (***)");
   ("RDA_F1_02M",
    mkCatalogEntry "RDA-F1-02M"
      "Metadata is identified by a globally unique identifier"
      "Essential (***)");
   ("RDA_F1_02D",
    mkCatalogEntry "RDA-F1-02D"
      "Data is identified by a persistent identifier"
      "Essential (***)");
   ("RDA_F2_01M",
    mkCatalogEntry "RDA-F2-01M"
      "Rich metadata is provided to allow discovery"
      "Essential (***)");
   ("RDA_F3_01M",
    mkCatalogEntry "RDA-F3-01M"
      "Metadata includes the identifier for the data"
      "Essential (***)");
   ("RDA_F4_01M",
    mkCatalogEntry "RDA-F4-01M"
      "Metadata is offered in such a way that it can be harvested and indexed"
      "Essential (***)");
   ("RDA_A1_01M",
    mkCatalogEntry "RDA-A1-01M"
      "Metadata contains information to enable the user to get access to the data"
      "Important (**)");
   ("RDA_A1_02M",
    mkCatalogEntry "RDA-A1-02M"
      "Metadata can be accessed manually (i.e. with human intervention)"
      "Essential (***)");
   ("RDA_A1_02D",
    mkCatalogEntry "RDA-A1-02D"
      "Data can be accessed manually (i.e. with human intervention)"
      "Essential (***)");
   ("RDA_A1_03M",
    mkCatalogEntry "RDA-A1-03M"
      "Metadata identifier resolves to a metadata record"
      "Essential (***)");
   ("RDA_A1_03D",
    mkCatalogEntry "RDA-A1-03D"
      "Data identifier resolves to a digital object"
      "Essential (***)");
   ("RDA_A1_04M",
    mkCatalogEntry "RDA-A1-04M"
      "Metadata is accessed through standardised protocol"
      "Essential (***)");
   ("RDA_A1_04D",
    mkCatalogEntry "RDA-A1-04D"
      "Data is accessed through standardised protocol"
      "Essential (***)");
   ("RDA_A1_05D",
    mkCatalogEntry "RDA-A1-05D"
      "Data can be accessed automatically (i.e. by a computer program)"
      "Important (**)");
   ("RDA_A1_1_01M",
    mkCatalogEntry "RDA-A1.1-01M"
      "Metadata is accessible through a free access protocol"
      "Essential (***)");
   ("RDA_A1_1_01D",
    mkCatalogEntry "RDA-A1.1-01D"
      "Data is accessible through a free access protocol"
      "Important (**)");
   ("RDA_A1_2_01D",
    mkCatalogEntry "RDA-A1.2-01D"
      "Data is accessible through an access protocol that supports authentication and authorisation"
      "Useful (*)");
   ("RDA_A2_01M",
    mkCatalogEntry "RDA-A2-01M"
      "Metadata is guaranteed to remain available after data is no longer available"
      "Essential (***)");
   ("RDA_I1_01M",
    mkCatalogEntry "RDA-I1-01M"
      "Metadata uses knowledge representation expressed in standardised format"
      "Important (**)");
   ("RDA_I1_01D",
    mkCatalogEntry "RDA-I1-01D"
      "Data uses knowledge representation expressed in standardised format"
      "Important (**)");
   ("RDA_I1_02M",
    mkCatalogEntry "RDA-I1-02M"
      "Metadata uses machine-understandable knowledge representation"
      "Important (**)");
   ("RDA_I1_02D",
    mkCatalogEntry "RDA-I1-02D"
      "Data uses machine-understandable knowledge representation"
      "Important (**)");
   ("RDA_I2_01M",
    mkCatalogEntry "RDA-I2-01M"
      "Metadata uses FAIR-compliant vocabularies"
      "Important (**)");
   ("RDA_I2_01D",
    mkCatalogEntry "RDA-I2-01D"
      "Data uses FAIR-compliant vocabularies"
      "Useful (*)");
   ("RDA_I3_01M",
    mkCatalogEntry "RDA-I3-01M"
      "Metadata includes references to other metadata"
      "Important (**)");
   ("RDA_I3_01D",
    mkCatalogEntry "RDA-I3-01D"
      "Data includes references to other data"
      "Useful (*)");
   ("RDA_I3_02M",
    mkCatalogEntry "RDA-I3-02M"
      "Metadata includes references to other data"
      "Important (**)");
   ("RDA_I3_02D",
    mkCatalogEntry "RDA-I3-02D"
      "Data includes qualified references to other data"
      "Useful (*)");
   ("RDA_I3_03M",
    mkCatalogEntry "RDA-I3-03M"
      "Metadata includes qualified references to other metadata"
      "Important (**)");
   ("RDA_I3_04M",
    mkCatalogEntry "RDA-I3-04M"
      "Metadata includes qualified references to other data"
      "Useful (*)");
   ("RDA_R1_01M",
    mkCatalogEntry "RDA-R1-01M"
      "Plurality of accurate and relevant attributes are provided to allow reuse"
      "Essential (***)");
   ("RDA_R1_1_01M",
    mkCatalogEntry "RDA-R1.1-01M"
      "Metadata includes information about the licence under which the data can be reused"
      "Essential (***)");
   ("RDA_R1_1_02M",
    mkCatalogEntry "RDA-R1.1-02M"
      "Metadata refers to a standard reuse licence"
      "Important (**)");
   ("RDA_R1_1_03M",
    mkCatalogEntry "RDA-R1.1-03M"
      "Metadata refers to a machine understandable reuse licence"
      "Important (**)");
   ("RDA_R1_2_01M",
    mkCatalogEntry "RDA-R1.2-01M"
      "Metadata includes provenance information according to community-specific standards"
      "Important (**)");
   ("RDA_R1_2_02M",
    mkCatalogEntry "RDA-R1.2-02M"
      "Metadata includes provenance information according to a cross-community language"
      "Useful (*)");
   ("RDA_R1_3_01M",
    mkCatalogEntry "RDA-R1.3-01M"
      "Metadata complies with a community standard"
      "Essential (***)");
   ("RDA_R1_3_01D",
    mkCatalogEntry "RDA-R1.3-01D"
      "Data complies with a community standard"
      "Essential (***)");
   ("RDA_R1_3_02M",
    mkCatalogEntry "RDA-R1.3-02M"
      "Metadata is expressed in compliance with a machine-understandable community standard"
      "Essential (***)");
   ("RDA_R1_3_02D",
    mkCatalogEntry "RDA-R1.3-02D"
      "Data is expressed in compliance with a machine-understandable community standard"
      "Important (**)")
  ].

(** ** Tables

    A [PrettyTable] is kept as the data handed to it: the header, the
    alignment and width settings, and the rows, each with the flag that asks
    for a rule after it. *)

Record PrettyTable (num : Type) : Type := mkPrettyTable {
  field_names : list string;
  align : string;
  max_width : dict nat;
  rows : list (list (pyval num) * bool)
}.

Definition PrettyTable_new {num} : PrettyTable num := mkPrettyTable [] "c" [] [].

Definition set_field_names {num} (t : PrettyTable num) (names : list string) : PrettyTable num :=
  mkPrettyTable names (align t) (max_width t) (rows t).

Definition set_align {num} (t : PrettyTable num) (a : string) : PrettyTable num :=
  mkPrettyTable (field_names t) a (max_width t) (rows t).

Definition set_max_width {num} (t : PrettyTable num) (w : dict nat) : PrettyTable num :=
  mkPrettyTable (field_names t) (align t) w (rows t).

(** [table.add_row(row, divider=divider)]: a row that does not fit the
    header is refused; without a header, one is made up from the row. *)
Definition add_row {num} (t : PrettyTable num) (row : list (pyval num)) (divider : bool)
  : exc (PrettyTable num) :=
  match field_names t with
  | [] =>
      Ok (mkPrettyTable
            (map (fun n => "Field " ++ string_of_Z (Z.of_nat (n + 1))) (seq 0 (length row)))
            (align t) (max_width t) (rows t ++ [(row, divider)])%list)
  | _ :: _ =>
      if (length row =? length (field_names t))%nat then
        Ok (mkPrettyTable (field_names t) (align t) (max_width t)
                          (rows t ++ [(row, divider)])%list)
      else Raise ValueError
  end.

(** [table.add_rows(rows)] *)
Definition add_rows {num} (t : PrettyTable num) (rs : list (list (pyval num)))
  : exc (PrettyTable num) :=
  exc_fold (fun t row => add_row t row false) rs t.

(** A row of the score table, [[id, indicator, points, output_message]];
    [points] is the number itself or its two-decimal text. *)
Inductive ScoreCell (num : Type) : Type :=
| ScoreStr (s : string)
| ScoreNum (n : num).
Arguments ScoreStr {num} s.
Arguments ScoreNum {num} n.

Record ScoreRow (num : Type) : Type := mkScoreRow {
  row_id : string;
  row_indicator : string;
  row_score : ScoreCell num;
  row_message : pyval num
}.

Definition score_val {num} (c : ScoreCell num) : pyval num :=
  match c with
  | ScoreStr s => VStr s
  | ScoreNum n => VNum n
  end.

Definition row_cells {num} (r : ScoreRow num) : list (pyval num) :=
  [VStr (row_id r); VStr (row_indicator r); score_val (row_score r); row_message r].

Section Rows.
Context {num : Type} `{PyPrims num}.

(** *** [collect_score_data] *)

Definition score_row (indicator_result : Indicator num) : exc (ScoreRow num) :=
  (output_message <-
     format_msg_for_table
       (match msg indicator_result with Some m => m | None => VList [] end) ;;
   let points := points indicator_result in
   let points := if nis_float points then ScoreStr (nfmt_2f points) else ScoreNum points in
   let indicator_id_internal := upper (name indicator_result) in
   indicator_rda_data <- dict_getitem FAIR_RDA_INDICATORS indicator_id_internal ;;
   Ok (mkScoreRow (ce_id indicator_rda_data)
                  (ce_indicator indicator_rda_data)
                  points
                  output_message))%exc.

Definition collect_score_data (fair_results : EvaluationResult num)
  : exc (list (ScoreRow num)) :=
  (indicators_by_principle <-
     exc_fold (fun acc principle =>
                 principle_result <- dict_getitem fair_results principle ;;
                 Ok (dict_set acc principle (dict_values principle_result)))
              FAIR_PRINCIPLES [] ;;
   exc_fold (fun rows entry =>
               exc_fold (fun rows indicator_result =>
                           row <- score_row indicator_result ;;
                           Ok (rows ++ [row])%list)
                        (snd entry) rows)
            indicators_by_principle [])%exc.

(** *** The summary table of [print_table] *)

(** State of [for principle_name, principle_score in totals.items()]. *)
Record SummaryState : Type := mkSummaryState {
  ss_table : PrettyTable num;
  ss_principle_count : nat;
  ss_has_divider : bool
}.

Definition summary_row (principle_len : nat) (st : SummaryState) (item : string * num)
  : exc SummaryState :=
  let principle_name := fst item in
  let principle_score := snd item in
  let principle_count := (ss_principle_count st + 1)%nat in
  let has_divider :=
    if (principle_count =? principle_len)%nat then true else ss_has_divider st in
  let principle_score :=
    if nis_float principle_score then VStr (nfmt_2f principle_score)
    else VNum principle_score in
  (t <- add_row (ss_table st) [VStr (capitalize principle_name); principle_score]
          has_divider ;;
   Ok (mkSummaryState t principle_count has_divider))%exc.

Definition summary_table (totals : dict num) : exc (PrettyTable num) :=
  let table_summary := PrettyTable_new in
  let table_summary := set_field_names table_summary ["FAIR principle"; "Score"] in
  let table_summary := set_align table_summary "l" in
  let '(total_score, totals) :=
    (match dict_find totals "total" with
     | Some v => VNum v
     | None => VStr "NA"
     end, dict_remove totals "total") in
  let principle_len := length totals in
  (st <- exc_fold (summary_row principle_len) totals
           (mkSummaryState table_summary 0 false) ;;
   add_row (ss_table st) [VStr "Total"; total_score] false)%exc.

Definition detail_table (indicator_rows : list (ScoreRow num)) : exc (PrettyTable num) :=
  let table := PrettyTable_new in
  let table := set_field_names table ["ID"; "Indicator"; "Score"; "Output"] in
  let table := set_align table "l" in
  let table := set_max_width table [("Indicator", 40%nat); ("Output", 60%nat)] in
  add_rows table (map (@row_cells num) indicator_rows).

End Rows.
Arguments SummaryState num : clear implicits.

(** ** The process and its surroundings *)

(** The parsed command line ([get_input_args]). *)
Record Args : Type := mkArgs {
  arg_debug : bool;
  arg_id : option string;
  arg_plugin : option string;
  arg_repository : option string;
  arg_api_endpoint : string;
  arg_json : bool;
  arg_totals : bool;
  arg_logs : bool;
  arg_search : option string;
  arg_store_feather : bool;
  arg_store_csv : bool
}.

Inductive LogLevel : Type := DEBUG | INFO | ERROR.

(** What [search] hands back, and what [main] calls [identifier]: a string,
    [None] (no [--id] given) or the empty tuple. *)
Inductive Identifier : Type :=
| IdStr (s : string)
| IdNone
| IdEmptyTuple.

Record Candidate : Type := mkCandidate {
  cand_title : string;
  cand_id : string
}.

(** Column labels of a data frame: positions until names are assigned. *)
Inductive label : Type :=
| LInt (n : nat)
| LStr (s : string).

Record DataFrame (num : Type) : Type := mkDataFrame {
  df_columns : list label;
  df_rows : list (ScoreRow num)
}.

Record Request (num : Type) : Type := mkRequest {
  rq_method : string;
  rq_url : string;
  rq_params : dict string;
  rq_headers : dict string;
  rq_data : option (pyval num)          (* the document passed to json.dumps *)
}.

(** Responses, as decoded by [response.json()]. *)
Record EndpointsResponse (num : Type) : Type := mkEndpointsResponse {
  ep_status_code : Z;
  ep_json : pyval num
}.

(** [sr_results] is [None] when ["results"] is missing or empty, and the
    ["distributions"] list otherwise. *)
Record SearchResponse : Type := mkSearchResponse {
  sr_results : option (list Candidate)
}.

Record EvaluationResponse (num : Type) : Type := mkEvaluationResponse {
  ev_status_code : Z;
  ev_reason : string;
  ev_text : string;
  ev_results : dict (EvaluationResult num);   (* keyed by record identifier *)
  ev_logs : option (list string)              (* "evaluator_logs" *)
}.

(** What the outside world answers.  [connect_ex addr n] is the result of
    the [n]-th connection attempt of the run; a request answered by [None]
    raises [ConnectionError]. *)
Record Env (num : Type) : Type := mkEnv {
  connect_ex : string * Z -> nat -> Z;
  get_endpoints : Request num -> option (EndpointsResponse num);
  get_search : Request num -> option SearchResponse;
  post_evaluation : Request num -> option (EvaluationResponse num)
}.

Inductive Output (num : Type) : Type :=
| OutText (s : string)
| OutPrompt (s : string)
| OutTable (t : PrettyTable num)
| OutResult (r : EvaluationResult num).

(** What a written file holds.  A CSV file is a header line and one
    record per row; [to_csv] writes the index of the frame as a first,
    unnamed field.  A Feather file holds the frame.  A file that was opened
    for writing and never written to is empty. *)
Inductive FileContent (num : Type) : Type :=
| CsvFile (header : list string) (records : list (list (pyval num)))
| FeatherFile (frame : DataFrame num)
| EmptyFile.

(** What pyarrow does with a frame: it converts it to an Arrow table, it
    raises the given exception, or it is not installed. *)
Inductive ArrowAnswer : Type :=
| Converts
| Refuses (e : exn)
| NotInstalled.

(** Everything the run changes; the lists grow at the end.  The last two
    fields are what the file system and pyarrow answer: whether a file can
    be created at a path, and what becomes of a frame. *)
Record World (num : Type) : Type := mkWorld {
  w_stdin : list string;                         (* lines still to be typed *)
  w_stdout : list (Output num);
  w_logs : list (LogLevel * string);
  w_connects : list (string * Z);                (* addresses given to connect_ex *)
  w_sleeps : list Z;
  w_requests : list (Request num);
  w_files : list (string * FileContent num);
  g_metadata_endpoint : option (pyval num);      (* global metadata_endpoint *)
  g_title : option string;                       (* global title *)
  fs_creatable : string -> bool;
  pyarrow : DataFrame num -> ArrowAnswer
}.

(** A computation changes the world and returns or raises; the world
    reached when it raises is kept. *)
Definition M (num A : Type) : Type := World num -> exc A * World num.

Definition m_ret {num A} (a : A) : M num A := fun w => (Ok a, w).

Definition m_raise {num A} (e : exn) : M num A := fun w => (Raise e, w).

Definition m_bind {num A B} (c : M num A) (k : A -> M num B) : M num B :=
  fun w =>
    match c w with
    | (Ok a, w') => k a w'
    | (Raise e, w') => (Raise e, w')
    end.

Definition m_lift {num A} (c : exc A) : M num A := fun w => (c, w).

Declare Scope m_scope.
Delimit Scope m_scope with M.
Notation "x <- c ;; k" := (m_bind c (fun x => k))
  (at level 61, c at next level, right associativity) : m_scope.
Notation "c ;; k" := (m_bind c (fun _ => k))
  (at level 61, right associativity) : m_scope.

(** Exit status of the process when an exception reaches the top level:
    [SystemExit] carries it (the operating system keeps the low eight bits),
    any other exception ends the process with status 1. *)
Definition exit_status (e : exn) : Z :=
  match e with
  | SystemExit None => 0
  | SystemExit (Some code) => code mod 256
  | _ => 1
  end.

(** [response.ok]: the status is no client or server error. *)
Definition response_ok (status_code : Z) : bool :=
  negb ((400 <=? status_code) && (status_code <? 600)).

(** [os.path.join(path, name)] *)
Definition os_path_join (path name : string) : string :=
  match name with
  | String "/" _ => name
  | _ =>
      match path with
      | EmptyString => name
      | _ =>
          if String.eqb (substring (String.length path - 1) 1 path) "/"
          then path ++ name
          else path ++ "/" ++ name
      end
  end.

Definition in_strings (x : string) (l : list string) : bool :=
  existsb (String.eqb x) l.

Section Effects.
Context {num : Type} `{PyPrims num}.

Definition set_stdin (w : World num) (v : list string) : World num :=
  mkWorld v (w_stdout w) (w_logs w) (w_connects w) (w_sleeps w) (w_requests w)
          (w_files w) (g_metadata_endpoint w) (g_title w)
          (fs_creatable w) (pyarrow w).

Definition set_stdout (w : World num) (v : list (Output num)) : World num :=
  mkWorld (w_stdin w) v (w_logs w) (w_connects w) (w_sleeps w) (w_requests w)
          (w_files w) (g_metadata_endpoint w) (g_title w)
          (fs_creatable w) (pyarrow w).

Definition set_logs (w : World num) (v : list (LogLevel * string)) : World num :=
  mkWorld (w_stdin w) (w_stdout w) v (w_connects w) (w_sleeps w) (w_requests w)
          (w_files w) (g_metadata_endpoint w) (g_title w)
          (fs_creatable w) (pyarrow w).

Definition set_connects (w : World num) (v : list (string * Z)) : World num :=
  mkWorld (w_stdin w) (w_stdout w) (w_logs w) v (w_sleeps w) (w_requests w)
          (w_files w) (g_metadata_endpoint w) (g_title w)
          (fs_creatable w) (pyarrow w).

Definition set_sleeps (w : World num) (v : list Z) : World num :=
  mkWorld (w_stdin w) (w_stdout w) (w_logs w) (w_connects w) v (w_requests w)
          (w_files w) (g_metadata_endpoint w) (g_title w)
          (fs_creatable w) (pyarrow w).

Definition set_requests (w : World num) (v : list (Request num)) : World num :=
  mkWorld (w_stdin w) (w_stdout w) (w_logs w) (w_connects w) (w_sleeps w) v
          (w_files w) (g_metadata_endpoint w) (g_title w)
          (fs_creatable w) (pyarrow w).

Definition set_files (w : World num) (v : list (string * FileContent num))
  : World num :=
  mkWorld (w_stdin w) (w_stdout w) (w_logs w) (w_connects w) (w_sleeps w) (w_requests w)
          v (g_metadata_endpoint w) (g_title w)
          (fs_creatable w) (pyarrow w).

Definition set_metadata_endpoint (w : World num) (v : option (pyval num)) : World num :=
  mkWorld (w_stdin w) (w_stdout w) (w_logs w) (w_connects w) (w_sleeps w) (w_requests w)
          (w_files w) v (g_title w)
          (fs_creatable w) (pyarrow w).

Definition set_title (w : World num) (v : option string) : World num :=
  mkWorld (w_stdin w) (w_stdout w) (w_logs w) (w_connects w) (w_sleeps w) (w_requests w)
          (w_files w) (g_metadata_endpoint w) v
          (fs_creatable w) (pyarrow w).

(** [print(o)] *)
Definition print (o : Output num) : M num unit :=
  fun w => (Ok tt, set_stdout w (w_stdout w ++ [o])%list).

(** [logging.debug], [logging.info], [logging.error]: the call is recorded
    whatever the level of the logger; where the script appends the dump of
    a frame or of the whole response, the fixed text of the message is kept. *)
Definition logging (level : LogLevel) (message : string) : M num unit :=
  fun w => (Ok tt, set_logs w (w_logs w ++ [(level, message)])%list).

(** [input(prompt)]: shows the prompt and reads a line; at the end of the
    input it raises [EOFError]. *)
Definition input (prompt : string) : M num string :=
  fun w =>
    let w := set_stdout w (w_stdout w ++ [OutPrompt num prompt])%list in
    match w_stdin w with
    | [] => (Raise EOFError, w)
    | line :: rest => (Ok line, set_stdin w rest)
    end.

(** [time.sleep(seconds)] *)
Definition sleep (seconds : Z) : M num unit :=
  fun w => (Ok tt, set_sleeps w (w_sleeps w ++ [seconds])%list).

(** [sys.exit(code)] *)
Definition sys_exit {A} (code : option Z) : M num A := m_raise (SystemExit code).

Variable env : Env num.

(** [requests.get] and [requests.post]: the request is recorded, then
    answered. *)
Definition send {R} (answer : Request num -> option R) (rq : Request num) : M num R :=
  fun w =>
    let w := set_requests w (w_requests w ++ [rq])%list in
    match answer rq with
    | Some r => (Ok r, w)
    | None => (Raise ConnectionError, w)
    end.

(** *** [is_port_open] *)

Definition is_port_open : M num bool :=
  fun w =>
    let is_port_open := false in
    let address := ("127.0.0.1", 9090) in
    let result := connect_ex env address (length (w_connects w)) in
    let is_port_open := if result =? 0 then true else is_port_open in
    (Ok is_port_open, set_connects w (w_connects w ++ [address])%list).

(** *** The readiness loop of [main]: [for i in range(1, 5)] *)

Fixpoint wait_loop (range : list nat) (is_api_running : bool) : M num bool :=
  match range with
  | [] => m_ret is_api_running
  | _ :: range' =>
      (open <- is_port_open ;;
       if open then
         logging DEBUG "FAIR-eva API running on port 9090" ;;
         m_ret true
       else
         logging DEBUG "FAIR-eva API not running: port 9090 not open" ;;
         logging DEBUG "Sleeping for 5 seconds.." ;;
         sleep 5 ;;
         wait_loop range' is_api_running)%M
  end.

Definition wait_for_api : M num unit :=
  (is_api_running <- wait_loop (seq 1 4) false ;;
   if negb is_api_running then
     logging ERROR "FAIR-eva API was not able to launch: exiting" ;;
     sys_exit (Some (-1))
   else m_ret tt)%M.

(** *** [print_table] *)

Definition print_table (indicator_rows : list (ScoreRow num)) (totals : dict num)
  : M num unit :=
  (table <- m_lift (detail_table indicator_rows) ;;
   match totals with
   | [] => m_ret tt
   | _ :: _ =>
       table_summary <- m_lift (summary_table totals) ;;
       print (OutTable table_summary)
   end ;;
   print (OutTable table))%M.

End Effects.

Section Program.
Context {num : Type} `{PyPrims num}.
Variable gettext : string -> string.
Variable env : Env num.
Variable args : Args.

(** *** [search] *)

Definition search_table (distributions : list Candidate) : exc (PrettyTable num) :=
  let table := PrettyTable_new in
  let table := set_field_names table ["Title"; "Index"] in
  let table := set_align table "l" in
  let table := set_max_width table [("Output", 100%nat)] in
  exc_fold (fun table index =>
              let div := ((index + 1) mod 5 =? 0)%nat in
              (c <- match nth_error distributions index with
                    | Some c => Ok c
                    | None => Raise IndexError
                    end ;;
               add_row table [VStr (cand_title c); VNum (nint (Z.of_nat index))] div)%exc)
           (seq 0 (length distributions)) table.

Definition search_prompt (distributions : list Candidate) : string :=
  "Please choose the index of the item you want to evaluate (from 0 to "
    ++ string_of_Z (Z.of_nat (length distributions) - 1) ++ "): ".

(** [for j in range(max_tries)], with the values of [good] and [ind]
    when the loop is left. *)
Fixpoint search_loop (range : list nat) (distributions : list Candidate)
         (good : Z) (ind : option string) : M num (Z * option string) :=
  let number_of_items := length distributions in
  match range with
  | [] => m_ret (good, ind)
  | _ :: range' =>
      (ind <- input (search_prompt distributions) ;;
       good <- match py_int ind with
               | Some v =>
                   m_ret (if (-1 <? v) && (v <? Z.of_nat number_of_items) then 1 else good)
               | None =>
                   print (OutText num ("Please introduce an integer between 0 and "
                                         ++ string_of_Z (Z.of_nat number_of_items))) ;;
                   m_ret good
               end ;;
       if good =? 1 then m_ret (good, Some ind)
       else search_loop range' distributions good (Some ind))%M
  end.

Definition search (keytext : string) : M num Identifier :=
  let max_tries := 5%nat in
  let headers := [("accept", "application/json")] in
  let good := 0 in
  let params := [("facets", "false"); ("q", keytext)] in
  if match arg_plugin args with
     | Some plugin => in_strings plugin ["epos"; "epos_prod"]
     | None => false
     end
  then
    (endpoint <- (fun w => match g_metadata_endpoint w with
                           | Some (VStr e) => (Ok e, w)
                           | Some _ => (Raise TypeError, w)
                           | None => (Raise (NameError "metadata_endpoint"), w)
                           end) ;;
     response <- send (get_search env)
                   (mkRequest "GET" (endpoint ++ "/resources/search") params headers None) ;;
     match sr_results response with
     | None =>
         logging ERROR
           ("Could not find results for search query: "
              ++ py_str (VDict (map (fun kv => (fst kv, @VStr num (snd kv))) params))) ;;
         sys_exit (Some (-2))
     | Some distributions =>
         table <- m_lift (search_table distributions) ;;
         print (OutTable table) ;;
         r <- search_loop (seq 0 max_tries) distributions good None ;;
         if fst r =? 0 then
           print (OutText num "Max tries, restart program") ;;
           m_ret IdEmptyTuple
         else
           index <- m_lift match snd r with
                           | Some ind =>
                               match py_int ind with
                               | Some v => Ok v
                               | None => Raise ValueError
                               end
                           | None => Raise (NameError "ind")
                           end ;;
           c <- m_lift match nth_error distributions (Z.to_nat index) with
                       | Some c => Ok c
                       | None => Raise IndexError
                       end ;;
           (fun w => (Ok tt, set_title w (Some (cand_title c)))) ;;
           m_ret (IdStr (cand_id c))
     end)%M
  else
    (logging INFO "The search function is only availbale for the following plugins: epos" ;;
     sys_exit None)%M.

(** *** [store] *)

(** [pd.DataFrame(score_data)]: columns are numbered, and a frame built
    from no rows has no columns. *)
Definition pd_DataFrame (score_data : list (ScoreRow num)) : DataFrame num :=
  mkDataFrame (match score_data with
               | [] => []
               | _ :: _ => [LInt 0; LInt 1; LInt 2; LInt 3]
               end) score_data.

(** [dframe.columns = labels]: the number of labels has to match. *)
Definition set_columns (dframe : DataFrame num) (labels : list string) : exc (DataFrame num) :=
  if (length labels =? length (df_columns dframe))%nat
  then Ok (mkDataFrame (map LStr labels) (df_rows dframe))
  else Raise ValueError.

(** The number pandas reads in a cell of the score column: a text has to be
    a numeral. *)
Definition to_numeric_cell (c : ScoreCell num) : exc num :=
  match c with
  | ScoreNum n => Ok n
  | ScoreStr s =>
      match nparse s with
      | Some n => Ok n
      | None => Raise ValueError
      end
  end.

(** [dframe["score"] = column] *)
Fixpoint set_scores (rows : list (ScoreRow num)) (column : list num) : list (ScoreRow num) :=
  match rows, column with
  | r :: rows', n :: column' =>
      mkScoreRow (row_id r) (row_indicator r) (ScoreNum n) (row_message r)
      :: set_scores rows' column'
  | _, _ => []
  end.

(** [dframe["score"] = pd.to_numeric(dframe["score"])]: every text of the
    column is read as a number, and the column gets one dtype. *)
Definition to_numeric_score (dframe : DataFrame num) : exc (DataFrame num) :=
  (values <- exc_map (fun r => to_numeric_cell (row_score r)) (df_rows dframe) ;;
   column <- match pd_column values with
             | Some column => Ok column
             | None => Raise OverflowError
             end ;;
   Ok (mkDataFrame (df_columns dframe) (set_scores (df_rows dframe) column)))%exc.

Definition label_text (l : label) : string :=
  match l with
  | LInt n => string_of_Z (Z.of_nat n)
  | LStr s => s
  end.

(** The fields of the file [to_csv] writes: the index, 0, 1, 2, ..., comes
    first and its column has no name. *)
Definition csv_of (dframe : DataFrame num) : FileContent num :=
  CsvFile (EmptyString :: map label_text (df_columns dframe))
          (map (fun ir => VNum (nint (Z.of_nat (fst ir))) :: row_cells (snd ir))
               (combine (seq 0 (length (df_rows dframe))) (df_rows dframe))).

(** [dframe.to_csv(file_path)]: the file is opened for writing, which the
    file system may refuse. *)
Definition to_csv (dframe : DataFrame num) (file_path : string) : M num unit :=
  fun w =>
    if fs_creatable w file_path
    then (Ok tt, set_files w (w_files w ++ [(file_path, csv_of dframe)])%list)
    else (Raise OSError, w).

(** [dframe.to_feather(file_path)]: pyarrow is imported, the file is
    opened, and the frame is converted and written; a frame that pyarrow
    refuses leaves the file empty. *)
Definition to_feather (dframe : DataFrame num) (file_path : string) : M num unit :=
  fun w =>
    match pyarrow w dframe with
    | NotInstalled => (Raise ImportError, w)
    | answer =>
        if fs_creatable w file_path then
          match answer with
          | Refuses e =>
              (Raise e, set_files w (w_files w ++ [(file_path, EmptyFile num)])%list)
          | _ => (Ok tt, set_files w (w_files w ++ [(file_path, FeatherFile dframe)])%list)
          end
        else (Raise OSError, w)
    end.

Definition store (identifier : string) (score_data : list (ScoreRow num))
           (file_format : string) (path : string) : M num unit :=
  (dframe <- m_ret (pd_DataFrame score_data) ;;
   dframe <- m_lift (set_columns dframe
                       ["fair_indicator"; "fair_principle"; "score"; "message"]) ;;
   dframe <- m_lift (to_numeric_score dframe) ;;
   logging DEBUG "Resultant Pandas data frame" ;;
   let file_name := "fair_eva_results-" ++ identifier ++ "." ++ file_format in
   let file_path := os_path_join path file_name in
   (if negb (in_strings file_format ["feather"; "csv"]) then
      logging ERROR ("Output file format not supported: " ++ file_format) ;;
      sys_exit (Some (-1))
    else
      logging DEBUG ("Requested " ++ file_format ++ " output format") ;;
      if in_strings file_format ["feather"] then to_feather dframe file_path
      else if in_strings file_format ["csv"] then to_csv dframe file_path
      else m_ret tt) ;;
   logging INFO ("Stored FAIR assessment results to: " ++ file_path))%M.

(** *** [main] *)

(** Lines 564-579: the metadata endpoint is taken from [--repository] or
    asked from the service; the result is the value [main] returns early
    with, if it does. *)
Definition resolve_metadata_endpoint : M num (option string) :=
  match arg_repository args with
  | None =>
      (plugin <- m_lift match arg_plugin args with
                        | Some plugin => Ok plugin
                        | None => Raise TypeError
                        end ;;
       response <- send (get_endpoints env)
                     (mkRequest "GET"
                        ("http://localhost:9090/v1.0/endpoints?plugin=" ++ plugin)
                        [] [] None) ;;
       if ep_status_code response =? 404 then
         keys <- m_lift match ep_json response with
                        | VDict entries => Ok (map fst entries)
                        | _ => Raise AttributeError
                        end ;;
         print (OutText num
                  ("Input plugin not found. Look for plugins in the plugins folder. The accepted plugins for this script are: "
                     ++ "dict_keys([" ++ join ", " (map str_repr keys) ++ "])")) ;;
         m_ret (Some "Input plugin not found")
       else
         (fun w => (Ok tt, set_metadata_endpoint w (Some (ep_json response)))) ;;
         m_ret None)%M
  | Some repository =>
      (fun w => (Ok None, set_metadata_endpoint w (Some (VStr repository))))
  end.

Definition identifier_value (identifier : Identifier) : pyval num :=
  match identifier with
  | IdStr s => VStr s
  | IdNone => VNone
  | IdEmptyTuple => VList []
  end.

Definition truthy (s : option string) : bool :=
  match s with
  | Some (String _ _) => true
  | _ => false
  end.

(** Lines 595-641: everything after the readiness loop. *)
Definition evaluate (url : string) : M num (option string) :=
  (identifier <- (if truthy (arg_search args)
                  then search (match arg_search args with Some k => k | None => EmptyString end)
                  else m_ret (match arg_id args with Some i => IdStr i | None => IdNone end)) ;;
   let headers := [("Content-Type", "application/json")] in
   endpoint <- (fun w => match g_metadata_endpoint w with
                         | Some e => (Ok e, w)
                         | None => (Raise (NameError "metadata_endpoint"), w)
                         end) ;;
   let data := VDict [("id", identifier_value identifier);
                      ("repo", match arg_plugin args with Some p => VStr p | None => VNone end);
                      ("oai_base", endpoint);
                      ("lang", VStr "EN")] in
   (* search == True compares the function with True: always the else branch *)
   identifier <- m_lift match identifier with
                        | IdStr s => Ok s
                        | _ => Raise TypeError
                        end ;;
   logging INFO ("Evaluating item with id : " ++ identifier) ;;
   r <- send (post_evaluation env) (mkRequest "POST" url [] headers (Some data)) ;;
   (if negb (response_ok (ev_status_code r)) then
      logging ERROR ("Error returned by FAIR-EVA API: " ++ ev_reason r) ;;
      logging DEBUG (ev_text r) ;;
      sys_exit (Some (ev_status_code r))
    else m_ret tt) ;;
   logging DEBUG "FAIR results (raw) from FAIR-EVA" ;;
   let results := dict_get (ev_results r) identifier [] in
   logging DEBUG "FAIR results for (meta)data ID" ;;
   score_results <- m_lift (collect_score_data results) ;;
   (if arg_json args then print (OutResult results)
    else
      totals <- (if arg_totals args then
                   pr <- m_lift (calcpoints gettext results) ;;
                   m_ret (fst pr)
                 else m_ret []) ;;
      print_table score_results totals) ;;
   (if arg_logs args then
      print (OutText num (newline ++ "----- Evaluator logs -----")) ;;
      lines <- m_lift match ev_logs r with
                      | Some lines => Ok lines
                      | None => Raise (KeyError "evaluator_logs")
                      end ;;
      (fix each (lines : list string) : M num unit :=
         match lines with
         | [] => m_ret tt
         | line :: lines' => print (OutText num line) ;; each lines'
         end) lines
    else m_ret tt) ;;
   (if arg_store_feather args then store identifier score_results "feather" "/tmp"
    else m_ret tt) ;;
   (if arg_store_csv args then store identifier score_results "csv" "/tmp"
    else m_ret tt) ;;
   m_ret None)%M.

(** Lines 564-594: endpoint resolution and the readiness gate. *)
Definition startup : M num (option string) :=
  (early <- resolve_metadata_endpoint ;;
   match early with
   | Some v => m_ret (Some v)
   | None => wait_for_api env ;; m_ret None
   end)%M.

Definition main : M num (option string) :=
  let url := arg_api_endpoint args in
  (early <- startup ;;
   match early with
   | Some v => m_ret (Some v)
   | None => evaluate url
   end)%M.

End Program.

(** ** An implementation of the primitives

    Integers are exact and floats are rationals; rounding is to the nearest
    decimal, ties to even.  It is used to run the definitions on concrete
    inputs. *)

Module ExactNum.

Inductive pynum : Type :=
| PInt (z : Z)
| PFloat (q : Q).

Definition to_Q (x : pynum) : Q :=
  match x with
  | PInt z => inject_Z z
  | PFloat q => q
  end.

Definition add (x y : pynum) : pynum :=
  match x, y with
  | PInt a, PInt b => PInt (a + b)
  | _, _ => PFloat (Qred (to_Q x + to_Q y))
  end.

Definition mul (x y : pynum) : pynum :=
  match x, y with
  | PInt a, PInt b => PInt (a * b)
  | _, _ => PFloat (Qred (to_Q x * to_Q y))
  end.

Definition is_zero (x : pynum) : bool := Qnum (to_Q x) =? 0.

Definition div (x y : pynum) : pynum := PFloat (Qred (to_Q x / to_Q y)).

(** The integer nearest to [q], ties to even. *)
Definition round_half_even (q : Q) : Z :=
  let f := Qfloor q in
  match Qcompare (q - inject_Z f) (1 # 2) with
  | Lt => f
  | Gt => f + 1
  | Eq => if Z.even f then f else f + 1
  end.

Definition round_digits (n : nat) (x : pynum) : pynum :=
  match x with
  | PInt z => PInt z
  | PFloat q =>
      let scale := 10 ^ Z.of_nat n in
      PFloat (Qred (inject_Z (round_half_even (q * inject_Z scale)) / inject_Z scale))
  end.

Definition is_float (x : pynum) : bool :=
  match x with
  | PInt _ => false
  | PFloat _ => true
  end.

Fixpoint zeros (n : nat) : string :=
  match n with
  | O => EmptyString
  | S n' => "0" ++ zeros n'
  end.

Definition pad_zeros (width : nat) (s : string) : string :=
  zeros (width - String.length s) ++ s.

(** The integer [m], read in units of [10 ^ -digits], as a decimal. *)
Definition decimal (digits : nat) (m : Z) : string :=
  let scale := 10 ^ Z.of_nat digits in
  let a := Z.abs m in
  (if m <? 0 then "-" else EmptyString)
    ++ string_of_Z (a / scale) ++ "." ++ pad_zeros digits (string_of_Z (a mod scale)).

Definition fmt_2f (x : pynum) : string :=
  decimal 2 (round_half_even (to_Q x * 100)).

(** The shortest decimal (at least one place, at most [fuel] more) that
    is exactly [q]; the last candidate is rounded. *)
Fixpoint float_str (fuel : nat) (digits : nat) (q : Q) : string :=
  let scaled := Qred (q * inject_Z (10 ^ Z.of_nat digits)) in
  match fuel with
  | O => decimal digits (round_half_even scaled)
  | S fuel' =>
      if (Zpos (Qden scaled) =? 1) then decimal digits (Qnum scaled)
      else float_str fuel' (S digits) q
  end.

Definition str (x : pynum) : string :=
  match x with
  | PInt z => string_of_Z z
  | PFloat q => float_str 16 1 q
  end.

Definition digit (c : ascii) : option Z :=
  let n := nat_of_ascii c in
  if (48 <=? n)%nat && (n <=? 57)%nat then Some (Z.of_nat (n - 48)) else None.

Definition is_space (c : ascii) : bool :=
  let n := nat_of_ascii c in
  (n =? 32)%nat || ((9 <=? n)%nat && (n <=? 13)%nat).

Fixpoint lstrip (l : list ascii) : list ascii :=
  match l with
  | c :: l' => if is_space c then lstrip l' else l
  | [] => []
  end.

Definition strip (s : string) : list ascii :=
  rev (lstrip (rev (lstrip (list_ascii_of_string s)))).

(** Digits, with single underscores allowed between them. *)
Fixpoint digits (l : list ascii) (acc : Z) (after_digit : bool) : option Z :=
  match l with
  | [] => if after_digit then Some acc else None
  | c :: l' =>
      match digit c with
      | Some d => digits l' (10 * acc + d) true
      | None =>
          if Ascii.eqb c "_" && after_digit then digits l' acc false else None
      end
  end.

(** [int(s)] on ASCII text. *)
Definition int (s : string) : option Z :=
  match strip s with
  | "-"%char :: l => option_map Z.opp (digits l 0 false)
  | "+"%char :: l => digits l 0 false
  | l => digits l 0 false
  end.

Fixpoint split_dot (l : list ascii) (before : list ascii) : list ascii * option (list ascii) :=
  match l with
  | [] => (rev before, None)
  | c :: l' => if Ascii.eqb c "." then (rev before, Some l') else split_dot l' (c :: before)
  end.

Fixpoint plain_digits (l : list ascii) (acc : Z) : option Z :=
  match l with
  | [] => Some acc
  | c :: l' =>
      match digit c with
      | Some d => plain_digits l' (10 * acc + d)
      | None => None
      end
  end.

(** A decimal numeral read by [pandas.to_numeric]: an int without a
    point, a float with one. *)
Definition parse (s : string) : option pynum :=
  let l := strip s in
  let '(neg, l) := match l with
                   | "-"%char :: l' => (true, l')
                   | _ => (false, l)
                   end in
  let sign := if neg then (-1) else 1 in
  match split_dot l [] with
  | ([], _) => None
  | (ip, None) => option_map (fun z => PInt (sign * z)) (plain_digits ip 0)
  | (ip, Some fp) =>
      match plain_digits ip 0, plain_digits fp 0 with
      | Some a, Some b =>
          let scale := 10 ^ Z.of_nat (length fp) in
          Some (PFloat (Qred (inject_Z (sign * (a * scale + b)) / inject_Z scale)))
      | _, _ => None
      end
  end.

(** [repr] of text without quotes or escapes. *)
Definition repr_str (s : string) : string := "'" ++ s ++ "'".

(** An int converts to a float when it rounds to a double: the largest
    double is 2^1024 - 2^971, and half a unit in the last place more rounds
    beyond it. *)
Definition float_limit : Z := 2 ^ 1024 - 2 ^ 970.

Definition too_large (z : Z) : bool := float_limit <=? Z.abs z.

(** [+], [*] and [/] convert an int that meets a float. *)
Definition mixed_overflow (x y : pynum) : bool :=
  match x, y with
  | PInt a, PFloat _ => too_large a
  | PFloat _, PInt b => too_large b
  | _, _ => false
  end.

(** The quotient of two ints is rounded to a double. *)
Definition quotient_overflow (x y : pynum) : bool :=
  match x, y with
  | PInt a, PInt b => Qle_bool (inject_Z float_limit) (Qabs (inject_Z a / inject_Z b))
  | _, _ => false
  end.

Definition pos (x : pynum) : bool := 0 <? Qnum (to_Q x).

Definition to_float (x : pynum) : pynum := PFloat (Qred (to_Q x)).

(** Every value is converted to a double on the way, which an int may be
    too large for; a column with a float in it, or with ints that no one
    64-bit integer type holds, is a column of floats. *)
Definition column (l : list pynum) : option (list pynum) :=
  if existsb (fun x => match x with PInt z => too_large z | PFloat _ => false end) l
  then None
  else if existsb is_float l
          || existsb (fun x => match x with
                               | PInt z => (z <? - 2 ^ 63) || (2 ^ 64 <=? z)
                               | PFloat _ => false
                               end) l
          || (existsb (fun x => match x with PInt z => z <? 0 | PFloat _ => false end) l
              && existsb (fun x => match x with PInt z => 2 ^ 63 <=? z | PFloat _ => false end) l)
  then Some (map to_float l)
  else Some l.

#[global] Instance prims : PyPrims pynum.
Proof.
  refine {| nint := PInt;
            nadd := add;
            nmul := mul;
            nis_zero := is_zero;
            ndiv := div;
            nround := round_digits;
            nis_float := is_float;
            nfmt_2f := fmt_2f;
            nstr := str;
            nparse := parse;
            str_repr := repr_str;
            py_int := int;
            nadd_overflow := mixed_overflow;
            nmul_overflow := mixed_overflow;
            ndiv_operand_overflow := mixed_overflow;
            ndiv_result_overflow := quotient_overflow;
            npos := pos;
            pd_column := column;
            nis_zero_0 := eq_refl |}.
  - intros l c. unfold column.
    destruct (existsb _ l); [discriminate|].
    destruct (existsb is_float l || existsb _ l || _).
    + intros [= <-]. apply length_map.
    + now intros [= <-].
  - intros x. unfold pos, is_zero. intros Hp.
    apply Z.ltb_lt in Hp. apply Z.eqb_neq. lia.
  - assert (P : forall q : Q, 0 < Qnum q -> 0 < Qnum (Qred (inject_Z 0 + q))).
    { intros q Hq.
      assert (L : (0 < Qred (inject_Z 0 + q))%Q).
      { rewrite Qred_correct, Qplus_0_l. unfold Qlt. simpl. lia. }
      destruct (Qred (inject_Z 0 + q)) as [n d]. unfold Qlt in L. simpl in *. lia. }
    intros [b | q]; unfold pos, add; cbn [to_Q]; intros Hp; apply Z.ltb_lt in Hp;
      apply Z.ltb_lt.
    + exact Hp.
    + now apply P.
  - assert (P : forall p q : Q, 0 < Qnum p -> 0 < Qnum q -> 0 < Qnum (Qred (p + q))).
    { intros p q Hp Hq.
      assert (L : (0 < Qred (p + q))%Q).
      { rewrite Qred_correct.
        apply Qlt_le_trans with (y := (p + 0)%Q).
        - rewrite Qplus_0_r. unfold Qlt. simpl. lia.
        - apply Qplus_le_r. unfold Qle. simpl. lia. }
      destruct (Qred (p + q)) as [n d]. unfold Qlt in L. simpl in *. lia. }
    intros [a | p] [b | q]; unfold pos, add; cbn [to_Q]; intros Hx Hy;
      apply Z.ltb_lt in Hx; apply Z.ltb_lt in Hy; apply Z.ltb_lt.
    + simpl in *. lia.
    + apply P; [simpl in *; lia | exact Hy].
    + apply P; [exact Hx | simpl in *; lia].
    + now apply P.
Defined.

End ExactNum.


(** ** The message shapes of the specification *)

Section MessageShapes.
Context {num : Type} `{PyPrims num}.

(** The items of a sequence of plain text. *)
Fixpoint plain_texts (items : list (pyval num)) : option (list string) :=
  match items with
  | [] => Some []
  | VStr s :: items' => option_map (cons s) (plain_texts items')
  | _ :: _ => None
  end.

(** The records of a sequence of mappings. *)
Fixpoint records (items : list (pyval num)) : option (list (dict (pyval num))) :=
  match items with
  | [] => Some []
  | VDict d :: items' => option_map (cons d) (records items')
  | _ :: _ => None
  end.

(** ["<message> (points: <points>)"] for a record that has both fields. *)
Definition annotated (d : dict (pyval num)) : option string :=
  match dict_find d "message", dict_find d "points" with
  | Some m, Some p => Some (py_str m ++ " (points: " ++ py_str p ++ ")")
  | _, _ => None
  end.

Fixpoint annotated_all (ds : list (dict (pyval num))) : option (list string) :=
  match ds with
  | [] => Some []
  | d :: ds' =>
      match annotated d, annotated_all ds' with
      | Some l, Some ls => Some (l :: ls)
      | _, _ => None
      end
  end.

(** The display message the specification gives to each message shape;
    [None] for a value of no listed shape. *)
Definition normalized_message (message : pyval num) : option (pyval num) :=
  match message with
  | VStr s => Some (VStr s)
  | VDict _ => Some (VStr (py_repr message))
  | VList [] => Some (VStr "Not available")
  | VList items =>
      match plain_texts items with
      | Some texts => Some (VStr (join newline texts))
      | None =>
          match records items with
          | Some [d] => Some (dict_get d "message" (VStr "Not available"))
          | Some ds => option_map (fun ls => VStr (join newline ls)) (annotated_all ds)
          | None => None
          end
      end
  | _ => None
  end.

End MessageShapes.

(** ** Aggregation, step by step *)

Section AggregationSteps.
Context {num : Type} `{PyPrims num}.
Variable gettext : string -> string.

(** The totals after a pass of the inner loop over [l] that started from
    [t], and whether a step of that pass raises [OverflowError]. *)
Definition totals_after (t : Totals num) (l : list (Indicator num)) : Totals num :=
  mkTotals
    (fold_left (fun acc i => nadd acc (nmul (points i) (weight i))) l (result_points t))
    (fold_left (fun acc i => nadd acc (weight i)) l (weight_of_tests t))
    (fold_left (fun acc i => nadd acc (weight i)) l (g_weight t))
    (fold_left (fun acc i => nadd acc (nmul (points i) (weight i))) l (g_points t)).

Definition loop_overflows (t : Totals num) (l : list (Indicator num)) : bool :=
  product_overflows l
  || sum_overflows (weight_of_tests t) (weights l)
  || sum_overflows (g_weight t) (weights l)
  || sum_overflows (result_points t) (products l)
  || sum_overflows (g_points t) (products l).

(** The exception of [x / y], if it raises. *)
Definition quotient_fault (x y : num) : option exn :=
  if ndiv_operand_overflow x y then Some OverflowError
  else if nis_zero y then Some ZeroDivisionError
  else if ndiv_result_overflow x y then Some OverflowError
  else None.

(** The exception at which the iteration of the outer loop for a principle
    with the indicators [l] stops, if it does, when the two global totals
    are [rp] and [wt] at its start. *)
Definition principle_fault (rp wt : num) (l : list (Indicator num)) : option exn :=
  if loop_overflows (mkTotals rp wt nzero nzero) l then Some OverflowError
  else quotient_fault (weighted_points l) (weight_sum l).

(** The state a successful iteration of the outer loop leaves. *)
Definition after_principle (st : CalcState num) (key : string) (p : PrincipleResult num)
  : CalcState num :=
  mkCalcState
    (dict_set (cs_result st) key (map (fun kv => (fst kv, annotate gettext (snd kv))) p))
    (dict_set (cs_points st) key (nround 3 (weighted_average (dict_values p))))
    (fold_left (fun acc i => nadd acc (nmul (points i) (weight i)))
               (dict_values p) (cs_result_points st))
    (fold_left (fun acc i => nadd acc (weight i)) (dict_values p) (cs_weight_of_tests st)).

End AggregationSteps.

(** ** What the two tables of [print_table] hold *)

(** The table [t] with [rs] added below its rows. *)
Definition with_rows {num} (t : PrettyTable num) (rs : list (list (pyval num) * bool))
  : PrettyTable num :=
  mkPrettyTable (field_names t) (align t) (max_width t) (rows t ++ rs)%list.

(** Rows of which only the last asks for a rule below it. *)
Fixpoint mark_last {A} (l : list A) : list (A * bool) :=
  match l with
  | [] => []
  | [x] => [(x, true)]
  | x :: l' => (x, false) :: mark_last l'
  end.

(** [rule_below t k]: a rule is drawn below row [k]; [rule_above t k]: a
    rule is drawn between row [k] and the row before it. *)
Definition rule_below {num} (t : PrettyTable num) (k : nat) : bool :=
  snd (nth k (rows t) ([], false)).

Definition rule_above {num} (t : PrettyTable num) (k : nat) : bool :=
  match k with
  | O => false
  | S j => rule_below t j
  end.

Section TableContents.
Context {num : Type} `{PyPrims num}.

Definition score_cell (score : num) : pyval num :=
  if nis_float score then VStr (nfmt_2f score) else VNum score.

Definition principle_row (item : string * num) : list (pyval num) :=
  [VStr (capitalize (fst item)); score_cell (snd item)].

Definition total_row (totals : dict num) : list (pyval num) :=
  [VStr "Total";
   match dict_find totals "total" with
   | Some v => VNum v
   | None => VStr "NA"
   end].

(** One row per key other than ["total"], a rule below the last of them,
    then the total. *)
Definition expected_summary (totals : dict num) : PrettyTable num :=
  mkPrettyTable ["FAIR principle"; "Score"] "l" []
    (mark_last (map principle_row (dict_remove totals "total"))
       ++ [(total_row totals, false)])%list.

Definition expected_detail (indicator_rows : list (ScoreRow num)) : PrettyTable num :=
  mkPrettyTable ["ID"; "Indicator"; "Score"; "Output"] "l"
    [("Indicator", 40%nat); ("Output", 60%nat)]
    (map (fun r => (row_cells r, false)) indicator_rows).

End TableContents.

(** ** The readiness probe, seen from outside *)

(** Result of the [j]-th connection attempt ([j] from 1) made from world [w]. *)
Definition probe_attempt {num} (env : Env num) (w : World num) (j : nat) : Z :=
  connect_ex env ("127.0.0.1", 9090) (length (w_connects w) + (j - 1))%nat.

Definition address : string * Z := ("127.0.0.1", 9090).

(** The world after a refused attempt and the wait that follows it. *)
Definition after_failure {num} (w : World num) : World num :=
  set_sleeps
    (set_logs
       (set_logs (set_connects w (w_connects w ++ [address]))
                 (w_logs w ++ [(DEBUG, "FAIR-eva API not running: port 9090 not open")]))
       ((w_logs w ++ [(DEBUG, "FAIR-eva API not running: port 9090 not open")])
          ++ [(DEBUG, "Sleeping for 5 seconds..")]))
    (w_sleeps w ++ [5])%list.

(** The command line with another [--api-endpoint]. *)
Definition with_api_endpoint (args : Args) (url : string) : Args :=
  mkArgs (arg_debug args) (arg_id args) (arg_plugin args) (arg_repository args)
         url (arg_json args) (arg_totals args) (arg_logs args) (arg_search args)
         (arg_store_feather args) (arg_store_csv args).

(** ** Disambiguation, seen from outside *)

(** The typed line parses as an integer within [0, n - 1]. *)
Definition valid_index {num} `{PyPrims num} (n : nat) (ind : string) : bool :=
  match py_int ind with
  | Some v => (-1 <? v) && (v <? Z.of_nat n)
  | None => false
  end.

(** The request [search] sends for [keytext]. *)
Definition search_request {num} (endpoint keytext : string) : Request num :=
  mkRequest "GET" (endpoint ++ "/resources/search")
            [("facets", "false"); ("q", keytext)]
            [("accept", "application/json")] None.

(** The world once a line has been read at the prompt [p]. *)
Definition after_input {num} (w : World num) (p : string) (rest : list string) : World num :=
  set_stdin (set_stdout w (w_stdout w ++ [OutPrompt num p])) rest.

(** ** The run, seen from outside *)

(** The evaluation request [main] posts. *)
Definition evaluation_request {num} (url identifier : string) (plugin : option string)
           (endpoint : pyval num) : Request num :=
  mkRequest "POST" url [] [("Content-Type", "application/json")]
            (Some (VDict [("id", VStr identifier);
                          ("repo", match plugin with Some p => VStr p | None => VNone end);
                          ("oai_base", endpoint);
                          ("lang", VStr "EN")])).

(** The world after a first connection attempt that succeeds. *)
Definition after_success {num} (w : World num) : World num :=
  set_logs (set_connects w (w_connects w ++ [address]))
           (w_logs w ++ [(DEBUG, "FAIR-eva API running on port 9090")]).

(** What a computation leaves alone when it only talks to the terminal. *)
Definition console_only {num} (w w' : World num) : Prop :=
  w_logs w' = w_logs w
  /\ w_connects w' = w_connects w
  /\ w_sleeps w' = w_sleeps w
  /\ w_requests w' = w_requests w
  /\ w_files w' = w_files w
  /\ g_metadata_endpoint w' = g_metadata_endpoint w
  /\ g_title w' = g_title w.

(** ** The stored frame *)

Section StoredFrame.
Context {num : Type} `{PyPrims num}.

(** The rows with every score read as a number; [None] when a score is a
    text that is no numeral. *)
Fixpoint numeric_scores (rows : list (ScoreRow num)) : option (list (ScoreRow num)) :=
  match rows with
  | [] => Some []
  | r :: rows' =>
      match (match row_score r with
             | ScoreNum n => Some n
             | ScoreStr s => nparse s
             end), numeric_scores rows' with
      | Some n, Some rs =>
          Some (mkScoreRow (row_id r) (row_indicator r) (ScoreNum n) (row_message r) :: rs)
      | _, _ => None
      end
  end.

(** The numbers read in the score column, top to bottom; [None] when a
    score is a text that is no numeral. *)
Fixpoint score_values (rows : list (ScoreRow num)) : option (list num) :=
  match rows with
  | [] => Some []
  | r :: rows' =>
      match (match row_score r with
             | ScoreNum n => Some n
             | ScoreStr s => nparse s
             end), score_values rows' with
      | Some n, Some ns => Some (n :: ns)
      | _, _ => None
      end
  end.

(** The header of the stored CSV file and its records: the position of the
    row, the two texts that identify the indicator, the score and the
    message. *)
Definition csv_header : list string :=
  [EmptyString; "fair_indicator"; "fair_principle"; "score"; "message"].

Definition csv_record (n : nat) (r : ScoreRow num) (score : num) : list (pyval num) :=
  [VNum (nint (Z.of_nat n)); VStr (row_id r); VStr (row_indicator r); VNum score;
   row_message r].

Fixpoint csv_records (n : nat) (rows : list (ScoreRow num)) (column : list num)
  : list (list (pyval num)) :=
  match rows, column with
  | r :: rows', score :: column' => csv_record n r score :: csv_records (S n) rows' column'
  | _, _ => []
  end.

(** The four labelled columns over [rows]. *)
Definition stored_frame (rows : list (ScoreRow num)) : DataFrame num :=
  mkDataFrame [LStr "fair_indicator"; LStr "fair_principle"; LStr "score"; LStr "message"] rows.

End StoredFrame.

(** ** The outcome of [calcpoints], case by case *)

Section AggregationOutcome.
Context {num : Type} `{PyPrims num}.
Variable gettext : string -> string.

(** A principle with the two display fields set on each indicator. *)
Definition annotate_principle (p : PrincipleResult num) : PrincipleResult num :=
  map (fun kv => (fst kv, annotate gettext (snd kv))) p.

(** The result once the four principles have been annotated. *)
Definition annotated_result (result : EvaluationResult num) (f a i r : PrincipleResult num)
  : EvaluationResult num :=
  dict_set
    (dict_set
       (dict_set (dict_set result "findable" (annotate_principle f))
                 "accessible" (annotate_principle a))
       "interoperable" (annotate_principle i))
    "reusable" (annotate_principle r).

(** The checks in the order [calcpoints] meets them: each principle is
    looked up, summed and divided before the next is looked up; the total
    comes last. *)
Definition calcpoints_outcome (result : EvaluationResult num)
  : exc (dict num * EvaluationResult num) :=
  match dict_find result "findable" with
  | None => Raise (KeyError "findable")
  | Some f =>
  let F := dict_values f in
  match principle_fault nzero nzero F with Some e => Raise e | None =>
  match dict_find result "accessible" with
  | None => Raise (KeyError "accessible")
  | Some a =>
  let A := dict_values a in
  match principle_fault (weighted_points F) (weight_sum F) A with Some e => Raise e | None =>
  match dict_find result "interoperable" with
  | None => Raise (KeyError "interoperable")
  | Some i =>
  let I := dict_values i in
  match principle_fault (weighted_points (F ++ A)) (weight_sum (F ++ A)) I with
  | Some e => Raise e
  | None =>
  match dict_find result "reusable" with
  | None => Raise (KeyError "reusable")
  | Some r =>
  let R := dict_values r in
  match principle_fault (weighted_points (F ++ A ++ I)) (weight_sum (F ++ A ++ I)) R with
  | Some e => Raise e
  | None =>
  match quotient_fault (weighted_points (all_indicators f a i r))
                       (weight_sum (all_indicators f a i r)) with
  | Some e => Raise e
  | None => Ok (score_summary f a i r, annotated_result result f a i r)
  end end end end end end end end end.

End AggregationOutcome.

(** ** Missing principles *)

(** The first of the four principles, in their fixed order, that a result
    does not have. *)
Definition first_missing {V} (result : dict V) : option string :=
  find (fun key => match dict_find result key with
                   | None => true
                   | Some _ => false
                   end) FAIR_PRINCIPLES.

(** ** What the readiness loop leaves alone *)

(** The terminal, the requests, the files and the two globals are the same. *)
Definition probe_frame {num} (w w' : World num) : Prop :=
  w_stdin w' = w_stdin w
  /\ w_stdout w' = w_stdout w
  /\ w_requests w' = w_requests w
  /\ w_files w' = w_files w
  /\ g_metadata_endpoint w' = g_metadata_endpoint w
  /\ g_title w' = g_title w.

(** ** What the operator sees during disambiguation *)

Section SearchOutput.
Context {num : Type} `{PyPrims num}.

(** The candidate table: title and position, a rule below every fifth row. *)
Definition search_rows (distributions : list Candidate) : list (list (pyval num) * bool) :=
  map (fun index =>
         ([VStr (cand_title (nth index distributions (mkCandidate EmptyString EmptyString)));
           VNum (nint (Z.of_nat index))],
          ((index + 1) mod 5 =? 0)%nat))
      (seq 0 (length distributions)).

Definition expected_search_table (distributions : list Candidate) : PrettyTable num :=
  mkPrettyTable ["Title"; "Index"] "l" [("Output", 100%nat)] (search_rows distributions).

(** What one rejected line puts on the terminal: the prompt, and the hint
    only when the line is no integer. *)
Definition attempt_output (distributions : list Candidate) (ind : string)
  : list (Output num) :=
  OutPrompt num (search_prompt distributions)
    :: match py_int ind with
       | Some _ => []
       | None =>
           [OutText num ("Please introduce an integer between 0 and "
                           ++ string_of_Z (Z.of_nat (length distributions)))]
       end.

End SearchOutput.

(** ** More of the run, seen from outside *)

(** The request [main] sends to learn the metadata endpoint of a plugin. *)
Definition endpoints_request {num} (plugin : string) : Request num :=
  mkRequest "GET" ("http://localhost:9090/v1.0/endpoints?plugin=" ++ plugin) [] [] None.

(** The line [main] prints when the service does not know the plugin. *)
Definition plugin_not_found {num} `{PyPrims num} (plugins : list string) : Output num :=
  OutText num
    ("Input plugin not found. Look for plugins in the plugins folder. The accepted plugins for this script are: "
       ++ "dict_keys([" ++ join ", " (map str_repr plugins) ++ "])").

(** The tables [print_table] prints. *)
Definition printed_tables {num} `{PyPrims num}
           (indicator_rows : list (ScoreRow num)) (totals : dict num) : list (Output num) :=
  (match totals with
   | [] => []
   | _ :: _ => [OutTable (expected_summary totals)]
   end ++ [OutTable (expected_detail indicator_rows)])%list.

(** ** Log lines: [Formatter] and the level of the logger *)

Definition levelname (level : LogLevel) : string :=
  match level with
  | DEBUG => "DEBUG"
  | INFO => "INFO"
  | ERROR => "ERROR"
  end.

Definition levelno (level : LogLevel) : Z :=
  match level with
  | DEBUG => 10
  | INFO => 20
  | ERROR => 40
  end.

(** [fmt % record.__dict__] for a format made of text and the
    placeholders [%(levelname)s] and [%(message)s]; [fuel] bounds the
    length of the format. *)
Fixpoint percent_style (fuel : nat) (fmt : string) (record : LogLevel * string) : string :=
  match fuel with
  | O => EmptyString
  | S fuel' =>
      match fmt with
      | EmptyString => EmptyString
      | String c rest =>
          if prefix "%(message)s" fmt then
            snd record ++ percent_style fuel' (substring 11 (String.length fmt - 11) fmt) record
          else if prefix "%(levelname)s" fmt then
            levelname (fst record)
              ++ percent_style fuel' (substring 13 (String.length fmt - 13) fmt) record
          else String c (percent_style fuel' rest record)
      end
  end.

(** [Formatter.format(record)]: the format of the style is replaced
    according to the level, then the record is formatted with it.  The
    result is the line and the format the formatter is left with. *)
Definition Formatter_format (self_fmt : string) (record : LogLevel * string)
  : string * string :=
  let fmt := match fst record with
             | INFO => "%(message)s"
             | _ => "%(levelname)s: %(message)s"
             end in
  (percent_style (String.length fmt) fmt record, fmt).

(** [logger.setLevel(args.log_level)]: DEBUG with [--debug], INFO without. *)
Definition log_level (args : Args) : LogLevel :=
  if arg_debug args then DEBUG else INFO.

Definition isEnabledFor (logger_level level : LogLevel) : bool :=
  levelno logger_level <=? levelno level.

(** The lines the handler writes for the logging calls [records], the
    formatter starting with the format [self_fmt]. *)
Fixpoint handler_lines (args : Args) (self_fmt : string) (records : list (LogLevel * string))
  : list string :=
  match records with
  | [] => []
  | record :: records' =>
      if isEnabledFor (log_level args) (fst record) then
        let '(line, fmt) := Formatter_format self_fmt record in
        line :: handler_lines args fmt records'
      else handler_lines args self_fmt records'
  end.

(** A record as it is meant to appear. *)
Definition log_line (record : LogLevel * string) : string :=
  match fst record with
  | INFO => snd record
  | level => levelname level ++ ": " ++ snd record
  end.

(** ** Sample data *)

Module Samples.
Import ExactNum.

Definition two_records : pyval pynum :=
  VList [VDict [("message", VStr "a"); ("points", VNum (PFloat (1 # 2)))];
         VDict [("message", VStr "b"); ("points", VNum (PFloat (1 # 2)))]].

Definition two_records_shown : pyval pynum :=
  VStr ("a (points: 0.5)" ++ newline ++ "b (points: 0.5)").

(** Without a translation catalogue [gettext] returns its argument. *)
Definition no_translation (s : string) : string := s.

Definition ind (name : string) (points weight : pynum) : string * Indicator pynum :=
  (name, mkIndicator name points weight (Some (VList [])) None None).

Definition findable : PrincipleResult pynum :=
  [ind "rda_f1_01m" (PInt 100) (PInt 2); ind "rda_f1_01d" (PInt 0) (PInt 1)].
Definition accessible : PrincipleResult pynum :=
  [ind "rda_a1_01m" (PFloat (101 # 2)) (PInt 2)].
Definition interoperable : PrincipleResult pynum :=
  [ind "rda_i1_01m" (PInt 0) (PInt 1)].
Definition reusable : PrincipleResult pynum :=
  [ind "rda_r1_01m" (PInt 100) (PInt 1)].

Definition result : EvaluationResult pynum :=
  [("findable", findable); ("accessible", accessible);
   ("interoperable", interoperable); ("reusable", reusable)].

(** One indicator per principle, every weight 0. *)
Definition zero_weight_result : EvaluationResult pynum :=
  [("findable", [ind "rda_f1_01m" (PInt 100) (PInt 0)]);
   ("accessible", [ind "rda_a1_01m" (PInt 100) (PInt 0)]);
   ("interoperable", [ind "rda_i1_01m" (PInt 100) (PInt 0)]);
   ("reusable", [ind "rda_r1_01m" (PInt 100) (PInt 0)])].

(** Weights that are not 0 within any principle but cancel overall. *)
Definition cancelling_result : EvaluationResult pynum :=
  [("findable", [ind "rda_f1_01m" (PInt 100) (PInt 1)]);
   ("accessible", [ind "rda_a1_01m" (PInt 100) (PInt 1)]);
   ("interoperable", [ind "rda_i1_01m" (PInt 100) (PInt (-1))]);
   ("reusable", [ind "rda_r1_01m" (PInt 100) (PInt (-1))])].

(** One indicator per principle, of weight 1 and with an int of 401 digits
    as points. *)
Definition huge_result : EvaluationResult pynum :=
  [("findable", [ind "rda_f1_01m" (PInt (10 ^ 400)) (PInt 1)]);
   ("accessible", [ind "rda_a1_01m" (PInt (10 ^ 400)) (PInt 1)]);
   ("interoperable", [ind "rda_i1_01m" (PInt (10 ^ 400)) (PInt 1)]);
   ("reusable", [ind "rda_r1_01m" (PInt (10 ^ 400)) (PInt 1)])].

(** The same points in the first principle, and no indicator in the
    second. *)
Definition huge_then_empty_result : EvaluationResult pynum :=
  [("findable", [ind "rda_f1_01m" (PInt (10 ^ 400)) (PInt 1)]);
   ("accessible", []);
   ("interoperable", interoperable); ("reusable", reusable)].

Definition totals : dict pynum :=
  [("findable", PFloat (1 # 2)); ("accessible", PFloat 1); ("total", PFloat (3 # 4))].

Definition empty_world : World pynum :=
  mkWorld [] [] [] [] [] [] [] None None (fun _ => true) (fun _ => Converts).

(** A file system in which no file can be created. *)
Definition locked_world : World pynum :=
  mkWorld [] [] [] [] [] [] [] None None (fun _ => false) (fun _ => Converts).

(** A service that answers nothing. *)
Definition silent (connect : string * Z -> nat -> Z) : Env pynum :=
  mkEnv connect (fun _ => None) (fun _ => None) (fun _ => None).

(** The port opens at the third attempt; the port never opens. *)
Definition third_time : Env pynum :=
  silent (fun _ n => if (n <? 2)%nat then 111 else 0).

Definition never : Env pynum := silent (fun _ _ => 111).

Definition candidates : list Candidate :=
  [mkCandidate "A" "id-a"; mkCandidate "B" "id-b"; mkCandidate "C" "id-c"].

(** A command line with [--plugin epos -r http://repo -s query]. *)
Definition search_args : Args :=
  mkArgs false None (Some "epos") (Some "http://repo")
         "http://localhost:9090/v1.0/rda/rda_all" false false false (Some "query")
         false false.

(** The port is open and every search finds the three candidates. *)
Definition search_env : Env pynum :=
  mkEnv (fun _ _ => 0) (fun _ => None)
        (fun _ => Some (mkSearchResponse (Some candidates)))
        (fun _ => None).

(** The world at the start of a run in which [lines] will be typed, and
    the world in which [search] is then called. *)
Definition start (lines : list string) : World pynum :=
  mkWorld lines [] [] [] [] [] [] None None (fun _ => true) (fun _ => Converts).

Definition typing (lines : list string) : World pynum :=
  set_metadata_endpoint (start lines) (Some (VStr "http://repo")).

(** A command line with [--id abc --plugin epos -r http://repo --totals]. *)
Definition id_args : Args :=
  mkArgs false (Some "abc") (Some "epos") (Some "http://repo")
         "http://localhost:9090/v1.0/rda/rda_all" false true false None
         false false.

(** The port is open and the service answers 200 with a document that
    holds the evaluator logs only. *)
Definition other_record_env : Env pynum :=
  mkEnv (fun _ _ => 0) (fun _ => None) (fun _ => None)
        (fun _ => Some (mkEvaluationResponse 200 "OK" EmptyString [] (Some []))).

(** The rows [collect_score_data] builds for [result]. *)
Definition score_rows : list (ScoreRow pynum) :=
  match collect_score_data result with
  | Ok rows => rows
  | Raise _ => []
  end.

(** The score column pandas makes of [score_rows]: 100, 0, "50.50", 0 and
    100 as floats. *)
Definition score_column : list pynum :=
  [PFloat 100; PFloat 0; PFloat (101 # 2); PFloat 0; PFloat 100].

(** A world in which pyarrow converts no frame. *)
Definition no_arrow_world : World pynum :=
  mkWorld [] [] [] [] [] [] [] None None (fun _ => true) (fun _ => Refuses ArrowTypeError).


(** What [calcpoints] returns for [result]. *)
Definition summary : dict pynum :=
  score_summary findable accessible interoperable reusable.

Definition annotated : EvaluationResult pynum :=
  annotated_result no_translation result findable accessible interoperable reusable.

(** A result that stops after its first principle. *)
Definition findable_only : EvaluationResult pynum := [("findable", findable)].

(** An indicator that the catalogue does not know, second under "findable". *)
Definition unknown_findable : PrincipleResult pynum :=
  [ind "rda_f1_01m" (PInt 100) (PInt 2); ind "rda_x9_99z" (PInt 0) (PInt 1)].

Definition unknown_result : EvaluationResult pynum :=
  [("findable", unknown_findable); ("accessible", accessible);
   ("interoperable", interoperable); ("reusable", reusable)].

(** One record whose message is the number 5. *)
Definition number_message : pyval pynum :=
  VList [VDict [("message", VNum (PInt 5)); ("points", VNum (PInt 1))]].

Definition six_candidates : list Candidate :=
  [mkCandidate "A" "id-a"; mkCandidate "B" "id-b"; mkCandidate "C" "id-c";
   mkCandidate "D" "id-d"; mkCandidate "E" "id-e"; mkCandidate "F" "id-f"].

(** A command line with [--plugin oai-pmh -r http://repo -s query]. *)
Definition oai_args : Args :=
  mkArgs false None (Some "oai-pmh") (Some "http://repo")
         "http://localhost:9090/v1.0/rda/rda_all" false false false (Some "query")
         false false.


(** A row whose score is a text that is no numeral. *)
Definition bad_score_rows : list (ScoreRow pynum) :=
  [mkScoreRow "RDA-F1-01M" "Metadata is identified by a persistent identifier"
              (ScoreStr "n/a") (VStr "Not available")].

(** A command line with [--plugin foo] and no repository. *)
Definition discover_args : Args :=
  mkArgs false (Some "abc") (Some "foo") None
         "http://localhost:9090/v1.0/rda/rda_all" false false false None
         false false.

(** The service knows the plugins epos and oai-pmh, and answers 404 for
    any other. *)
Definition unknown_plugin_env : Env pynum :=
  mkEnv (fun _ _ => 0)
        (fun _ => Some (mkEndpointsResponse 404
                          (VDict [("epos", VStr "https://epos");
                                  ("oai-pmh", VStr "https://oai")])))
        (fun _ => None) (fun _ => None).

(** A command line with [--plugin epos -r http://repo] and nothing else. *)
Definition bare_args : Args :=
  mkArgs false None (Some "epos") (Some "http://repo")
         "http://localhost:9090/v1.0/rda/rda_all" false false false None
         false false.

(** The port is open and the evaluation fails with status 500. *)
Definition error_env : Env pynum :=
  mkEnv (fun _ _ => 0) (fun _ => None) (fun _ => None)
        (fun _ => Some (mkEvaluationResponse 500 "Internal Server Error" "boom" [] None)).

(** The port is open and the evaluation of "abc" gives [result]. *)
Definition good_response : EvaluationResponse pynum :=
  mkEvaluationResponse 200 "OK" EmptyString [("abc", result)] (Some []).

Definition good_env : Env pynum :=
  mkEnv (fun _ _ => 0) (fun _ => None) (fun _ => None) (fun _ => Some good_response).

(** [--id abc --plugin epos -r http://repo] with [--json], with nothing
    more, and with [--store-csv]. *)
Definition json_args : Args :=
  mkArgs false (Some "abc") (Some "epos") (Some "http://repo")
         "http://localhost:9090/v1.0/rda/rda_all" true false false None
         false false.

Definition plain_args : Args :=
  mkArgs false (Some "abc") (Some "epos") (Some "http://repo")
         "http://localhost:9090/v1.0/rda/rda_all" false false false None
         false false.

Definition csv_args : Args :=
  mkArgs false (Some "abc") (Some "epos") (Some "http://repo")
         "http://localhost:9090/v1.0/rda/rda_all" false false false None
         false true.

End Samples.

(** * Properties *)

(** ** Message normalization *)

Section MessageFacts.
Context {num : Type} `{PyPrims num}.

Lemma exc_map_plain_texts (items : list (pyval num)) (texts : list string) :
  plain_texts items = Some texts ->
  exc_map (fun v : pyval num => match v with VStr s => Ok s | _ => Raise TypeError end) items
  = Ok texts.
Proof.
  revert texts; induction items as [|v items IH]; intros texts Hp; simpl in *.
  - now inversion Hp.
  - destruct v; try discriminate.
    destruct (plain_texts items) as [ts|]; simpl in Hp; [|discriminate].
    inversion Hp; subst.
    now rewrite (IH ts eq_refl).
Qed.

Lemma py_join_plain_texts (sep : string) (items : list (pyval num)) (texts : list string) :
  plain_texts items = Some texts -> py_join sep items = Ok (join sep texts).
Proof.
  intros Hp. unfold py_join. now rewrite (exc_map_plain_texts _ Hp).
Qed.

Lemma format_item_annotated (d : dict (pyval num)) (l : string) :
  annotated d = Some l -> format_item (VDict d) = Ok l.
Proof.
  unfold annotated, format_item, py_getitem, dict_getitem.
  destruct (dict_find d "message"); [|discriminate].
  destruct (dict_find d "points"); [|discriminate].
  simpl. now intros [= <-].
Qed.

Lemma exc_map_format_item (items : list (pyval num)) ds ls :
  records items = Some ds -> annotated_all ds = Some ls ->
  exc_map format_item items = Ok ls.
Proof.
  revert ds ls; induction items as [|v items IH]; intros ds ls Hr Ha; simpl in *.
  - inversion Hr; subst. simpl in Ha. now inversion Ha.
  - destruct v; try discriminate.
    destruct (records items) as [ds'|]; simpl in Hr; [|discriminate].
    inversion Hr; subst. simpl in Ha.
    destruct (annotated entries) eqn:He; [|discriminate].
    destruct (annotated_all ds') eqn:Hd; [|discriminate].
    inversion Ha; subst.
    rewrite (format_item_annotated _ He). simpl.
    now rewrite (IH _ _ eq_refl Hd).
Qed.

(** C4: a message of one of the shapes the specification lists (plain
    text, a single mapping, an empty sequence, a sequence of plain text,
    a sequence of records) is normalized by [format_msg_for_table] to
    exactly the display message the specification gives for that shape. *)
Theorem format_msg_for_table_shapes (message shown : pyval num) :
  normalized_message message = Some shown ->
  format_msg_for_table message = Ok shown.
Proof.
  destruct message as [| b | n | s | items | entries]; simpl; try discriminate.
  - now intros [= <-].
  - destruct items as [|first rest]; [now intros [= <-]|].
    intros Hn.
    destruct (plain_texts (first :: rest)) as [texts|] eqn:Hp.
    + inversion Hn; subst.
      assert (isinstance_str first = true) as ->
          by (destruct first; simpl in Hp; try discriminate; reflexivity).
      simpl. now rewrite (py_join_plain_texts _ _ Hp).
    + destruct (records (first :: rest)) as [ds|] eqn:Hr; [|discriminate].
      assert (isinstance_str first = false) as ->
          by (destruct first; simpl in Hr; try discriminate; reflexivity).
      destruct ds as [|d ds]; [destruct first; simpl in Hr; try discriminate;
                                destruct (records rest); discriminate|].
      destruct rest as [|second rest].
      * destruct first; simpl in Hr; try discriminate.
        inversion Hr; subst. simpl in Hn. inversion Hn; reflexivity.
      * assert (exists d2 ds2, ds = d2 :: ds2) as (d2 & ds2 & ->).
        { destruct first; simpl in Hr; try discriminate.
          destruct second; simpl in Hr; try discriminate.
          destruct (records rest); simpl in Hr; [|discriminate].
          inversion Hr; eauto. }
        destruct (annotated_all (d :: d2 :: ds2)) as [ls|] eqn:Ha; [|discriminate].
        simpl in Hn. inversion Hn; subst.
        pose proof (exc_map_format_item _ Hr Ha) as E.
        simpl in E |- *. now rewrite E.
  - now intros [= <-].
Qed.
End MessageFacts.

(** The three examples of the specification. *)
Example format_msg_empty :
  format_msg_for_table (VList (@nil (pyval ExactNum.pynum))) = Ok (VStr "Not available").
Proof. reflexivity. Qed.

Example format_msg_single_record :
  format_msg_for_table
    (VList [VDict [("message", VStr "ok"); ("points", VNum (ExactNum.PInt 1))]])
  = Ok (VStr "ok").
Proof. reflexivity. Qed.

Lemma format_msg_for_table_shapes_witness :
  normalized_message Samples.two_records = Some Samples.two_records_shown
  /\ format_msg_for_table Samples.two_records = Ok Samples.two_records_shown.
Proof.
  split; [reflexivity | apply format_msg_for_table_shapes; reflexivity].
Defined.
(** ** Score aggregation *)

Lemma dict_find_set_other {V} (d : dict V) (k k' : string) (v : V) :
  k <> k' -> dict_find (dict_set d k v) k' = dict_find d k'.
Proof.
  intros Hk. induction d as [|[k0 v0] d IH]; simpl.
  - now rewrite (proj2 (String.eqb_neq k k') Hk).
  - destruct (String.eqb k0 k) eqn:E0; simpl.
    + apply String.eqb_eq in E0. subst k0.
      now rewrite (proj2 (String.eqb_neq k k') Hk).
    + destruct (String.eqb k0 k'); [reflexivity | exact IH].
Qed.

Section AggregationFacts.
Context {num : Type} `{PyPrims num}.
Variable gettext : string -> string.

Lemma sum_overflows_map_app {A} (g : A -> num) (l1 l2 : list A) (acc : num) :
  sum_overflows acc (map g (l1 ++ l2))
  = sum_overflows acc (map g l1)
    || sum_overflows (fold_left (fun acc x => nadd acc (g x)) l1 acc) (map g l2).
Proof.
  revert acc; induction l1 as [|x l1 IH]; intros acc; simpl; [reflexivity|].
  rewrite IH. now rewrite orb_assoc.
Qed.

Lemma sum_overflows_middle {A} (g : A -> num) (before l rest : list A) :
  sum_overflows nzero (map g (before ++ l ++ rest)) = false ->
  sum_overflows (fold_left (fun acc x => nadd acc (g x)) before nzero) (map g l) = false.
Proof.
  rewrite sum_overflows_map_app. intros Hs.
  apply orb_false_elim in Hs. destruct Hs as [_ Hs].
  rewrite sum_overflows_map_app in Hs.
  apply orb_false_elim in Hs. now destruct Hs.
Qed.

(** The inner loop either overflows or leaves the four sums. *)
Lemma inner_loop (l : list (Indicator num)) (t : Totals num) :
  exc_fold calcpoints_indicator l t
  = if loop_overflows t l then Raise OverflowError else Ok (totals_after t l).
Proof.
  revert t; induction l as [|i l IH]; intros [rp wt gw gp].
  - reflexivity.
  - cbn [exc_fold]. unfold calcpoints_indicator at 1, py_add, py_mul.
    unfold loop_overflows, product_overflows, weights, products.
    cbn [existsb map sum_overflows result_points weight_of_tests g_weight g_points].
    destruct (nadd_overflow wt (weight i));
      [cbn [exc_bind orb]; now repeat first [rewrite orb_true_r | rewrite orb_true_l] |].
    destruct (nadd_overflow gw (weight i));
      [cbn [exc_bind orb]; now repeat first [rewrite orb_true_r | rewrite orb_true_l] |].
    destruct (nmul_overflow (points i) (weight i)); [reflexivity|].
    cbn [exc_bind orb].
    destruct (nadd_overflow rp (nmul (points i) (weight i)));
      [cbn [exc_bind orb]; now repeat first [rewrite orb_true_r | rewrite orb_true_l] |].
    destruct (nadd_overflow gp (nmul (points i) (weight i)));
      [cbn [exc_bind orb]; now repeat first [rewrite orb_true_r | rewrite orb_true_l] |].
    cbn [exc_bind orb]. rewrite IH. reflexivity.
Qed.

Lemma calcpoints_principle_eq (st : CalcState num) (key : string) (p : PrincipleResult num) :
  dict_find (cs_result st) key = Some p ->
  calcpoints_principle gettext st key
  = match principle_fault (cs_result_points st) (cs_weight_of_tests st) (dict_values p) with
    | Some e => Raise e
    | None => Ok (after_principle gettext st key p)
    end.
Proof.
  intros Hf. unfold calcpoints_principle, dict_getitem. rewrite Hf. cbn [exc_bind].
  rewrite inner_loop. unfold principle_fault.
  destruct (loop_overflows _ _); [reflexivity|].
  cbn [exc_bind totals_after result_points weight_of_tests g_weight g_points].
  unfold truediv, quotient_fault.
  fold (weight_sum (dict_values p)). fold (weighted_points (dict_values p)).
  destruct (ndiv_operand_overflow _ _); [reflexivity|].
  destruct (nis_zero (weight_sum (dict_values p))); [reflexivity|].
  destruct (ndiv_result_overflow _ _); reflexivity.
Qed.

Lemma calcpoints_principle_missing (st : CalcState num) (key : string) :
  dict_find (cs_result st) key = None ->
  calcpoints_principle gettext st key = Raise (KeyError key).
Proof.
  intros Hf. unfold calcpoints_principle, dict_getitem. now rewrite Hf.
Qed.

Lemma truediv_fault (x y : num) :
  truediv x y = match quotient_fault x y with
                | Some e => Raise e
                | None => Ok (ndiv x y)
                end.
Proof.
  unfold truediv, quotient_fault.
  destruct (ndiv_operand_overflow x y); [reflexivity|].
  destruct (nis_zero y); [reflexivity|].
  destruct (ndiv_result_overflow x y); reflexivity.
Qed.

(** [calcpoints], check by check. *)
Lemma calcpoints_cases (result : EvaluationResult num) :
  calcpoints gettext result = calcpoints_outcome gettext result.
Proof.
  unfold calcpoints, calcpoints_outcome.
  change (removelast (FAIR_PRINCIPLES ++ ["total"]))
    with ["findable"; "accessible"; "interoperable"; "reusable"].
  cbn [exc_fold]. cbv zeta.
  destruct (dict_find result "findable") as [f|] eqn:Hf;
    [|now rewrite calcpoints_principle_missing].
  rewrite (@calcpoints_principle_eq _ "findable" f) by exact Hf.
  cbn [cs_result_points cs_weight_of_tests].
  destruct (principle_fault nzero nzero (dict_values f)); [reflexivity|].
  cbn [exc_bind].
  destruct (dict_find result "accessible") as [a|] eqn:Ha.
  2:{ rewrite calcpoints_principle_missing; [reflexivity|].
      cbn [cs_result after_principle]. now rewrite dict_find_set_other by discriminate. }
  rewrite (@calcpoints_principle_eq _ "accessible" a)
    by (cbn [cs_result after_principle]; rewrite dict_find_set_other by discriminate; exact Ha).
  cbn [after_principle cs_result_points cs_weight_of_tests].
  unfold weighted_points, weight_sum.
  destruct (principle_fault _ _ (dict_values a)); [reflexivity|].
  cbn [exc_bind].
  destruct (dict_find result "interoperable") as [i|] eqn:Hi.
  2:{ rewrite calcpoints_principle_missing; [reflexivity|].
      cbn [cs_result after_principle]. now rewrite !dict_find_set_other by discriminate. }
  rewrite (@calcpoints_principle_eq _ "interoperable" i)
    by (cbn [cs_result after_principle];
        rewrite !dict_find_set_other by discriminate; exact Hi).
  cbn [after_principle cs_result_points cs_weight_of_tests].
  rewrite ?fold_left_app.
  destruct (principle_fault _ _ (dict_values i)); [reflexivity|].
  cbn [exc_bind].
  destruct (dict_find result "reusable") as [r|] eqn:Hr.
  2:{ rewrite calcpoints_principle_missing; [reflexivity|].
      cbn [cs_result after_principle]. now rewrite !dict_find_set_other by discriminate. }
  rewrite (@calcpoints_principle_eq _ "reusable" r)
    by (cbn [cs_result after_principle];
        rewrite !dict_find_set_other by discriminate; exact Hr).
  cbn [after_principle cs_result_points cs_weight_of_tests].
  rewrite ?fold_left_app.
  destruct (principle_fault _ _ (dict_values r)); [reflexivity|].
  cbn [exc_bind].
  cbn [after_principle cs_result cs_points cs_result_points cs_weight_of_tests].
  rewrite truediv_fault.
  unfold all_indicators. rewrite ?fold_left_app.
  destruct (quotient_fault _ _); [reflexivity|].
  unfold score_summary, weighted_average, weighted_points, weight_sum, all_indicators.
  rewrite ?fold_left_app. reflexivity.
Qed.


Lemma average_no_overflow (l : list (Indicator num)) :
  average_overflows l = false ->
  product_overflows l = false
  /\ sum_overflows nzero (weights l) = false
  /\ sum_overflows nzero (products l) = false
  /\ ndiv_operand_overflow (weighted_points l) (weight_sum l) = false
  /\ ndiv_result_overflow (weighted_points l) (weight_sum l) = false.
Proof.
  unfold average_overflows. intros Ho.
  apply orb_false_elim in Ho. destruct Ho as [Ho Hq].
  apply orb_false_elim in Ho. destruct Ho as [Ho Hd].
  apply orb_false_elim in Ho. destruct Ho as [Ho Hs].
  apply orb_false_elim in Ho. destruct Ho as [Hp Hw].
  repeat split; assumption.
Qed.

(** Without overflow only the zero divisor stops a principle. *)
Lemma principle_fault_no_overflow (before l rest : list (Indicator num)) :
  average_overflows l = false ->
  average_overflows (before ++ l ++ rest) = false ->
  principle_fault (weighted_points before) (weight_sum before) l
  = if nis_zero (weight_sum l) then Some ZeroDivisionError else None.
Proof.
  intros Hl Hall.
  apply average_no_overflow in Hl. destruct Hl as (Hp & Hw & Hs & Ho & Hq).
  apply average_no_overflow in Hall. destruct Hall as (_ & Hw' & Hs' & _ & _).
  unfold weights in Hw'. unfold products in Hs'.
  apply sum_overflows_middle in Hw'. apply sum_overflows_middle in Hs'.
  unfold principle_fault, loop_overflows.
  cbn [result_points weight_of_tests g_weight g_points].
  unfold weights, products, weight_sum at 1, weighted_points at 1.
  rewrite Hw', Hs'. fold (weights l). fold (products l).
  rewrite Hp, Hw, Hs. cbn [orb].
  unfold quotient_fault. rewrite Ho, Hq.
  destruct (nis_zero (weight_sum l)); reflexivity.
Qed.

Lemma aggregation_no_overflow (f a i r : PrincipleResult num) :
  aggregation_overflows f a i r = false ->
  let F := dict_values f in
  let A := dict_values a in
  let I := dict_values i in
  let R := dict_values r in
  principle_fault nzero nzero F
  = (if nis_zero (weight_sum F) then Some ZeroDivisionError else None)
  /\ principle_fault (weighted_points F) (weight_sum F) A
     = (if nis_zero (weight_sum A) then Some ZeroDivisionError else None)
  /\ principle_fault (weighted_points (F ++ A)) (weight_sum (F ++ A)) I
     = (if nis_zero (weight_sum I) then Some ZeroDivisionError else None)
  /\ principle_fault (weighted_points (F ++ A ++ I)) (weight_sum (F ++ A ++ I)) R
     = (if nis_zero (weight_sum R) then Some ZeroDivisionError else None)
  /\ quotient_fault (weighted_points (all_indicators f a i r))
                    (weight_sum (all_indicators f a i r))
     = (if nis_zero (weight_sum (all_indicators f a i r))
        then Some ZeroDivisionError else None).
Proof.
  unfold aggregation_overflows. intros Ho. cbv zeta.
  apply orb_false_elim in Ho. destruct Ho as [Ho Hall].
  apply orb_false_elim in Ho. destruct Ho as [Ho Hr].
  apply orb_false_elim in Ho. destruct Ho as [Ho Hi].
  apply orb_false_elim in Ho. destruct Ho as [Hf Ha].
  unfold all_indicators in *.
  repeat split.
  - apply (@principle_fault_no_overflow [] (dict_values f)
             (dict_values a ++ dict_values i ++ dict_values r)); assumption.
  - apply (@principle_fault_no_overflow (dict_values f) (dict_values a)
             (dict_values i ++ dict_values r)); assumption.
  - apply (@principle_fault_no_overflow (dict_values f ++ dict_values a) (dict_values i)
             (dict_values r)); [assumption|].
    now rewrite <- app_assoc.
  - apply (@principle_fault_no_overflow (dict_values f ++ dict_values a ++ dict_values i)
             (dict_values r) []); [assumption|].
    now rewrite app_nil_r, <- !app_assoc.
  - apply average_no_overflow in Hall. destruct Hall as (_ & _ & _ & Hq & Hq').
    unfold quotient_fault. rewrite Hq, Hq'.
    destruct (nis_zero _); reflexivity.
Qed.

(** The weights of at least one indicator, all positive, do not sum to 0. *)
Lemma weight_sum_positive (l : list (Indicator num)) :
  l <> [] ->
  Forall (fun x => npos (weight x) = true) l ->
  nis_zero (weight_sum l) = false.
Proof.
  intros Hne Hpos. apply npos_nonzero.
  assert (G : forall (k : list (Indicator num)) (acc : num),
             Forall (fun x => npos (weight x) = true) k ->
             npos acc = true ->
             npos (fold_left (fun acc i => nadd acc (weight i)) k acc) = true).
  { induction k as [|y k IH]; intros acc Hk Hacc; cbn [fold_left]; [exact Hacc|].
    inversion Hk as [|? ? Hy Hk']; subst.
    apply IH; [exact Hk' | now apply npos_add]. }
  destruct l as [|x l]; [contradiction|].
  inversion Hpos as [|? ? Hx Hl]; subst.
  unfold weight_sum. cbn [fold_left].
  apply G; [exact Hl | now apply npos_add_0].
Qed.

(** When nothing overflows and no weight sum is zero, the summary is
    returned. *)
Lemma calcpoints_run (result : EvaluationResult num) (f a i r : PrincipleResult num) :
  dict_find result "findable" = Some f ->
  dict_find result "accessible" = Some a ->
  dict_find result "interoperable" = Some i ->
  dict_find result "reusable" = Some r ->
  aggregation_overflows f a i r = false ->
  nis_zero (weight_sum (dict_values f)) = false ->
  nis_zero (weight_sum (dict_values a)) = false ->
  nis_zero (weight_sum (dict_values i)) = false ->
  nis_zero (weight_sum (dict_values r)) = false ->
  nis_zero (weight_sum (all_indicators f a i r)) = false ->
  calcpoints gettext result
  = Ok (score_summary f a i r, annotated_result gettext result f a i r).
Proof.
  intros Hf Ha Hi Hr Ho Zf Za Zi Zr Zt.
  rewrite calcpoints_cases. unfold calcpoints_outcome.
  rewrite Hf, Ha, Hi, Hr. cbv zeta.
  destruct (aggregation_no_overflow _ _ _ _ Ho) as (-> & -> & -> & -> & ->).
  now rewrite Zf, Za, Zi, Zr, Zt.
Qed.

(** C1 (amended): when the four principles are present, each with at
    least one indicator, every weight is positive, and no sum, product or
    quotient of the aggregation overflows, [calcpoints] returns for each
    principle sum(points*weight)/sum(weight) over its indicators rounded
    to 3 places, and as total the same quotient over all indicators of all
    principles rounded to 2 places. *)
Theorem calcpoints_weighted_average
        (result : EvaluationResult num) (f a i r : PrincipleResult num) :
  dict_find result "findable" = Some f ->
  dict_find result "accessible" = Some a ->
  dict_find result "interoperable" = Some i ->
  dict_find result "reusable" = Some r ->
  f <> [] -> a <> [] -> i <> [] -> r <> [] ->
  Forall (fun x => npos (weight x) = true) (all_indicators f a i r) ->
  aggregation_overflows f a i r = false ->
  exists result',
    calcpoints gettext result = Ok (score_summary f a i r, result').
Proof.
  intros Hf Ha Hi Hr Nf Na Ni Nr Hpos Ho.
  assert (Hv : forall p : PrincipleResult num, p <> [] -> dict_values p <> []).
  { intros p Hp E. apply Hp. unfold dict_values in E. now apply map_eq_nil in E. }
  pose proof Hpos as Hall.
  unfold all_indicators in Hpos.
  apply Forall_app in Hpos. destruct Hpos as [Pf Hpos].
  apply Forall_app in Hpos. destruct Hpos as [Pa Hpos].
  apply Forall_app in Hpos. destruct Hpos as [Pi Pr].
  eexists.
  apply calcpoints_run; try assumption;
    try (apply weight_sum_positive; [now apply Hv | assumption]).
  apply weight_sum_positive; [|exact Hall].
  unfold all_indicators. intros E. apply app_eq_nil in E. destruct E as [E _].
  now apply (Hv f Nf).
Qed.



End AggregationFacts.


Example calcpoints_sample :
  exc_bind (calcpoints Samples.no_translation Samples.result) (fun pr => Ok (fst pr))
  = Ok [("findable", ExactNum.PFloat (66667 # 1000));
        ("accessible", ExactNum.PFloat (101 # 2));
        ("interoperable", ExactNum.PFloat 0);
        ("reusable", ExactNum.PFloat 100);
        ("total", ExactNum.PFloat (5729 # 100))].
Proof. vm_compute. reflexivity. Qed.

Lemma calcpoints_weighted_average_witness :
  exists result',
    calcpoints Samples.no_translation Samples.result
    = Ok (score_summary Samples.findable Samples.accessible
                        Samples.interoperable Samples.reusable, result').
Proof.
  apply (calcpoints_weighted_average Samples.no_translation Samples.result
           (f := Samples.findable) (a := Samples.accessible)
           (i := Samples.interoperable) (r := Samples.reusable));
    try reflexivity; try discriminate.
  repeat constructor.
Defined.

(** Every principle has an indicator of weight 1, and the points are an
    int of 401 digits: the quotient of the first principle is too large
    for a float. *)
Lemma calcpoints_overflow :
  Forall (fun key =>
            exists p,
              dict_find Samples.huge_result key = Some p
              /\ p <> []
              /\ Forall (fun x => npos (weight x) = true) (dict_values p))
         FAIR_PRINCIPLES
  /\ calcpoints Samples.no_translation Samples.huge_result = Raise OverflowError.
Proof.
  split; [|vm_compute; reflexivity].
  repeat constructor; eexists;
    (split; [reflexivity | split; [discriminate | repeat constructor]]).
Qed.

(** Every principle has an indicator, all of weight 0: the division for
    the first principle raises. *)
Example calcpoints_zero_weights :
  Forall (fun key => exists p, dict_find Samples.zero_weight_result key = Some p /\ p <> [])
         FAIR_PRINCIPLES
  /\ calcpoints Samples.no_translation Samples.zero_weight_result = Raise ZeroDivisionError.
Proof.
  split; [|vm_compute; reflexivity].
  repeat constructor; eexists; (split; [reflexivity | discriminate]).
Qed.

(** The overall weight has to be checked as well. *)
Example calcpoints_cancelling_weights :
  calcpoints Samples.no_translation Samples.cancelling_result = Raise ZeroDivisionError.
Proof. vm_compute. reflexivity. Qed.


(** An oversized number in a principle met before the empty one: the
    [OverflowError] comes first. *)
Example calcpoints_overflow_before_empty :
  dict_find Samples.huge_then_empty_result "accessible" = Some []
  /\ calcpoints Samples.no_translation Samples.huge_then_empty_result
     = Raise OverflowError.
Proof. split; [reflexivity | vm_compute; reflexivity]. Qed.


(** ** Rendering *)

Section RenderingFacts.
Context {num : Type} `{PyPrims num}.

Lemma with_rows_nil (t : PrettyTable num) : with_rows t [] = t.
Proof. destruct t; unfold with_rows; simpl. now rewrite app_nil_r. Qed.

Lemma with_rows_app (t : PrettyTable num) (a b : list (list (pyval num) * bool)) :
  with_rows (with_rows t a) b = with_rows t (a ++ b).
Proof. unfold with_rows; simpl. now rewrite app_assoc. Qed.

Lemma add_row_fits (t : PrettyTable num) (row : list (pyval num)) (divider : bool) :
  length row = length (field_names t) ->
  add_row t row divider = Ok (with_rows t [(row, divider)]).
Proof.
  intros Hl. unfold add_row, with_rows.
  destruct (field_names t) as [|f fs] eqn:E.
  - destruct row; [reflexivity | discriminate].
  - rewrite Hl, Nat.eqb_refl. reflexivity.
Qed.

Lemma add_rows_score_rows (t : PrettyTable num) (rs : list (ScoreRow num)) :
  length (field_names t) = 4%nat ->
  add_rows t (map (@row_cells num) rs)
  = Ok (with_rows t (map (fun r => (row_cells r, false)) rs)).
Proof.
  unfold add_rows. revert t; induction rs as [|r rs IH]; intros t Ht; simpl.
  - now rewrite with_rows_nil.
  - rewrite add_row_fits by (rewrite Ht; reflexivity). simpl.
    rewrite IH by exact Ht. now rewrite with_rows_app.
Qed.

Lemma detail_table_eq (indicator_rows : list (ScoreRow num)) :
  detail_table indicator_rows = Ok (expected_detail indicator_rows).
Proof.
  unfold detail_table. now rewrite add_rows_score_rows.
Qed.

Lemma summary_rows_fold (l : list (string * num)) (st : SummaryState num) (n : nat) :
  ss_has_divider st = false ->
  (ss_principle_count st + length l)%nat = n ->
  length (field_names (ss_table st)) = 2%nat ->
  exists count divider,
    exc_fold (summary_row n) l st
    = Ok (mkSummaryState (with_rows (ss_table st) (mark_last (map principle_row l)))
                         count divider).
Proof.
  revert st; induction l as [|item l IH]; intros st Hd Hn Hw.
  - exists (ss_principle_count st), (ss_has_divider st). simpl.
    rewrite with_rows_nil. now destruct st.
  - cbn [exc_fold]. unfold summary_row at 1.
    rewrite add_row_fits by (rewrite Hw; reflexivity).
    cbn [exc_bind]. fold (score_cell (snd item)). fold (principle_row item).
    destruct l as [|item' l].
    + simpl in Hn. rewrite Hn, Nat.eqb_refl. cbn. eauto.
    + assert ((ss_principle_count st + 1 =? n)%nat = false) as ->
          by (apply Nat.eqb_neq; simpl in Hn; lia).
      rewrite Hd.
      destruct (IH (mkSummaryState (with_rows (ss_table st) [(principle_row item, false)])
                                   (ss_principle_count st + 1) false))
        as (c & d & E); [reflexivity | simpl in *; lia | exact Hw |].
      rewrite E. exists c, d. cbn [ss_table]. now rewrite with_rows_app.
Qed.

Lemma summary_table_eq (totals : dict num) :
  summary_table totals = Ok (expected_summary totals).
Proof.
  unfold summary_table.
  destruct (summary_rows_fold (dict_remove totals "total")
              (mkSummaryState
                 (set_align (set_field_names PrettyTable_new ["FAIR principle"; "Score"]) "l")
                 0 false) (n := length (dict_remove totals "total"))
              eq_refl eq_refl eq_refl) as (c & d & E).
  rewrite E. cbn [exc_bind ss_table].
  rewrite add_row_fits by reflexivity.
  rewrite with_rows_app. reflexivity.
Qed.

(** C9 (amended): for a non-empty totals mapping [print_table] prints the
    summary table and then the detail table; the summary has one row per
    key other than "total" with the capitalized name and the score (as a
    two-decimal text when it is a float, unchanged otherwise), a rule
    below the last of these rows, and a final "Total" row with the grand
    total ("NA" when the mapping has none). *)
Theorem print_table_totals
        (indicator_rows : list (ScoreRow num)) (totals : dict num) (w : World num) :
  totals <> [] ->
  print_table indicator_rows totals w
  = (Ok tt,
     set_stdout w (w_stdout w ++ [OutTable (expected_summary totals);
                                  OutTable (expected_detail indicator_rows)])).
Proof.
  intros Hne. unfold print_table, m_bind, m_lift.
  rewrite detail_table_eq.
  destruct totals as [|item totals]; [contradiction|].
  rewrite summary_table_eq. unfold print. simpl.
  now rewrite <- app_assoc.
Qed.

End RenderingFacts.

(** The rule is asked for on the last principle row, so it is drawn below
    that row, above "Total", and not above the last principle row. *)
Lemma print_table_rule_below_last_principle :
  exists t detail,
    w_stdout (snd (print_table [] Samples.totals Samples.empty_world))
    = [OutTable t; OutTable detail]
    /\ rows t = [([VStr "Findable"; VStr "0.50"], false);
                 ([VStr "Accessible"; VStr "1.00"], true);
                 ([VStr "Total"; VNum (ExactNum.PFloat (3 # 4))], false)]
    /\ rule_above t 1 = false
    /\ rule_below t 1 = true.
Proof. do 2 eexists. split; [reflexivity|]. repeat split. Qed.

(** A score that is not a float is shown as it is. *)
Example summary_table_int_score :
  exc_bind (summary_table [("findable", ExactNum.PInt 1); ("total", ExactNum.PInt 1)])
           (fun t => Ok (rows t))
  = Ok [([VStr "Findable"; VNum (ExactNum.PInt 1)], true);
        ([VStr "Total"; VNum (ExactNum.PInt 1)], false)].
Proof. reflexivity. Qed.

Lemma print_table_totals_witness :
  Samples.totals <> []
  /\ print_table [] Samples.totals Samples.empty_world
     = (Ok tt,
        set_stdout Samples.empty_world
          [OutTable (expected_summary Samples.totals); OutTable (expected_detail [])]).
Proof.
  split; [discriminate|].
  apply (print_table_totals [] (totals := Samples.totals) Samples.empty_world).
  discriminate.
Defined.

(** ** Readiness probe *)

Section ProbeFacts.
Context {num : Type} `{PyPrims num}.
Variable env : Env num.

Lemma wait_loop_step_failure (i : nat) (range : list nat) (b : bool) (w : World num) :
  probe_attempt env w 1 <> 0 ->
  wait_loop env (i :: range) b w = wait_loop env range b (after_failure w).
Proof.
  unfold probe_attempt. rewrite Nat.add_0_r. intros Hf.
  cbn [wait_loop]. unfold m_bind at 1. unfold is_port_open at 1.
  apply Z.eqb_neq in Hf. rewrite Hf.
  reflexivity.
Qed.

Lemma wait_loop_step_success (i : nat) (range : list nat) (b : bool) (w : World num) :
  probe_attempt env w 1 = 0 ->
  wait_loop env (i :: range) b w
  = (Ok true,
     set_logs (set_connects w (w_connects w ++ [address]))
              (w_logs w ++ [(DEBUG, "FAIR-eva API running on port 9090")])).
Proof.
  unfold probe_attempt. rewrite Nat.add_0_r. intros Hs.
  cbn [wait_loop]. unfold m_bind at 1. unfold is_port_open at 1.
  rewrite Hs. reflexivity.
Qed.

Lemma probe_attempt_after_failure (w : World num) (j : nat) :
  (1 <= j)%nat ->
  probe_attempt env (after_failure w) j = probe_attempt env w (S j).
Proof.
  intros Hj. unfold probe_attempt, after_failure. cbn.
  rewrite length_app. cbn. f_equal. lia.
Qed.

Lemma wait_loop_success (range : list nat) (b : bool) (w : World num) (k : nat) :
  (1 <= k <= length range)%nat ->
  (forall j, (1 <= j < k)%nat -> probe_attempt env w j <> 0) ->
  probe_attempt env w k = 0 ->
  exists w',
    wait_loop env range b w = (Ok true, w')
    /\ w_connects w' = (w_connects w ++ repeat address k)%list.
Proof.
  revert w k; induction range as [|i range IH]; intros w k Hk Hfail Hok.
  - simpl in Hk; lia.
  - destruct (Nat.eq_dec k 1) as [-> | Hk1].
    + rewrite wait_loop_step_success by exact Hok.
      eexists; split; [reflexivity|]. reflexivity.
    + rewrite wait_loop_step_failure by (apply Hfail; lia).
      destruct k as [|k]; [lia|].
      destruct (IH (after_failure w) k) as (w' & E & C).
      * simpl in Hk; lia.
      * intros j Hj. rewrite probe_attempt_after_failure by lia. apply Hfail; lia.
      * rewrite probe_attempt_after_failure by lia. exact Hok.
      * exists w'; split; [exact E|].
        rewrite C. cbn. rewrite <- app_assoc. reflexivity.
Qed.

Lemma wait_loop_failure (range : list nat) (b : bool) (w : World num) :
  (forall j, (1 <= j <= length range)%nat -> probe_attempt env w j <> 0) ->
  exists w',
    wait_loop env range b w = (Ok b, w')
    /\ w_connects w' = (w_connects w ++ repeat address (length range))%list.
Proof.
  revert w; induction range as [|i range IH]; intros w Hfail.
  - exists w; split; simpl; [reflexivity | now rewrite app_nil_r].
  - rewrite wait_loop_step_failure by (apply Hfail; simpl; lia).
    destruct (IH (after_failure w)) as (w' & E & C).
    + intros j Hj. rewrite probe_attempt_after_failure by lia.
      apply Hfail; simpl; lia.
    + exists w'; split; [exact E|].
      rewrite C. cbn. rewrite <- app_assoc. reflexivity.
Qed.

Lemma wait_loop_connects (range : list nat) (b : bool) (w : World num) :
  exists n,
    w_connects (snd (wait_loop env range b w)) = (w_connects w ++ repeat address n)%list.
Proof.
  revert w; induction range as [|i range IH]; intros w.
  - exists 0%nat. simpl. now rewrite app_nil_r.
  - destruct (Z.eq_dec (probe_attempt env w 1) 0) as [Hs | Hf].
    + rewrite wait_loop_step_success by exact Hs. now exists 1%nat.
    + rewrite wait_loop_step_failure by exact Hf.
      destruct (IH (after_failure w)) as (n & C).
      exists (S n). rewrite C. cbn. now rewrite <- app_assoc.
Qed.

(** C5: if the port opens at attempt k, k <= 4, after k - 1 refused
    attempts, the readiness loop makes exactly k connection attempts and
    goes on; if the four attempts are refused it logs the error and raises
    [SystemExit(-1)], which ends the process with a status that is not 0. *)
Theorem wait_for_api_attempts (w : World num) :
  (forall k,
      (1 <= k <= 4)%nat ->
      (forall j, (1 <= j < k)%nat -> probe_attempt env w j <> 0) ->
      probe_attempt env w k = 0 ->
      exists w',
        wait_for_api env w = (Ok tt, w')
        /\ w_connects w' = (w_connects w ++ repeat ("127.0.0.1", 9090) k)%list)
  /\ ((forall j, (1 <= j <= 4)%nat -> probe_attempt env w j <> 0) ->
      exists w',
        wait_for_api env w = (Raise (SystemExit (Some (-1))), w')
        /\ w_connects w' = (w_connects w ++ repeat ("127.0.0.1", 9090) 4)%list
        /\ In (ERROR, "FAIR-eva API was not able to launch: exiting") (w_logs w')
        /\ exit_status (SystemExit (Some (-1))) <> 0).
Proof.
  split.
  - intros k Hk Hfail Hok.
    destruct (@wait_loop_success (seq 1 4) false w k Hk Hfail Hok) as (w' & E & C).
    exists w'. split; [|exact C].
    unfold wait_for_api, m_bind. rewrite E. reflexivity.
  - intros Hfail.
    destruct (@wait_loop_failure (seq 1 4) false w Hfail) as (w' & E & C).
    eexists. unfold wait_for_api, m_bind. rewrite E. cbn.
    split; [reflexivity|]. split; [exact C|]. split.
    + apply in_or_app. right. left. reflexivity.
    + discriminate.
Qed.

(** C10: [is_port_open] connects to 127.0.0.1:9090 whatever the command
    line says, every connection of the readiness loop goes there, and the
    start of [main] up to the end of that loop gives the same result and
    the same world for any [--api-endpoint]. *)
Theorem probe_ignores_api_endpoint (args : Args) (url : string) (w : World num) :
  w_connects (snd (is_port_open env w)) = (w_connects w ++ [("127.0.0.1", 9090)])%list
  /\ (exists n, w_connects (snd (wait_for_api env w))
                = (w_connects w ++ repeat ("127.0.0.1", 9090) n)%list)
  /\ startup env (with_api_endpoint args url) w = startup env args w.
Proof.
  split; [reflexivity|]. split.
  - destruct (wait_loop_connects (seq 1 4) false w) as (n & C).
    exists n. unfold wait_for_api, m_bind.
    destruct (wait_loop env (seq 1 4) false w) as [[[|] | e] w'] eqn:E;
      simpl in C |- *; exact C.
  - reflexivity.
Qed.

End ProbeFacts.

Lemma wait_for_api_attempts_witness :
  (exists w',
      wait_for_api Samples.third_time Samples.empty_world = (Ok tt, w')
      /\ w_connects w' = repeat ("127.0.0.1", 9090) 3)
  /\ (exists w',
        wait_for_api Samples.never Samples.empty_world = (Raise (SystemExit (Some (-1))), w')
        /\ w_connects w' = repeat ("127.0.0.1", 9090) 4).
Proof.
  split.
  - destruct (wait_for_api_attempts Samples.third_time Samples.empty_world) as [Hs _].
    apply (Hs 3%nat).
    + lia.
    + intros j Hj. destruct j as [|[|[|j]]]; try lia; discriminate.
    + reflexivity.
  - destruct (wait_for_api_attempts Samples.never Samples.empty_world) as [_ Hf].
    destruct Hf as (w' & E & C & _).
    + intros j Hj. discriminate.
    + exists w'. split; [exact E | exact C].
Defined.


(** ** Disambiguation *)

Section SearchFacts.
Context {num : Type} `{PyPrims num}.
Variable env : Env num.
Variable args : Args.

Lemma console_only_refl (w : World num) : console_only w w.
Proof. repeat split. Qed.

Lemma console_only_trans (w1 w2 w3 : World num) :
  console_only w1 w2 -> console_only w2 w3 -> console_only w1 w3.
Proof.
  unfold console_only. intuition congruence.
Qed.

Lemma search_loop_step_valid (j : nat) (range : list nat) (ds : list Candidate)
      (ind0 : option string) (w : World num) (ind : string) (rest : list string) :
  w_stdin w = ind :: rest ->
  valid_index (length ds) ind = true ->
  search_loop (j :: range) ds 0 ind0 w
  = (Ok (1, Some ind), after_input w (search_prompt ds) rest).
Proof.
  intros Hin Hv. unfold valid_index in Hv.
  cbn [search_loop]. unfold m_bind at 1. unfold input at 1.
  cbn [set_stdout w_stdin]. rewrite Hin.
  destruct (py_int ind) as [v|]; [|discriminate].
  unfold m_bind, m_ret. rewrite Hv. reflexivity.
Qed.

Lemma search_loop_step_invalid (j : nat) (range : list nat) (ds : list Candidate)
      (ind0 : option string) (w : World num) (ind : string) (rest : list string) :
  w_stdin w = ind :: rest ->
  valid_index (length ds) ind = false ->
  exists w1,
    search_loop (j :: range) ds 0 ind0 w = search_loop range ds 0 (Some ind) w1
    /\ w_stdin w1 = rest
    /\ console_only w w1.
Proof.
  intros Hin Hv. unfold valid_index in Hv.
  cbn [search_loop]. unfold m_bind at 1. unfold input at 1.
  cbn [set_stdout w_stdin]. rewrite Hin.
  destruct (py_int ind) as [v|].
  - unfold m_bind at 1, m_ret at 1. rewrite Hv. cbn.
    eexists. split; [reflexivity|]. split; [reflexivity|]. repeat split.
  - unfold m_bind at 1. unfold m_bind at 1. unfold print at 1. unfold m_ret at 1. cbn.
    eexists. split; [reflexivity|]. split; [reflexivity|]. repeat split.
Qed.

Lemma search_loop_accepts (range : list nat) (ds : list Candidate) (ind0 : option string)
      (w : World num) (before : list string) (ind : string) (rest : list string) :
  w_stdin w = (before ++ ind :: rest)%list ->
  (length before < length range)%nat ->
  Forall (fun s => valid_index (length ds) s = false) before ->
  valid_index (length ds) ind = true ->
  exists w',
    search_loop range ds 0 ind0 w = (Ok (1, Some ind), w')
    /\ w_stdin w' = rest
    /\ console_only w w'.
Proof.
  revert w before ind0; induction range as [|j range IH]; intros w before ind0 Hin Hlen Hbad Hv.
  - simpl in Hlen; lia.
  - destruct before as [|b before].
    + rewrite (search_loop_step_valid _ _ _ _ _ Hin Hv).
      eexists. split; [reflexivity|]. split; [reflexivity|]. repeat split.
    + inversion Hbad as [|? ? Hb Hbad']; subst.
      destruct (search_loop_step_invalid j range ds ind0 w Hin Hb) as (w1 & E & S1 & C1).
      destruct (IH w1 before (Some b) S1) as (w' & E' & S' & C'); [simpl in Hlen; lia | assumption | assumption |].
      exists w'. rewrite E. split; [exact E'|]. split; [exact S'|].
      eapply console_only_trans; eassumption.
Qed.

Lemma search_loop_rejects (range : list nat) (ds : list Candidate) (ind0 : option string)
      (w : World num) (inputs rest : list string) :
  w_stdin w = (inputs ++ rest)%list ->
  length inputs = length range ->
  Forall (fun s => valid_index (length ds) s = false) inputs ->
  exists ind w',
    search_loop range ds 0 ind0 w = (Ok (0, ind), w')
    /\ w_stdin w' = rest
    /\ console_only w w'.
Proof.
  revert w inputs ind0; induction range as [|j range IH]; intros w inputs ind0 Hin Hlen Hbad.
  - destruct inputs; [|discriminate]. exists ind0, w. simpl in *.
    split; [reflexivity|]. split; [exact Hin|]. apply console_only_refl.
  - destruct inputs as [|b inputs]; [discriminate|].
    inversion Hbad as [|? ? Hb Hbad']; subst.
    destruct (search_loop_step_invalid j range ds ind0 w Hin Hb) as (w1 & E & S1 & C1).
    destruct (IH w1 inputs (Some b) S1) as (ind & w' & E' & S' & C'); [simpl in Hlen; lia | assumption |].
    exists ind, w'. rewrite E. split; [exact E'|]. split; [exact S'|].
    eapply console_only_trans; eassumption.
Qed.

Lemma search_table_rows (ds : list Candidate) (n start : nat) (t : PrettyTable num) :
  (start + n <= length ds)%nat ->
  length (field_names t) = 2%nat ->
  exists t',
    exc_fold (fun table index =>
                let div := ((index + 1) mod 5 =? 0)%nat in
                (c <- match nth_error ds index with
                      | Some c => Ok c
                      | None => Raise IndexError
                      end ;;
                 add_row table [VStr (cand_title c); VNum (nint (Z.of_nat index))] div)%exc)
             (seq start n) t = Ok t'.
Proof.
  revert start t; induction n as [|n IH]; intros start t Hle Ht.
  - now exists t.
  - cbn [seq exc_fold].
    destruct (nth_error ds start) as [c|] eqn:E.
    + cbn [exc_bind]. rewrite add_row_fits by (rewrite Ht; reflexivity).
      cbn [exc_bind]. apply IH; [lia | exact Ht].
    + apply nth_error_None in E. lia.
Qed.

Lemma search_table_ok (ds : list Candidate) : exists t, search_table ds = Ok t.
Proof.
  unfold search_table. apply search_table_rows; [lia | reflexivity].
Qed.

Lemma epos_plugin :
  arg_plugin args = Some "epos" \/ arg_plugin args = Some "epos_prod" ->
  match arg_plugin args with
  | Some plugin => in_strings plugin ["epos"; "epos_prod"]
  | None => false
  end = true.
Proof. intros [-> | ->]; reflexivity. Qed.

(** C6: with a non-empty candidate list, when the line typed at attempt
    k <= 5 is the first that parses as an integer within
    [0, candidate_count - 1], [search] returns the identifier of the
    candidate at that index and keeps its title; the lines typed before it,
    non-integers or out of range, use up one attempt each and raise
    nothing, and no further line is read. *)
Theorem search_accepts_first_valid
        (keytext endpoint : string) (ds : list Candidate) (w : World num)
        (before : list string) (ind : string) (rest : list string)
        (v : Z) (c : Candidate) :
  arg_plugin args = Some "epos" \/ arg_plugin args = Some "epos_prod" ->
  g_metadata_endpoint w = Some (VStr endpoint) ->
  get_search env (search_request endpoint keytext) = Some (mkSearchResponse (Some ds)) ->
  ds <> [] ->
  w_stdin w = (before ++ ind :: rest)%list ->
  (length before < 5)%nat ->
  Forall (fun s => valid_index (length ds) s = false) before ->
  py_int ind = Some v ->
  0 <= v < Z.of_nat (length ds) ->
  nth_error ds (Z.to_nat v) = Some c ->
  exists w',
    search env args keytext w = (Ok (IdStr (cand_id c)), w')
    /\ w_stdin w' = rest
    /\ g_title w' = Some (cand_title c).
Proof.
  intros Hplugin Hep Hget _ Hin Hlen Hbad Hint Hrange Hnth.
  unfold search. rewrite (epos_plugin Hplugin).
  unfold m_bind at 1. rewrite Hep.
  unfold m_bind at 1. unfold send at 1.
  fold (@search_request num endpoint keytext). rewrite Hget.
  cbn [sr_results].
  destruct (search_table_ok ds) as (t & Et).
  unfold m_bind at 1. unfold m_lift at 1. rewrite Et.
  unfold m_bind at 1. unfold print at 1.
  set (w2 := set_stdout _ _).
  assert (Hv : valid_index (length ds) ind = true).
  { unfold valid_index. rewrite Hint.
    apply andb_true_intro; split; apply Z.ltb_lt; lia. }
  destruct (@search_loop_accepts (seq 0 5) ds None w2 before ind rest)
    as (w3 & E & S3 & C3); [exact Hin | exact Hlen | exact Hbad | exact Hv |].
  unfold m_bind at 1. rewrite E. cbn [fst snd Z.eqb].
  unfold m_bind at 1. unfold m_lift at 1. rewrite Hint.
  unfold m_bind at 1. unfold m_lift at 1. rewrite Hnth.
  unfold m_bind, m_ret.
  eexists. split; [reflexivity|]. split; [exact S3 | reflexivity].
Qed.

(** Five rejected lines: [search] says so and returns the empty tuple,
    having sent nothing but its own request. *)
Lemma search_exhausted
      (keytext endpoint : string) (ds : list Candidate) (w : World num)
      (inputs rest : list string) :
  arg_plugin args = Some "epos" \/ arg_plugin args = Some "epos_prod" ->
  g_metadata_endpoint w = Some (VStr endpoint) ->
  get_search env (search_request endpoint keytext) = Some (mkSearchResponse (Some ds)) ->
  w_stdin w = (inputs ++ rest)%list ->
  length inputs = 5%nat ->
  Forall (fun s => valid_index (length ds) s = false) inputs ->
  exists w',
    search env args keytext w = (Ok IdEmptyTuple, w')
    /\ w_stdin w' = rest
    /\ w_requests w' = (w_requests w ++ [search_request endpoint keytext])%list
    /\ g_metadata_endpoint w' = g_metadata_endpoint w
    /\ w_logs w' = w_logs w.
Proof.
  intros Hplugin Hep Hget Hin Hlen Hbad.
  unfold search. rewrite (epos_plugin Hplugin).
  unfold m_bind at 1. rewrite Hep.
  unfold m_bind at 1. unfold send at 1.
  fold (@search_request num endpoint keytext). rewrite Hget.
  cbn [sr_results].
  destruct (search_table_ok ds) as (t & Et).
  unfold m_bind at 1. unfold m_lift at 1. rewrite Et.
  unfold m_bind at 1. unfold print at 1.
  set (w2 := set_stdout _ _).
  destruct (@search_loop_rejects (seq 0 5) ds None w2 inputs rest)
    as (ind & w3 & E & S3 & C3); [exact Hin | exact Hlen | exact Hbad |].
  unfold m_bind at 1. rewrite E. cbn [fst snd Z.eqb].
  unfold m_bind, print, m_ret.
  eexists. split; [reflexivity|].
  destruct C3 as (C1 & C2 & C4 & C5 & C6 & C7 & C8).
  unfold w2 in *. cbn in C1, C5, C7 |- *. repeat split; congruence.
Qed.

End SearchFacts.

(** Candidates A, B, C and the lines x, 7, 1: the third attempt selects B. *)
Lemma search_accepts_first_valid_witness :
  exists w',
    search Samples.search_env Samples.search_args "query" (Samples.typing ["x"; "7"; "1"])
    = (Ok (IdStr "id-b"), w')
    /\ w_stdin w' = []
    /\ g_title w' = Some "B".
Proof.
  apply search_accepts_first_valid
    with (endpoint := "http://repo") (ds := Samples.candidates)
         (before := ["x"; "7"]) (ind := "1") (v := 1) (c := mkCandidate "B" "id-b");
    try reflexivity.
  - left; reflexivity.
  - discriminate.
  - simpl; lia.
  - repeat constructor.
  - simpl; lia.
Defined.

(** Five lines that are all rejected: no selection. *)
Example search_five_invalid :
  fst (search Samples.search_env Samples.search_args "query"
         (Samples.typing ["x"; "7"; "-1"; "3"; "one"]))
  = Ok IdEmptyTuple.
Proof. reflexivity. Qed.



(** ** The whole run *)

Section MainFacts.
Context {num : Type} `{PyPrims num}.
Variable gettext : string -> string.
Variable env : Env num.
Variable args : Args.

Lemma wait_for_api_first_attempt (w : World num) :
  probe_attempt env w 1 = 0 ->
  wait_for_api env w = (Ok tt, after_success w).
Proof.
  intros Hs. unfold wait_for_api, m_bind.
  change (seq 1 4) with (1 :: seq 2 3)%nat.
  rewrite wait_loop_step_success by exact Hs. reflexivity.
Qed.

Lemma startup_repository (w : World num) (repository : string) :
  arg_repository args = Some repository ->
  probe_attempt env w 1 = 0 ->
  startup env args w
  = (Ok None, after_success (set_metadata_endpoint w (Some (VStr repository)))).
Proof.
  intros Hr Hs. unfold startup, m_bind, resolve_metadata_endpoint. rewrite Hr.
  rewrite wait_for_api_first_attempt by exact Hs. reflexivity.
Qed.

Lemma collect_score_data_empty :
  collect_score_data (@nil (string * PrincipleResult num)) = Raise (KeyError "findable").
Proof. reflexivity. Qed.

(** C2: the response has no entry for the requested identifier; [main]
    takes the empty dictionary for the result and [collect_score_data]
    raises [KeyError] on its first principle: nothing is aggregated,
    rendered or stored. *)
Theorem main_absent_identifier
        (w : World num) (repository identifier : string) (r : EvaluationResponse num) :
  arg_repository args = Some repository ->
  arg_search args = None ->
  arg_id args = Some identifier ->
  probe_attempt env w 1 = 0 ->
  post_evaluation env
    (evaluation_request (arg_api_endpoint args) identifier (arg_plugin args) (VStr repository))
  = Some r ->
  response_ok (ev_status_code r) = true ->
  dict_find (ev_results r) identifier = None ->
  exists w',
    main gettext env args w = (Raise (KeyError "findable"), w')
    /\ w_stdout w' = w_stdout w
    /\ w_files w' = w_files w.
Proof.
  intros Hr Hsearch Hid Hs Hpost Hok Habs.
  unfold main. unfold m_bind at 1.
  rewrite (startup_repository _ Hr Hs).
  unfold evaluate. rewrite Hsearch, Hid. cbn [truthy].
  unfold m_bind at 1. unfold m_ret at 1.
  unfold m_bind at 1. cbn [g_metadata_endpoint after_success set_logs set_connects
                            set_metadata_endpoint].
  unfold m_bind at 1. unfold m_lift at 1.
  unfold m_bind at 1. unfold logging at 1.
  unfold m_bind at 1. unfold send at 1.
  cbn [identifier_value].
  fold (evaluation_request (arg_api_endpoint args) identifier (arg_plugin args)
                           (@VStr num repository)).
  rewrite Hpost.
  rewrite Hok. cbn [negb].
  unfold dict_get. rewrite Habs.
  rewrite collect_score_data_empty.
  cbn. eexists. split; [reflexivity|]. split; reflexivity.
Qed.

(** C7: the five attempts are used up; [search] returns the empty tuple and
    [main] raises [TypeError] while building its log line, before any
    evaluation request: the only request of the run is the search. *)
Theorem main_search_exhausted
        (w : World num) (repository keytext : string) (ds : list Candidate)
        (inputs rest : list string) :
  arg_repository args = Some repository ->
  arg_plugin args = Some "epos" \/ arg_plugin args = Some "epos_prod" ->
  arg_search args = Some keytext ->
  keytext <> EmptyString ->
  probe_attempt env w 1 = 0 ->
  get_search env (search_request repository keytext) = Some (mkSearchResponse (Some ds)) ->
  w_stdin w = (inputs ++ rest)%list ->
  length inputs = 5%nat ->
  Forall (fun s => valid_index (length ds) s = false) inputs ->
  exists w',
    main gettext env args w = (Raise TypeError, w')
    /\ w_requests w' = (w_requests w ++ [search_request repository keytext])%list
    /\ exit_status TypeError = 1.
Proof.
  intros Hr Hplugin Hsearch Hne Hs Hget Hin Hlen Hbad.
  unfold main. unfold m_bind at 1.
  rewrite (startup_repository _ Hr Hs).
  unfold evaluate. rewrite Hsearch.
  assert (truthy (Some keytext) = true) as -> by (destruct keytext; [contradiction | reflexivity]).
  set (w1 := after_success _).
  destruct (@search_exhausted _ _ env args keytext repository ds w1 inputs rest)
    as (w2 & E & S2 & R2 & M2 & L2);
    [exact Hplugin | reflexivity | exact Hget | exact Hin | exact Hlen | exact Hbad |].
  unfold m_bind at 1. rewrite E.
  unfold m_bind at 1. rewrite M2. cbn [w1 g_metadata_endpoint after_success set_logs
                                        set_connects set_metadata_endpoint].
  unfold m_bind at 1. unfold m_lift at 1.
  eexists. split; [reflexivity|]. split; [exact R2 | reflexivity].
Qed.

End MainFacts.

Lemma main_absent_identifier_witness :
  exists w',
    main Samples.no_translation Samples.other_record_env Samples.id_args (Samples.start [])
    = (Raise (KeyError "findable"), w')
    /\ w_stdout w' = []
    /\ w_files w' = [].
Proof.
  apply main_absent_identifier
    with (repository := "http://repo") (identifier := "abc")
         (r := mkEvaluationResponse 200 "OK" EmptyString [] (Some []));
    reflexivity.
Defined.

Lemma main_search_exhausted_witness :
  exists w',
    main Samples.no_translation Samples.search_env Samples.search_args
         (Samples.start ["x"; "7"; "-1"; "3"; "one"])
    = (Raise TypeError, w')
    /\ w_requests w' = [search_request "http://repo" "query"]
    /\ exit_status TypeError = 1.
Proof.
  apply (@main_search_exhausted _ _ Samples.no_translation Samples.search_env
            Samples.search_args (Samples.start ["x"; "7"; "-1"; "3"; "one"])
            "http://repo" "query" Samples.candidates ["x"; "7"; "-1"; "3"; "one"] []);
    try reflexivity.
  - left; reflexivity.
  - discriminate.
  - repeat constructor.
Defined.

(** ** Persisting *)

Section StoreFacts.
Context {num : Type} `{PyPrims num}.

Lemma score_values_map (rows : list (ScoreRow num)) (values : list num) :
  score_values rows = Some values ->
  exc_map (fun r => to_numeric_cell (row_score r)) rows = Ok values.
Proof.
  revert values; induction rows as [|r rows IH]; intros values Hv;
    cbn [exc_map score_values] in *.
  - now inversion Hv.
  - unfold to_numeric_cell at 1.
    destruct (row_score r) as [s | n].
    + destruct (nparse s) as [n|]; [|discriminate].
      destruct (score_values rows) as [ns|]; [|discriminate].
      inversion Hv; subst. cbn [exc_bind]. now rewrite (IH ns eq_refl).
    + destruct (score_values rows) as [ns|]; [|discriminate].
      inversion Hv; subst. cbn [exc_bind]. now rewrite (IH ns eq_refl).
Qed.

Lemma score_values_length (rows : list (ScoreRow num)) (values : list num) :
  score_values rows = Some values -> length values = length rows.
Proof.
  revert values; induction rows as [|r rows IH]; intros values Hv; cbn [score_values] in Hv.
  - now inversion Hv.
  - destruct (match row_score r with ScoreStr s => nparse s | ScoreNum n => Some n end);
      [|discriminate].
    destruct (score_values rows) as [ns|]; [|discriminate].
    inversion Hv; subst. simpl. f_equal. now apply IH.
Qed.

Lemma to_numeric_score_rows (cols : list label) (rows : list (ScoreRow num))
      (values column : list num) :
  score_values rows = Some values ->
  pd_column values = Some column ->
  to_numeric_score (mkDataFrame cols rows) = Ok (mkDataFrame cols (set_scores rows column)).
Proof.
  intros Hv Hc. unfold to_numeric_score. cbn [df_rows df_columns].
  rewrite (score_values_map _ Hv). cbn [exc_bind]. rewrite Hc. reflexivity.
Qed.

Lemma csv_of_stored_frame (rows : list (ScoreRow num)) (column : list num) :
  csv_of (stored_frame (set_scores rows column))
  = CsvFile csv_header (csv_records 0 rows column).
Proof.
  unfold csv_of, stored_frame, csv_header. cbn [df_columns df_rows map label_text].
  f_equal. generalize 0%nat.
  revert column; induction rows as [|r rows IH]; intros column n.
  - reflexivity.
  - destruct column as [|c column]; [reflexivity|].
    cbn [set_scores length seq combine map csv_records fst snd].
    f_equal. apply IH.
Qed.

Lemma csv_records_length (rows : list (ScoreRow num)) (column : list num) (n : nat) :
  length column = length rows ->
  length (csv_records n rows column) = length rows.
Proof.
  revert column n; induction rows as [|r rows IH]; intros column n Hl.
  - reflexivity.
  - destruct column as [|c column]; [discriminate|].
    cbn [csv_records length]. f_equal. apply IH. now inversion Hl.
Qed.

Lemma csv_records_fields (rows : list (ScoreRow num)) (column : list num) (n : nat) :
  Forall (fun record => length record = length (@csv_header)) (csv_records n rows column).
Proof.
  revert column n; induction rows as [|r rows IH]; intros column n.
  - constructor.
  - destruct column as [|c column]; [constructor|].
    cbn [csv_records]. constructor; [reflexivity | apply IH].
Qed.

(** C8 (amended): a request with a format other than feather and csv ends
    in an exception and leaves the files as they were; a csv request for
    the identifier abc123 with at least one row, whose scores are numbers
    or numerals that pandas makes one column of, creates
    /tmp/fair_eva_results-abc123.csv when the file system lets it: one
    record per row, of five fields, the index of the row under an unnamed
    header and then fair_indicator, fair_principle, score and message,
    every score a number. *)
Theorem store_formats (identifier : string) (score_data : list (ScoreRow num))
        (w : World num) :
  (forall file_format path,
      in_strings file_format ["feather"; "csv"] = false ->
      exists e w',
        store identifier score_data file_format path w = (Raise e, w')
        /\ w_files w' = w_files w)
  /\ (forall values column,
        score_data <> [] ->
        score_values score_data = Some values ->
        pd_column values = Some column ->
        fs_creatable w "/tmp/fair_eva_results-abc123.csv" = true ->
        exists w',
          store "abc123" score_data "csv" "/tmp" w = (Ok tt, w')
          /\ w_files w'
             = (w_files w
                  ++ [("/tmp/fair_eva_results-abc123.csv",
                       CsvFile csv_header (csv_records 0 score_data column))])%list
          /\ length (csv_records 0 score_data column) = length score_data
          /\ Forall (fun record => length record = 5%nat)
                    (csv_records 0 score_data column)).
Proof.
  split.
  - intros file_format path Hfmt.
    unfold store. unfold m_bind at 1. unfold m_ret at 1.
    unfold m_bind at 1. unfold m_lift at 1.
    destruct (set_columns _ _) as [df | e]; [|eauto].
    unfold m_bind at 1. unfold m_lift at 1.
    destruct (to_numeric_score df) as [df' | e]; [|eauto].
    rewrite Hfmt. cbn. eauto.
  - intros values column Hne Hv Hc Hfs.
    destruct score_data as [|r rows]; [contradiction|].
    unfold store. unfold m_bind at 1. unfold m_ret at 1.
    unfold m_bind at 1. unfold m_lift at 1.
    unfold pd_DataFrame, set_columns. cbn [length df_columns Nat.eqb df_rows map].
    unfold m_bind at 1. unfold m_lift at 1.
    rewrite (to_numeric_score_rows _ _ Hv Hc).
    fold (stored_frame (set_scores (r :: rows) column)).
    unfold m_bind, m_ret, logging, to_csv.
    cbn [in_strings existsb String.eqb Ascii.eqb Bool.eqb negb orb andb
         os_path_join String.append String.length substring Nat.sub
         fs_creatable set_logs w_files].
    rewrite Hfs. rewrite csv_of_stored_frame.
    eexists. split; [reflexivity|]. split; [reflexivity|]. split.
    + apply csv_records_length.
      rewrite (pd_column_length _ Hc). now apply score_values_length.
    + apply csv_records_fields.
Qed.

End StoreFacts.

(** No rows: the frame has no columns, the four labels do not fit, and
    nothing is written.  Rows: the file has a fifth field, the index.  A
    file system that refuses the file: [OSError], and nothing is written. *)
Lemma store_no_rows :
  store "abc123" [] "csv" "/tmp" Samples.empty_world = (Raise ValueError, Samples.empty_world)
  /\ (exists records,
        w_files (snd (store "abc123" Samples.score_rows "csv" "/tmp" Samples.empty_world))
        = [("/tmp/fair_eva_results-abc123.csv",
            CsvFile [EmptyString; "fair_indicator"; "fair_principle"; "score"; "message"]
                    records)]
        /\ Forall (fun record => length record = 5%nat) records)
  /\ fst (store "abc123" Samples.score_rows "csv" "/tmp" Samples.locked_world)
     = Raise OSError
  /\ w_files (snd (store "abc123" Samples.score_rows "csv" "/tmp" Samples.locked_world)) = [].
Proof.
  split; [reflexivity|]. split; [|split; vm_compute; reflexivity].
  eexists. split; [vm_compute; reflexivity|]. repeat constructor.
Qed.

Example store_xml :
  fst (store "abc123" Samples.score_rows "xml" "/tmp" Samples.empty_world)
  = Raise (SystemExit (Some (-1)))
  /\ w_files (snd (store "abc123" Samples.score_rows "xml" "/tmp" Samples.empty_world)) = [].
Proof. split; vm_compute; reflexivity. Qed.

(** The scores of the sample rows, 100, 0, "50.50", 0 and 100, become one
    column of floats. *)
Example store_csv_scores :
  exists w',
    store "abc123" Samples.score_rows "csv" "/tmp" Samples.empty_world = (Ok tt, w')
    /\ w_files w'
       = [("/tmp/fair_eva_results-abc123.csv",
           CsvFile csv_header
                   (csv_records 0 Samples.score_rows
                      [ExactNum.PFloat 100; ExactNum.PFloat 0; ExactNum.PFloat (101 # 2);
                       ExactNum.PFloat 0; ExactNum.PFloat 100]))].
Proof. eexists. split; vm_compute; reflexivity. Qed.

Lemma store_formats_witness :
  (exists e w',
      store "abc123" Samples.score_rows "xml" "/tmp" Samples.empty_world = (Raise e, w')
      /\ w_files w' = [])
  /\ (exists column w',
        store "abc123" Samples.score_rows "csv" "/tmp" Samples.empty_world = (Ok tt, w')
        /\ w_files w'
           = [("/tmp/fair_eva_results-abc123.csv",
               CsvFile csv_header (csv_records 0 Samples.score_rows column))]
        /\ length (csv_records 0 Samples.score_rows column) = length Samples.score_rows
        /\ Forall (fun record => length record = 5%nat)
                  (csv_records 0 Samples.score_rows column)).
Proof.
  destruct (store_formats "abc123" Samples.score_rows Samples.empty_world) as [Hbad Hcsv].
  split.
  - apply (Hbad "xml" "/tmp"). reflexivity.
  - exists [ExactNum.PFloat 100; ExactNum.PFloat 0; ExactNum.PFloat (101 # 2);
            ExactNum.PFloat 0; ExactNum.PFloat 100].
    apply (Hcsv [ExactNum.PInt 100; ExactNum.PInt 0; ExactNum.PFloat (101 # 2);
                 ExactNum.PInt 0; ExactNum.PInt 100]);
      [discriminate | reflexivity | reflexivity | reflexivity].
Defined.

(** * Further properties *)

(** ** Dictionaries *)

Lemma dict_find_set_same {V} (d : dict V) (k : string) (v : V) :
  dict_find (dict_set d k v) k = Some v.
Proof.
  induction d as [|[k0 v0] d IH]; simpl.
  - now rewrite String.eqb_refl.
  - destruct (String.eqb k0 k) eqn:E; simpl.
    + now rewrite String.eqb_refl.
    + now rewrite E.
Qed.

Lemma dict_set_keys {V} (d : dict V) (k : string) (v v0 : V) :
  dict_find d k = Some v0 -> map fst (dict_set d k v) = map fst d.
Proof.
  induction d as [|[k1 v1] d IH]; simpl; [discriminate|].
  destruct (String.eqb k1 k) eqn:E; simpl.
  - apply String.eqb_eq in E. now subst.
  - intros Hf. now rewrite IH.
Qed.

(** ** More on score aggregation *)

Section AggregationOutcomeFacts.
Context {num : Type} `{PyPrims num}.
Variable gettext : string -> string.

Lemma weight_sum_annotate (p : PrincipleResult num) :
  weight_sum (dict_values (annotate_principle gettext p)) = weight_sum (dict_values p).
Proof.
  unfold weight_sum, dict_values, annotate_principle.
  generalize (@nzero num _). induction p as [|[k i] p IH]; intros z; simpl; [reflexivity|].
  apply IH.
Qed.

Lemma weighted_points_annotate (p : PrincipleResult num) :
  weighted_points (dict_values (annotate_principle gettext p)) = weighted_points (dict_values p).
Proof.
  unfold weighted_points, dict_values, annotate_principle.
  generalize (@nzero num _). induction p as [|[k i] p IH]; intros z; simpl; [reflexivity|].
  apply IH.
Qed.

Lemma annotated_result_find (result : EvaluationResult num) (f a i r : PrincipleResult num)
      (key : string) :
  dict_find result "findable" = Some f ->
  dict_find result "accessible" = Some a ->
  dict_find result "interoperable" = Some i ->
  dict_find result "reusable" = Some r ->
  dict_find (annotated_result gettext result f a i r) key
  = if in_strings key FAIR_PRINCIPLES
    then option_map (annotate_principle gettext) (dict_find result key)
    else dict_find result key.
Proof.
  intros Hf Ha Hi Hr. unfold annotated_result, in_strings, FAIR_PRINCIPLES. cbn [existsb].
  destruct (String.eqb_spec key "reusable") as [-> | Nr].
  { rewrite dict_find_set_same, Hr. reflexivity. }
  rewrite dict_find_set_other by congruence.
  destruct (String.eqb_spec key "interoperable") as [-> | Ni].
  { rewrite dict_find_set_same, Hi. reflexivity. }
  rewrite dict_find_set_other by congruence.
  destruct (String.eqb_spec key "accessible") as [-> | Na].
  { rewrite dict_find_set_same, Ha. reflexivity. }
  rewrite dict_find_set_other by congruence.
  destruct (String.eqb_spec key "findable") as [-> | Nf].
  { rewrite dict_find_set_same, Hf. reflexivity. }
  rewrite dict_find_set_other by congruence.
  reflexivity.
Qed.

Lemma calcpoints_ok_inv (result r' : EvaluationResult num) (pts : dict num) :
  calcpoints gettext result = Ok (pts, r') ->
  exists f a i r,
    dict_find result "findable" = Some f
    /\ dict_find result "accessible" = Some a
    /\ dict_find result "interoperable" = Some i
    /\ dict_find result "reusable" = Some r
    /\ nis_zero (weight_sum (dict_values f)) = false
    /\ nis_zero (weight_sum (dict_values a)) = false
    /\ nis_zero (weight_sum (dict_values i)) = false
    /\ nis_zero (weight_sum (dict_values r)) = false
    /\ nis_zero (weight_sum (all_indicators f a i r)) = false
    /\ pts = score_summary f a i r
    /\ r' = annotated_result gettext result f a i r.
Proof.
  assert (Hq : forall x y : num, quotient_fault x y = None -> nis_zero y = false).
  { intros x y. unfold quotient_fault.
    destruct (ndiv_operand_overflow x y); [discriminate|].
    destruct (nis_zero y); [discriminate | reflexivity]. }
  assert (Hp : forall (rp wt : num) (l : list (Indicator num)),
             principle_fault rp wt l = None -> nis_zero (weight_sum l) = false).
  { intros rp wt l. unfold principle_fault.
    destruct (loop_overflows _ _); [discriminate | apply Hq]. }
  rewrite calcpoints_cases. unfold calcpoints_outcome. cbv zeta.
  destruct (dict_find result "findable") as [f|]; [|discriminate].
  destruct (principle_fault _ _ (dict_values f)) eqn:Zf; [discriminate|].
  destruct (dict_find result "accessible") as [a|]; [|discriminate].
  destruct (principle_fault _ _ (dict_values a)) eqn:Za; [discriminate|].
  destruct (dict_find result "interoperable") as [i|]; [|discriminate].
  destruct (principle_fault _ _ (dict_values i)) eqn:Zi; [discriminate|].
  destruct (dict_find result "reusable") as [r|]; [|discriminate].
  destruct (principle_fault _ _ (dict_values r)) eqn:Zr; [discriminate|].
  destruct (quotient_fault _ _) eqn:Zt; [discriminate|].
  intros [= <- <-]. exists f, a, i, r.
  apply Hp in Zf, Za, Zi, Zr. apply Hq in Zt.
  repeat split; assumption.
Qed.

(** X1: whatever [calcpoints] returns is the summary of C1: the four
    principles were there, no weight sum was zero, and the five scores are
    the rounded weighted averages; it has no other return value (no
    default, no partial summary). *)
Theorem calcpoints_returns_only_summary
        (result r' : EvaluationResult num) (pts : dict num) :
  calcpoints gettext result = Ok (pts, r') ->
  exists f a i r,
    dict_find result "findable" = Some f
    /\ dict_find result "accessible" = Some a
    /\ dict_find result "interoperable" = Some i
    /\ dict_find result "reusable" = Some r
    /\ nis_zero (weight_sum (dict_values f)) = false
    /\ nis_zero (weight_sum (dict_values a)) = false
    /\ nis_zero (weight_sum (dict_values i)) = false
    /\ nis_zero (weight_sum (dict_values r)) = false
    /\ nis_zero (weight_sum (all_indicators f a i r)) = false
    /\ pts = score_summary f a i r.
Proof.
  intros Hc. apply calcpoints_ok_inv in Hc. destruct Hc as (f & a & i & r & Hall).
  exists f, a, i, r. intuition.
Qed.

(** X3: the result [calcpoints] leaves behind has the same keys in the
    same order; the four principles hold the same indicators with
    [indicator] and [name_smart] set from [gettext], every other entry is
    untouched, and no indicator changes its name, points, weight or
    message. *)
Theorem calcpoints_annotates_only
        (result r' : EvaluationResult num) (pts : dict num) :
  calcpoints gettext result = Ok (pts, r') ->
  map fst r' = map fst result
  /\ (forall key,
        dict_find r' key
        = if in_strings key FAIR_PRINCIPLES
          then option_map (annotate_principle gettext) (dict_find result key)
          else dict_find result key)
  /\ (forall p : PrincipleResult num, map fst (annotate_principle gettext p) = map fst p)
  /\ (forall i : Indicator num,
        let i' := annotate gettext i in
        name i' = name i /\ points i' = points i /\ weight i' = weight i
        /\ msg i' = msg i
        /\ indicator i' = Some (gettext (name i ++ ".indicator"))
        /\ name_smart i' = Some (gettext (name i))).
Proof.
  intros Hc. apply calcpoints_ok_inv in Hc.
  destruct Hc as (f & a & i & r & Hf & Ha & Hi & Hr & _ & _ & _ & _ & _ & _ & ->).
  split; [|split; [|split]].
  - unfold annotated_result.
    rewrite dict_set_keys with (v0 := r)
      by (rewrite !dict_find_set_other by discriminate; exact Hr).
    rewrite dict_set_keys with (v0 := i)
      by (rewrite !dict_find_set_other by discriminate; exact Hi).
    rewrite dict_set_keys with (v0 := a)
      by (rewrite !dict_find_set_other by discriminate; exact Ha).
    now rewrite dict_set_keys with (v0 := f) by exact Hf.
  - intros key. now apply annotated_result_find.
  - intros p. unfold annotate_principle. rewrite map_map. reflexivity.
  - intros i0. cbn. repeat split.
Qed.

(** X4: scoring the annotated result again gives the same summary: the
    annotation does not touch what the scores are computed from. *)
Theorem calcpoints_again (result r' : EvaluationResult num) (pts : dict num) :
  calcpoints gettext result = Ok (pts, r') ->
  exists r'', calcpoints gettext r' = Ok (pts, r'').
Proof.
  intros Hc. pose proof Hc as Hc'. apply calcpoints_ok_inv in Hc'.
  destruct Hc' as (f & a & i & r & Hf & Ha & Hi & Hr & _ & _ & _ & _ & _ & _ & ->).
  pose proof (fun key => @annotated_result_find result f a i r key Hf Ha Hi Hr) as Hfind.
  assert (Hv : forall p : PrincipleResult num,
             dict_values (annotate_principle gettext p)
             = map (annotate gettext) (dict_values p)).
  { intros p. unfold dict_values, annotate_principle. rewrite !map_map. reflexivity. }
  assert (Hw : forall l : list (Indicator num),
             weight_sum (map (annotate gettext) l) = weight_sum l).
  { intros l. unfold weight_sum. generalize (@nzero num _).
    induction l as [|x l IH]; intros z; simpl; [reflexivity|]. apply IH. }
  assert (Hp : forall l : list (Indicator num),
             weighted_points (map (annotate gettext) l) = weighted_points l).
  { intros l. unfold weighted_points. generalize (@nzero num _).
    induction l as [|x l IH]; intros z; simpl; [reflexivity|]. apply IH. }
  assert (Hl : forall (rp wt : num) (l : list (Indicator num)),
             principle_fault rp wt (map (annotate gettext) l) = principle_fault rp wt l).
  { intros rp wt l. unfold principle_fault, loop_overflows.
    rewrite Hw, Hp.
    assert (E1 : product_overflows (map (annotate gettext) l) = product_overflows l).
    { unfold product_overflows. induction l as [|x l IH]; simpl; [reflexivity|].
      now rewrite IH. }
    assert (E2 : weights (map (annotate gettext) l) = weights l).
    { unfold weights. rewrite map_map. reflexivity. }
    assert (E3 : products (map (annotate gettext) l) = products l).
    { unfold products. rewrite map_map. reflexivity. }
    now rewrite E1, E2, E3. }
  rewrite calcpoints_cases in Hc. rewrite calcpoints_cases.
  unfold calcpoints_outcome in *. cbv zeta in *.
  rewrite Hf, Ha, Hi, Hr in Hc.
  rewrite (Hfind "findable"), (Hfind "accessible"), (Hfind "interoperable"),
    (Hfind "reusable"), Hf, Ha, Hi, Hr.
  cbn [in_strings existsb FAIR_PRINCIPLES String.eqb Ascii.eqb Bool.eqb orb andb option_map].
  unfold all_indicators in *.
  rewrite !Hv, <- !map_app, !Hl, !Hw, !Hp.
  destruct (principle_fault _ _ (dict_values f)); [discriminate|].
  destruct (principle_fault _ _ (dict_values a)); [discriminate|].
  destruct (principle_fault _ _ (dict_values i)); [discriminate|].
  destruct (principle_fault _ _ (dict_values r)); [discriminate|].
  destruct (quotient_fault _ _); [discriminate|].
  inversion Hc; subst pts.
  eexists. f_equal. f_equal.
  unfold score_summary, weighted_average, all_indicators.
  rewrite !Hv, <- !map_app. now rewrite !Hw, !Hp.
Qed.

End AggregationOutcomeFacts.


Lemma calcpoints_returns_only_summary_witness :
  exists f a i r,
    dict_find Samples.result "findable" = Some f
    /\ dict_find Samples.result "accessible" = Some a
    /\ dict_find Samples.result "interoperable" = Some i
    /\ dict_find Samples.result "reusable" = Some r
    /\ nis_zero (weight_sum (dict_values f)) = false
    /\ nis_zero (weight_sum (dict_values a)) = false
    /\ nis_zero (weight_sum (dict_values i)) = false
    /\ nis_zero (weight_sum (dict_values r)) = false
    /\ nis_zero (weight_sum (all_indicators f a i r)) = false
    /\ Samples.summary = score_summary f a i r.
Proof.
  apply (@calcpoints_returns_only_summary _ _ Samples.no_translation Samples.result
           Samples.annotated Samples.summary).
  reflexivity.
Defined.

Lemma calcpoints_annotates_only_witness :
  map fst Samples.annotated = map fst Samples.result
  /\ dict_find Samples.annotated "findable"
     = Some (annotate_principle Samples.no_translation Samples.findable).
Proof.
  assert (E : calcpoints Samples.no_translation Samples.result
              = Ok (Samples.summary, Samples.annotated)) by reflexivity.
  destruct (@calcpoints_annotates_only _ _ Samples.no_translation Samples.result
              Samples.annotated Samples.summary E) as (Hk & Hf & _).
  split; [exact Hk | exact (Hf "findable")].
Defined.

Lemma calcpoints_again_witness :
  exists r'', calcpoints Samples.no_translation Samples.annotated = Ok (Samples.summary, r'').
Proof.
  apply (@calcpoints_again _ _ Samples.no_translation Samples.result
           Samples.annotated Samples.summary).
  reflexivity.
Defined.

(** ** The rows of the score table *)

Lemma exc_map_app {A B} (f : A -> exc B) (l1 l2 : list A) :
  exc_map f (l1 ++ l2)
  = exc_bind (exc_map f l1) (fun r1 => exc_bind (exc_map f l2) (fun r2 => Ok (r1 ++ r2)%list)).
Proof.
  induction l1 as [|x l1 IH]; simpl.
  - destruct (exc_map f l2); reflexivity.
  - destruct (f x) as [y|e]; simpl; [|reflexivity].
    rewrite IH. destruct (exc_map f l1) as [r1|e]; simpl; [|reflexivity].
    destruct (exc_map f l2); reflexivity.
Qed.

Lemma exc_map_length {A B} (f : A -> exc B) (l : list A) (r : list B) :
  exc_map f l = Ok r -> length r = length l.
Proof.
  revert r; induction l as [|x l IH]; intros r; simpl.
  - now intros [= <-].
  - destruct (f x) as [y|e]; simpl; [|discriminate].
    destruct (exc_map f l) as [ys|e]; simpl; [|discriminate].
    intros [= <-]. simpl. f_equal. now apply IH.
Qed.

Lemma exc_fold_append {A B} (f : A -> exc B) (l : list A) (acc : list B) :
  exc_fold (fun rows x => exc_bind (f x) (fun row => Ok (rows ++ [row])%list)) l acc
  = exc_bind (exc_map f l) (fun rs => Ok (acc ++ rs)%list).
Proof.
  revert acc; induction l as [|x l IH]; intros acc; simpl.
  - now rewrite app_nil_r.
  - destruct (f x) as [y|e]; simpl; [|reflexivity].
    rewrite IH. destruct (exc_map f l) as [ys|e]; simpl; [|reflexivity].
    now rewrite <- app_assoc.
Qed.

Section RowFacts.
Context {num : Type} `{PyPrims num}.

Lemma collect_score_data_eq
      (fair_results : EvaluationResult num) (f a i r : PrincipleResult num) :
  dict_find fair_results "findable" = Some f ->
  dict_find fair_results "accessible" = Some a ->
  dict_find fair_results "interoperable" = Some i ->
  dict_find fair_results "reusable" = Some r ->
  collect_score_data fair_results = exc_map score_row (all_indicators f a i r).
Proof.
  intros Hf Ha Hi Hr.
  unfold collect_score_data, FAIR_PRINCIPLES, dict_getitem. cbn [exc_fold].
  rewrite Hf. cbn [exc_bind dict_set].
  rewrite Ha. cbn [exc_bind dict_set String.eqb Ascii.eqb Bool.eqb].
  rewrite Hi. cbn [exc_bind dict_set String.eqb Ascii.eqb Bool.eqb].
  rewrite Hr. cbn [exc_bind dict_set String.eqb Ascii.eqb Bool.eqb exc_fold snd].
  rewrite (exc_fold_append score_row).
  unfold all_indicators. rewrite !exc_map_app.
  destruct (exc_map score_row (dict_values f)) as [rf|e]; cbn [exc_bind app]; [|reflexivity].
  rewrite (exc_fold_append score_row).
  destruct (exc_map score_row (dict_values a)) as [ra|e]; cbn [exc_bind]; [|reflexivity].
  rewrite (exc_fold_append score_row).
  destruct (exc_map score_row (dict_values i)) as [ri|e]; cbn [exc_bind]; [|reflexivity].
  rewrite (exc_fold_append score_row).
  destruct (exc_map score_row (dict_values r)) as [rr|e]; cbn [exc_bind]; [|reflexivity].
  now rewrite <- !app_assoc.
Qed.

(** X5: when the four principles are present, [collect_score_data] builds
    one row per indicator, principles in their fixed order and indicators
    in the order of their dictionary, and fails with the error of the first
    indicator whose row cannot be built. *)
Theorem collect_score_data_rows
        (fair_results : EvaluationResult num) (f a i r : PrincipleResult num) :
  dict_find fair_results "findable" = Some f ->
  dict_find fair_results "accessible" = Some a ->
  dict_find fair_results "interoperable" = Some i ->
  dict_find fair_results "reusable" = Some r ->
  collect_score_data fair_results = exc_map score_row (all_indicators f a i r)
  /\ (forall rows,
         collect_score_data fair_results = Ok rows ->
         length rows = length (all_indicators f a i r)).
Proof.
  intros Hf Ha Hi Hr.
  pose proof (collect_score_data_eq _ Hf Ha Hi Hr) as E.
  split; [exact E|].
  intros rows Hrows. rewrite E in Hrows. now apply exc_map_length in Hrows.
Qed.

(** X7: an indicator whose uppercased name the catalogue does not have
    stops [collect_score_data] with the [KeyError] of that uppercased name,
    once the indicators before it have given their rows and its own
    message has been normalized: it is not skipped. *)
Theorem collect_score_data_unknown_indicator
        (fair_results : EvaluationResult num) (f a i r : PrincipleResult num)
        (before after : list (Indicator num)) (bad : Indicator num)
        (rows : list (ScoreRow num)) (shown : pyval num) :
  dict_find fair_results "findable" = Some f ->
  dict_find fair_results "accessible" = Some a ->
  dict_find fair_results "interoperable" = Some i ->
  dict_find fair_results "reusable" = Some r ->
  all_indicators f a i r = (before ++ bad :: after)%list ->
  exc_map score_row before = Ok rows ->
  format_msg_for_table (match msg bad with Some m => m | None => VList [] end) = Ok shown ->
  dict_find FAIR_RDA_INDICATORS (upper (name bad)) = None ->
  collect_score_data fair_results = Raise (KeyError (upper (name bad))).
Proof.
  intros Hf Ha Hi Hr Hall Hrows Hmsg Hcat.
  rewrite (collect_score_data_eq _ Hf Ha Hi Hr), Hall, exc_map_app, Hrows.
  cbn [exc_bind exc_map]. unfold score_row at 1. rewrite Hmsg. cbn [exc_bind].
  unfold dict_getitem. rewrite Hcat. reflexivity.
Qed.

(** X6: when a principle is missing, [collect_score_data] raises the
    [KeyError] of the first missing one, whatever the indicators of the
    others are: no row is built before the four principles have been read. *)
Theorem collect_score_data_missing_principle
        (fair_results : EvaluationResult num) (key : string) :
  first_missing fair_results = Some key ->
  collect_score_data fair_results = Raise (KeyError key).
Proof.
  unfold first_missing, collect_score_data, FAIR_PRINCIPLES, dict_getitem. cbn [find exc_fold].
  destruct (dict_find fair_results "findable"); [|now intros [= <-]].
  cbn [exc_bind].
  destruct (dict_find fair_results "accessible"); [|now intros [= <-]].
  cbn [exc_bind].
  destruct (dict_find fair_results "interoperable"); [|now intros [= <-]].
  cbn [exc_bind].
  destruct (dict_find fair_results "reusable"); [|now intros [= <-]].
  discriminate.
Qed.

End RowFacts.

(** ** More on message normalization *)

Section MessageOnly.
Context {num : Type} `{PyPrims num}.

Lemma exc_map_texts_inv (items : list (pyval num)) (texts : list string) :
  exc_map (fun v : pyval num => match v with VStr s => Ok s | _ => Raise TypeError end) items
  = Ok texts ->
  plain_texts items = Some texts.
Proof.
  revert texts; induction items as [|v items IH]; intros texts; cbn [exc_map plain_texts].
  - now intros [= <-].
  - destruct v; cbn [exc_bind]; try discriminate.
    destruct (exc_map _ items) as [ts|e]; cbn [exc_bind]; [|discriminate].
    intros [= <-]. now rewrite (IH ts eq_refl).
Qed.

Lemma format_item_inv (item : pyval num) (line : string) :
  format_item item = Ok line ->
  exists d, item = VDict d /\ annotated d = Some line.
Proof.
  unfold format_item, py_getitem, dict_getitem.
  destruct item as [| | | | |d]; cbn [exc_bind]; try discriminate.
  destruct (dict_find d "message") as [m|] eqn:Em; cbn [exc_bind]; [|discriminate].
  destruct (dict_find d "points") as [p|] eqn:Ep; cbn [exc_bind]; [|discriminate].
  intros [= <-]. exists d. split; [reflexivity|].
  unfold annotated. now rewrite Em, Ep.
Qed.

Lemma exc_map_format_item_inv (items : list (pyval num)) (lines : list string) :
  exc_map format_item items = Ok lines ->
  exists ds, records items = Some ds /\ annotated_all ds = Some lines
             /\ length ds = length items.
Proof.
  revert lines; induction items as [|v items IH]; intros lines; cbn [exc_map].
  - intros [= <-]. now exists [].
  - destruct (format_item v) as [l|e] eqn:Ev; cbn [exc_bind]; [|discriminate].
    destruct (exc_map format_item items) as [ls|e]; cbn [exc_bind]; [|discriminate].
    intros [= <-].
    destruct (format_item_inv _ Ev) as (d & -> & Hd).
    destruct (IH ls eq_refl) as (ds & Hr & Ha & Hl).
    exists (d :: ds). cbn [records annotated_all length]. rewrite Hr, Hd, Ha.
    repeat split. now rewrite Hl.
Qed.

(** X8: whatever [format_msg_for_table] returns, it returns for a message
    of a listed shape, and it is the display message of that shape: on any
    other value ([None], a number, a sequence mixing text and records, a
    record of a longer sequence without both fields) it raises. *)
Theorem format_msg_for_table_only_shapes (message shown : pyval num) :
  format_msg_for_table message = Ok shown ->
  normalized_message message = Some shown.
Proof.
  destruct message as [| b | n | s | items | entries]; cbn; try discriminate.
  - now intros [= <-].
  - destruct items as [|first rest]; [now intros [= <-]|].
    destruct (isinstance_str first) eqn:Hstr.
    + unfold py_join.
      destruct (exc_map _ (first :: rest)) as [texts|e] eqn:Et; cbn [exc_bind]; [|discriminate].
      intros [= <-]. now rewrite (exc_map_texts_inv _ Et).
    + assert (Hp : plain_texts (first :: rest) = None)
        by (destruct first; try reflexivity; discriminate).
      rewrite Hp.
      destruct rest as [|second rest].
      * cbn. unfold py_get. destruct first; try discriminate.
        intros [= <-]. reflexivity.
      * cbn [length].
        destruct (format_item first) as [l|e] eqn:E1; cbn [exc_bind]; [|discriminate].
        destruct (exc_map format_item (second :: rest)) as [ls|e] eqn:E2;
          cbn [exc_bind]; [|discriminate].
        intros [= <-].
        assert (El : exc_map format_item (first :: second :: rest) = Ok (l :: ls))
          by (change (exc_map format_item (first :: second :: rest))
                with (exc_bind (format_item first)
                        (fun y => exc_bind (exc_map format_item (second :: rest))
                                    (fun ys => Ok (y :: ys))));
              now rewrite E1, E2).
        destruct (exc_map_format_item_inv _ El) as (ds & Hr & Ha & Hl).
        rewrite Hr.
        destruct ds as [|d1 [|d2 ds]]; try discriminate.
        now rewrite Ha.
  - now intros [= <-].
Qed.

(** X9: the value [format_msg_for_table] returns is text, except for a
    sequence of exactly one record, whose [message] field is handed on as
    it is, whatever its type. *)
Theorem format_msg_for_table_text (message shown : pyval num) :
  format_msg_for_table message = Ok shown ->
  (exists s, shown = VStr s)
  \/ (exists d, message = VList [VDict d] /\ dict_find d "message" = Some shown).
Proof.
  destruct message as [| b | n | s | items | entries]; cbn; try discriminate.
  - intros [= <-]. left; eauto.
  - destruct items as [|first rest]; [intros [= <-]; left; eauto|].
    destruct (isinstance_str first).
    + destruct (py_join newline (first :: rest)); cbn [exc_bind]; [|discriminate].
      intros [= <-]. left; eauto.
    + destruct rest as [|second rest].
      * cbn. unfold py_get, dict_get. destruct first as [| | | | |d]; try discriminate.
        destruct (dict_find d "message") as [m|] eqn:Em; intros [= <-].
        -- right. exists d. split; [reflexivity | exact Em].
        -- left; eauto.
      * cbn [length].
        destruct (format_item first); cbn [exc_bind]; [|discriminate].
        destruct (exc_map format_item (second :: rest)); cbn [exc_bind]; [|discriminate].
        intros [= <-]. left; eauto.
  - intros [= <-]. left; eauto.
Qed.

End MessageOnly.


Lemma collect_score_data_rows_witness :
  collect_score_data Samples.result
  = exc_map score_row (all_indicators Samples.findable Samples.accessible
                                      Samples.interoperable Samples.reusable)
  /\ length Samples.score_rows = 5%nat.
Proof.
  destruct (@collect_score_data_rows _ _ Samples.result Samples.findable Samples.accessible
              Samples.interoperable Samples.reusable eq_refl eq_refl eq_refl eq_refl)
    as (E & L).
  split; [exact E | apply (L Samples.score_rows); reflexivity].
Defined.

Lemma collect_score_data_missing_principle_witness :
  collect_score_data Samples.findable_only = Raise (KeyError "accessible").
Proof.
  apply collect_score_data_missing_principle. reflexivity.
Defined.

Lemma collect_score_data_unknown_indicator_witness :
  collect_score_data Samples.unknown_result = Raise (KeyError "RDA_X9_99Z").
Proof.
  apply (@collect_score_data_unknown_indicator _ _ Samples.unknown_result
           Samples.unknown_findable Samples.accessible Samples.interoperable Samples.reusable
           [snd (Samples.ind "rda_f1_01m" (ExactNum.PInt 100) (ExactNum.PInt 2))]
           (dict_values Samples.accessible ++ dict_values Samples.interoperable
              ++ dict_values Samples.reusable)%list
           (snd (Samples.ind "rda_x9_99z" (ExactNum.PInt 0) (ExactNum.PInt 1)))
           [mkScoreRow "RDA-F1-01M" "Metadata is identified by a persistent identifier"
                       (ScoreNum (ExactNum.PInt 100)) (VStr "Not available")]
           (VStr "Not available"));
    reflexivity.
Defined.

Lemma format_msg_for_table_only_shapes_witness :
  normalized_message Samples.two_records = Some Samples.two_records_shown.
Proof.
  apply format_msg_for_table_only_shapes. reflexivity.
Defined.

(** A single record whose message is a number: the number is handed on. *)
Lemma format_msg_for_table_text_witness :
  (exists s, VNum (ExactNum.PInt 5) = VStr s)
  \/ (exists d,
        Samples.number_message = VList [VDict d]
        /\ dict_find d "message" = Some (VNum (ExactNum.PInt 5))).
Proof.
  apply format_msg_for_table_text. reflexivity.
Defined.

(** ** More on rendering *)

Section RenderingEdge.
Context {num : Type} `{PyPrims num}.

(** X10: without totals [print_table] prints the detail table and nothing
    else: the header ID, Indicator, Score, Output and one row per score
    row, in order, none with a rule; it does not raise and changes nothing
    but the output. *)
Theorem print_table_no_totals (indicator_rows : list (ScoreRow num)) (w : World num) :
  print_table indicator_rows [] w
  = (Ok tt, set_stdout w (w_stdout w ++ [OutTable (expected_detail indicator_rows)]))
  /\ rows (expected_detail indicator_rows)
     = map (fun r => (row_cells r, false)) indicator_rows.
Proof.
  split; [|reflexivity].
  unfold print_table, m_bind, m_lift. rewrite detail_table_eq. reflexivity.
Qed.

End RenderingEdge.

(** ** More on the readiness probe *)

Section ProbeOutcome.
Context {num : Type} `{PyPrims num}.
Variable env : Env num.

Lemma probe_frame_refl (w : World num) : probe_frame w w.
Proof. repeat split. Qed.

Lemma probe_frame_trans (w1 w2 w3 : World num) :
  probe_frame w1 w2 -> probe_frame w2 w3 -> probe_frame w1 w3.
Proof. unfold probe_frame. intuition congruence. Qed.

Lemma probe_frame_after_failure (w : World num) : probe_frame w (after_failure w).
Proof. repeat split. Qed.

Lemma wait_loop_outcome (range : list nat) (b : bool) (w : World num) :
  (exists k w',
      (1 <= k <= length range)%nat
      /\ (forall j, (1 <= j < k)%nat -> probe_attempt env w j <> 0)
      /\ probe_attempt env w k = 0
      /\ wait_loop env range b w = (Ok true, w')
      /\ w_connects w' = (w_connects w ++ repeat address k)%list
      /\ w_sleeps w' = (w_sleeps w ++ repeat 5 (k - 1))%list
      /\ probe_frame w w')
  \/ ((forall j, (1 <= j <= length range)%nat -> probe_attempt env w j <> 0)
      /\ exists w',
          wait_loop env range b w = (Ok b, w')
          /\ w_connects w' = (w_connects w ++ repeat address (length range))%list
          /\ w_sleeps w' = (w_sleeps w ++ repeat 5 (length range))%list
          /\ probe_frame w w').
Proof.
  revert w; induction range as [|i range IH]; intros w.
  - right. split; [simpl; intros; lia|].
    exists w. cbn. rewrite !app_nil_r. repeat split.
  - destruct (Z.eq_dec (probe_attempt env w 1) 0) as [Hs | Hf].
    + left. exists 1%nat. eexists. split; [simpl; lia|].
      split; [intros; lia|]. split; [exact Hs|].
      rewrite wait_loop_step_success by exact Hs.
      split; [reflexivity|]. cbn. rewrite app_nil_r. repeat split.
    + rewrite wait_loop_step_failure by exact Hf.
      destruct (IH (after_failure w))
        as [(k & w' & Hk & Hfail & Hok & E & C & Sl & F) | (Hfail & w' & E & C & Sl & F)].
      * left. exists (S k), w'. split; [simpl; lia|].
        split.
        { intros j Hj. destruct (Nat.eq_dec j 1) as [-> | Hj1]; [exact Hf|].
          destruct j as [|j]; [lia|].
          rewrite <- probe_attempt_after_failure by lia. apply Hfail. lia. }
        split; [rewrite <- probe_attempt_after_failure by lia; exact Hok|].
        split; [exact E|].
        split; [rewrite C; cbn; now rewrite <- app_assoc|].
        split.
        { rewrite Sl. cbn. rewrite <- app_assoc. cbn.
          destruct k as [|k]; [lia|]. cbn. now rewrite Nat.sub_0_r. }
        eapply probe_frame_trans; [apply probe_frame_after_failure | exact F].
      * right. split.
        { intros j Hj. destruct (Nat.eq_dec j 1) as [-> | Hj1]; [exact Hf|].
          destruct j as [|j]; [lia|].
          rewrite <- probe_attempt_after_failure by lia. apply Hfail. simpl in Hj. lia. }
        exists w'. split; [exact E|].
        split; [rewrite C; cbn; now rewrite <- app_assoc|].
        split; [rewrite Sl; cbn; now rewrite <- app_assoc|].
        eapply probe_frame_trans; [apply probe_frame_after_failure | exact F].
Qed.

(** X11: the readiness loop ends in one of two ways.  Either some attempt
    n <= 4 is the first to be accepted: then n connections were made, the
    loop slept 5 seconds after each of the n - 1 refusals and [main] goes
    on.  Or the four attempts were refused: then it slept four times, the
    last time after the fourth refusal, and raises [SystemExit(-1)]. *)
Theorem wait_for_api_outcomes (w : World num) :
  exists n w',
    (1 <= n <= 4)%nat
    /\ (forall j, (1 <= j < n)%nat -> probe_attempt env w j <> 0)
    /\ w_connects w' = (w_connects w ++ repeat ("127.0.0.1", 9090) n)%list
    /\ ((probe_attempt env w n = 0
         /\ wait_for_api env w = (Ok tt, w')
         /\ w_sleeps w' = (w_sleeps w ++ repeat 5 (n - 1))%list)
        \/ (n = 4%nat
            /\ probe_attempt env w 4 <> 0
            /\ wait_for_api env w = (Raise (SystemExit (Some (-1))), w')
            /\ w_sleeps w' = (w_sleeps w ++ [5; 5; 5; 5])%list)).
Proof.
  destruct (wait_loop_outcome (seq 1 4) false w)
    as [(k & w' & Hk & Hfail & Hok & E & C & Sl & F) | (Hfail & w' & E & C & Sl & F)].
  - exists k, w'. split; [exact Hk|]. split; [exact Hfail|]. split; [exact C|].
    left. split; [exact Hok|]. split; [|exact Sl].
    unfold wait_for_api, m_bind. rewrite E. reflexivity.
  - exists 4%nat,
      (set_logs w' (w_logs w' ++ [(ERROR, "FAIR-eva API was not able to launch: exiting")])).
    split; [lia|].
    split; [intros j Hj; apply Hfail; simpl; lia|].
    unfold wait_for_api, m_bind. rewrite E. cbn.
    split; [exact C|].
    right. split; [reflexivity|]. split; [apply Hfail; simpl; lia|].
    split; [reflexivity | exact Sl].
Qed.

(** X12: however it ends, the readiness loop reads nothing from the
    terminal, prints nothing, sends no request, writes no file and leaves
    the two globals as they were: it only connects, logs and sleeps. *)
Theorem wait_for_api_frame (w : World num) :
  probe_frame w (snd (wait_for_api env w)).
Proof.
  destruct (wait_loop_outcome (seq 1 4) false w)
    as [(k & w' & _ & _ & _ & E & _ & _ & F) | (_ & w' & E & _ & _ & F)];
    unfold wait_for_api, m_bind; rewrite E; cbn; exact F.
Qed.

End ProbeOutcome.

(** ** More on disambiguation *)

Section SearchEdge.
Context {num : Type} `{PyPrims num}.
Variable env : Env num.
Variable args : Args.

Lemma search_table_rows_eq (ds : list Candidate) (n start : nat) (t : PrettyTable num) :
  (start + n <= length ds)%nat ->
  length (field_names t) = 2%nat ->
  exc_fold (fun table index =>
              let div := ((index + 1) mod 5 =? 0)%nat in
              (c <- match nth_error ds index with
                    | Some c => Ok c
                    | None => Raise IndexError
                    end ;;
               add_row table [VStr (cand_title c); VNum (nint (Z.of_nat index))] div)%exc)
           (seq start n) t
  = Ok (with_rows t
          (map (fun index =>
                  ([VStr (cand_title (nth index ds (mkCandidate EmptyString EmptyString)));
                    VNum (nint (Z.of_nat index))],
                   ((index + 1) mod 5 =? 0)%nat))
               (seq start n))).
Proof.
  revert start t; induction n as [|n IH]; intros start t Hle Ht.
  - cbn. now rewrite with_rows_nil.
  - cbn [seq exc_fold map].
    rewrite (nth_error_nth' ds (mkCandidate EmptyString EmptyString)) by lia.
    cbn [exc_bind]. rewrite add_row_fits by (rewrite Ht; reflexivity).
    cbn [exc_bind]. rewrite IH by (try lia; exact Ht).
    now rewrite with_rows_app.
Qed.

(** X13: the candidate table [search] prints has the header Title, Index,
    one row per candidate with its title and its position from 0, and a
    rule below every fifth row; building it never fails. *)
Theorem search_table_contents (distributions : list Candidate) :
  search_table distributions = Ok (expected_search_table distributions)
  /\ length (rows (@expected_search_table num _ distributions)) = length distributions
  /\ forall index,
      (index < length distributions)%nat ->
      rule_below (@expected_search_table num _ distributions) index
      = ((index + 1) mod 5 =? 0)%nat.
Proof.
  split; [|split].
  - unfold search_table. rewrite search_table_rows_eq by (try lia; reflexivity).
    reflexivity.
  - unfold expected_search_table, search_rows. cbn [rows].
    now rewrite length_map, length_seq.
  - intros index Hlt. unfold rule_below, expected_search_table, search_rows. cbn [rows].
    set (row := fun i : nat => _).
    change ([], false) with (@pair (list (pyval num)) bool [] false).
    rewrite nth_indep with (d' := row index) by (now rewrite length_map, length_seq).
    rewrite map_nth with (d := index). rewrite seq_nth by exact Hlt. reflexivity.
Qed.

(** X14: for a plugin outside epos and epos_prod (or none), [search] logs
    that it is not available and leaves through [sys.exit()] with status
    0, before any request is sent or any line is read. *)
Theorem search_unsupported_plugin (keytext : string) (w : World num) :
  arg_plugin args <> Some "epos" ->
  arg_plugin args <> Some "epos_prod" ->
  search env args keytext w
  = (Raise (SystemExit None),
     set_logs w (w_logs w ++ [(INFO, "The search function is only availbale for the following plugins: epos")]))
  /\ exit_status (SystemExit None) = 0.
Proof.
  intros H1 H2. split; [|reflexivity].
  unfold search.
  assert (match arg_plugin args with
          | Some plugin => in_strings plugin ["epos"; "epos_prod"]
          | None => false
          end = false) as ->.
  { destruct (arg_plugin args) as [p|]; [|reflexivity].
    unfold in_strings. cbn [existsb].
    destruct (String.eqb_spec p "epos") as [-> | _]; [congruence|].
    destruct (String.eqb_spec p "epos_prod") as [-> | _]; [congruence|].
    reflexivity. }
  reflexivity.
Qed.


Lemma search_loop_step_rejected (j : nat) (range : list nat) (ds : list Candidate)
      (ind0 : option string) (w : World num) (ind : string) (rest : list string) :
  w_stdin w = ind :: rest ->
  valid_index (length ds) ind = false ->
  exists w1,
    search_loop (j :: range) ds 0 ind0 w = search_loop range ds 0 (Some ind) w1
    /\ w_stdin w1 = rest
    /\ w_stdout w1 = (w_stdout w ++ attempt_output ds ind)%list
    /\ console_only w w1.
Proof.
  intros Hin Hv. unfold valid_index in Hv. unfold attempt_output.
  cbn [search_loop]. unfold m_bind at 1. unfold input at 1.
  cbn [set_stdout w_stdin]. rewrite Hin.
  destruct (py_int ind) as [v|].
  - unfold m_bind at 1, m_ret at 1. rewrite Hv. cbn.
    eexists. split; [reflexivity|]. split; [reflexivity|]. split; [reflexivity|].
    repeat split.
  - unfold m_bind at 1. unfold m_bind at 1. unfold print at 1. unfold m_ret at 1. cbn.
    eexists. split; [reflexivity|]. split; [reflexivity|].
    split; [now rewrite <- app_assoc|]. repeat split.
Qed.

Lemma search_loop_rejected_output (range : list nat) (ds : list Candidate)
      (ind0 : option string) (w : World num) (inputs rest : list string) :
  w_stdin w = (inputs ++ rest)%list ->
  length inputs = length range ->
  Forall (fun s => valid_index (length ds) s = false) inputs ->
  exists ind w',
    search_loop range ds 0 ind0 w = (Ok (0, ind), w')
    /\ w_stdin w' = rest
    /\ w_stdout w' = (w_stdout w ++ flat_map (attempt_output ds) inputs)%list
    /\ console_only w w'.
Proof.
  revert w inputs ind0; induction range as [|j range IH]; intros w inputs ind0 Hin Hlen Hbad.
  - destruct inputs; [|discriminate]. exists ind0, w. cbn in *.
    split; [reflexivity|]. split; [exact Hin|]. split; [now rewrite app_nil_r|].
    apply console_only_refl.
  - destruct inputs as [|b inputs]; [discriminate|].
    inversion Hbad as [|? ? Hb Hbad']; subst.
    destruct (search_loop_step_rejected j range ds ind0 w Hin Hb) as (w1 & E & S1 & O1 & C1).
    destruct (IH w1 inputs (Some b) S1) as (ind & w' & E' & S' & O' & C');
      [simpl in Hlen; lia | assumption |].
    exists ind, w'. rewrite E. split; [exact E'|]. split; [exact S'|].
    split; [rewrite O', O1; cbn [flat_map]; now rewrite <- app_assoc|].
    eapply console_only_trans; eassumption.
Qed.

Lemma search_loop_eof (range : list nat) (ds : list Candidate)
      (ind0 : option string) (w : World num) (inputs : list string) :
  w_stdin w = inputs ->
  (length inputs < length range)%nat ->
  Forall (fun s => valid_index (length ds) s = false) inputs ->
  exists w',
    search_loop range ds 0 ind0 w = (Raise EOFError, w')
    /\ w_stdin w' = []
    /\ console_only w w'.
Proof.
  revert w inputs ind0; induction range as [|j range IH]; intros w inputs ind0 Hin Hlen Hbad.
  - simpl in Hlen; lia.
  - destruct inputs as [|b inputs].
    + cbn [search_loop]. unfold m_bind at 1. unfold input at 1.
      cbn [set_stdout w_stdin]. rewrite Hin.
      eexists. split; [reflexivity|]. split; [exact Hin|]. repeat split.
    + inversion Hbad as [|? ? Hb Hbad']; subst.
      destruct (search_loop_step_rejected j range ds ind0 w Hin Hb) as (w1 & E & S1 & O1 & C1).
      destruct (IH w1 inputs (Some b) S1) as (w' & E' & S' & C');
        [simpl in Hlen; lia | assumption |].
      exists w'. rewrite E. split; [exact E'|]. split; [exact S'|].
      eapply console_only_trans; eassumption.
Qed.

(** X16: when the five attempts are used up, the operator has seen the
    candidate table, then for each line the prompt, followed by the hint
    only if the line was no integer (an integer out of range is turned
    down without a word), and at the end "Max tries, restart program". *)
Theorem search_exhausted_output
        (keytext endpoint : string) (ds : list Candidate) (w : World num)
        (inputs rest : list string) :
  arg_plugin args = Some "epos" \/ arg_plugin args = Some "epos_prod" ->
  g_metadata_endpoint w = Some (VStr endpoint) ->
  get_search env (search_request endpoint keytext) = Some (mkSearchResponse (Some ds)) ->
  w_stdin w = (inputs ++ rest)%list ->
  length inputs = 5%nat ->
  Forall (fun s => valid_index (length ds) s = false) inputs ->
  exists w',
    search env args keytext w = (Ok IdEmptyTuple, w')
    /\ w_stdout w'
       = (w_stdout w ++ [OutTable (expected_search_table ds)]
            ++ flat_map (attempt_output ds) inputs
            ++ [OutText num "Max tries, restart program"])%list
    /\ w_stdin w' = rest.
Proof.
  intros Hplugin Hep Hget Hin Hlen Hbad.
  unfold search. rewrite (epos_plugin _ Hplugin).
  unfold m_bind at 1. rewrite Hep.
  unfold m_bind at 1. unfold send at 1.
  fold (@search_request num endpoint keytext). rewrite Hget.
  cbn [sr_results].
  unfold search_table. rewrite search_table_rows_eq by (try lia; reflexivity).
  unfold m_bind at 1. unfold m_lift at 1.
  unfold m_bind at 1. unfold print at 1.
  set (w2 := set_stdout _ _).
  destruct (@search_loop_rejected_output (seq 0 5) ds None w2 inputs rest)
    as (ind & w3 & E & S3 & O3 & C3); [exact Hin | exact Hlen | exact Hbad |].
  unfold m_bind at 1. rewrite E. cbn [fst snd Z.eqb].
  unfold m_bind, print, m_ret.
  eexists. split; [reflexivity|]. cbn [w_stdout set_stdout w_stdin].
  split; [|exact S3].
  rewrite O3. unfold w2. cbn [w_stdout set_stdout set_requests].
  rewrite <- !app_assoc. reflexivity.
Qed.

(** X17: when the input ends before a valid index has been typed and
    before the five attempts are used up, [input] raises [EOFError] and
    [search] does not catch it. *)
Theorem search_input_ends
        (keytext endpoint : string) (ds : list Candidate) (w : World num)
        (inputs : list string) :
  arg_plugin args = Some "epos" \/ arg_plugin args = Some "epos_prod" ->
  g_metadata_endpoint w = Some (VStr endpoint) ->
  get_search env (search_request endpoint keytext) = Some (mkSearchResponse (Some ds)) ->
  w_stdin w = inputs ->
  (length inputs < 5)%nat ->
  Forall (fun s => valid_index (length ds) s = false) inputs ->
  exists w', search env args keytext w = (Raise EOFError, w').
Proof.
  intros Hplugin Hep Hget Hin Hlen Hbad.
  unfold search. rewrite (epos_plugin _ Hplugin).
  unfold m_bind at 1. rewrite Hep.
  unfold m_bind at 1. unfold send at 1.
  fold (@search_request num endpoint keytext). rewrite Hget.
  cbn [sr_results].
  unfold search_table. rewrite search_table_rows_eq by (try lia; reflexivity).
  unfold m_bind at 1. unfold m_lift at 1.
  unfold m_bind at 1. unfold print at 1.
  set (w2 := set_stdout _ _).
  destruct (@search_loop_eof (seq 0 5) ds None w2 inputs)
    as (w3 & E & S3 & C3); [exact Hin | exact Hlen | exact Hbad |].
  unfold m_bind at 1. rewrite E. eauto.
Qed.

End SearchEdge.

Lemma search_table_contents_witness :
  search_table Samples.six_candidates = Ok (expected_search_table Samples.six_candidates)
  /\ rule_below (@expected_search_table ExactNum.pynum _ Samples.six_candidates) 4 = true
  /\ rule_below (@expected_search_table ExactNum.pynum _ Samples.six_candidates) 5 = false.
Proof.
  destruct (@search_table_contents ExactNum.pynum _ Samples.six_candidates) as (E & _ & R).
  split; [exact E|]. split.
  - apply (R 4%nat). simpl; lia.
  - apply (R 5%nat). simpl; lia.
Defined.

Lemma search_unsupported_plugin_witness :
  fst (search Samples.search_env Samples.oai_args "query" (Samples.typing ["1"]))
  = Raise (SystemExit None).
Proof.
  destruct (@search_unsupported_plugin _ _ Samples.search_env Samples.oai_args "query"
              (Samples.typing ["1"])) as (E & _); [discriminate | discriminate |].
  now rewrite E.
Defined.


Lemma search_exhausted_output_witness :
  exists w',
    search Samples.search_env Samples.search_args "query"
           (Samples.typing ["x"; "7"; "-1"; "3"; "one"])
    = (Ok IdEmptyTuple, w')
    /\ w_stdout w'
       = ([] ++ [OutTable (expected_search_table Samples.candidates)]
            ++ flat_map (attempt_output Samples.candidates) ["x"; "7"; "-1"; "3"; "one"]
            ++ [OutText ExactNum.pynum "Max tries, restart program"])%list
    /\ w_stdin w' = [].
Proof.
  apply (@search_exhausted_output _ _ Samples.search_env Samples.search_args "query"
           "http://repo" Samples.candidates (Samples.typing ["x"; "7"; "-1"; "3"; "one"])
           ["x"; "7"; "-1"; "3"; "one"] []); try reflexivity.
  - left; reflexivity.
  - repeat constructor.
Defined.

(** Of the five lines only "x" and "one" draw the hint. *)
Example search_hints_shown :
  flat_map (attempt_output Samples.candidates) ["x"; "7"; "-1"; "3"; "one"]
  = [OutPrompt ExactNum.pynum (search_prompt Samples.candidates);
     OutText ExactNum.pynum "Please introduce an integer between 0 and 3";
     OutPrompt ExactNum.pynum (search_prompt Samples.candidates);
     OutPrompt ExactNum.pynum (search_prompt Samples.candidates);
     OutPrompt ExactNum.pynum (search_prompt Samples.candidates);
     OutPrompt ExactNum.pynum (search_prompt Samples.candidates);
     OutText ExactNum.pynum "Please introduce an integer between 0 and 3"].
Proof. reflexivity. Qed.

Lemma search_input_ends_witness :
  exists w',
    search Samples.search_env Samples.search_args "query" (Samples.typing ["x"; "7"])
    = (Raise EOFError, w').
Proof.
  apply (@search_input_ends _ _ Samples.search_env Samples.search_args "query"
           "http://repo" Samples.candidates (Samples.typing ["x"; "7"]) ["x"; "7"]);
    try reflexivity.
  - left; reflexivity.
  - simpl; lia.
  - repeat constructor.
Defined.

(** ** More on persisting *)

Section StoreEdge.
Context {num : Type} `{PyPrims num}.

(** X18: with no rows [store] raises [ValueError] whatever the format, the
    identifier and the directory, before it has logged or written
    anything: an unsupported format is not even reported. *)
Theorem store_without_rows (identifier file_format path : string) (w : World num) :
  store identifier [] file_format path w = (Raise ValueError, w).
Proof. reflexivity. Qed.

Lemma to_numeric_score_fails (cols : list label) (rows : list (ScoreRow num)) :
  numeric_scores rows = None ->
  to_numeric_score (mkDataFrame cols rows) = Raise ValueError.
Proof.
  unfold to_numeric_score. cbn [df_rows df_columns].
  intros Hn.
  assert (E : exc_map (fun r : ScoreRow num => to_numeric_cell (row_score r)) rows
              = Raise ValueError).
  { induction rows as [|r rows IH]; cbn [exc_map numeric_scores] in *; [discriminate|].
    unfold to_numeric_cell at 1.
    destruct (row_score r) as [s | n].
    - destruct (nparse s) as [n|]; [|reflexivity].
      cbn [exc_bind].
      destruct (numeric_scores rows) as [rs|]; [discriminate|].
      now rewrite IH.
    - cbn [exc_bind].
      destruct (numeric_scores rows) as [rs|]; [discriminate|].
      now rewrite IH. }
  now rewrite E.
Qed.

Lemma set_scores_ids (rows : list (ScoreRow num)) (column : list num) :
  length column = length rows ->
  map (@row_id num) (set_scores rows column) = map (@row_id num) rows.
Proof.
  revert column; induction rows as [|r rows IH]; intros column Hl.
  - reflexivity.
  - destruct column as [|c column]; [discriminate|].
    cbn [set_scores map row_id]. f_equal. apply IH. now inversion Hl.
Qed.

Lemma numeric_scores_ids (rows rows' : list (ScoreRow num)) :
  numeric_scores rows = Some rows' ->
  map (@row_id num) rows' = map (@row_id num) rows.
Proof.
  revert rows'; induction rows as [|x l IH]; intros rows' Hnum; cbn [numeric_scores] in Hnum.
  - now inversion Hnum.
  - destruct (match row_score x with ScoreStr s => nparse s | ScoreNum n => Some n end);
      [|discriminate].
    destruct (numeric_scores l) as [rs|]; [|discriminate].
    inversion Hnum; subst. cbn. f_equal. now apply IH.
Qed.

(** X19: a feather request with at least one row, whose scores are numbers
    or numerals that pandas makes one column of, writes the frame with the
    four labelled columns and that score column to
    /tmp/fair_eva_results-<identifier>.feather, and nothing else, when the
    file system lets the file be created and pyarrow converts the frame;
    the rows keep their indicator ids and order. *)
Theorem store_feather (identifier : string) (score_data : list (ScoreRow num))
        (values column : list num) (w : World num) :
  score_data <> [] ->
  score_values score_data = Some values ->
  pd_column values = Some column ->
  fs_creatable w ("/tmp/fair_eva_results-" ++ identifier ++ ".feather") = true ->
  pyarrow w (stored_frame (set_scores score_data column)) = Converts ->
  exists w',
    store identifier score_data "feather" "/tmp" w = (Ok tt, w')
    /\ w_files w'
       = (w_files w ++ [(("/tmp/fair_eva_results-" ++ identifier ++ ".feather")%string,
                         FeatherFile (stored_frame (set_scores score_data column)))])%list
    /\ map (@row_id num) (set_scores score_data column) = map (@row_id num) score_data.
Proof.
  intros Hne Hv Hc Hfs Harrow.
  destruct score_data as [|r rows]; [contradiction|].
  unfold store. unfold m_bind at 1. unfold m_ret at 1.
  unfold m_bind at 1. unfold m_lift at 1.
  unfold pd_DataFrame, set_columns. cbn [length df_columns Nat.eqb df_rows map].
  unfold m_bind at 1. unfold m_lift at 1.
  rewrite (to_numeric_score_rows _ _ Hv Hc).
  fold (stored_frame (set_scores (r :: rows) column)).
  unfold m_bind, m_ret, logging, to_feather.
  cbn [in_strings existsb String.eqb Ascii.eqb Bool.eqb negb orb andb].
  match goal with
  | |- context [pyarrow ?w0 ?d0] =>
      change (pyarrow w0 d0)
        with (pyarrow w (stored_frame (set_scores (r :: rows) column)))
  end.
  rewrite Harrow.
  match goal with
  | |- context [fs_creatable ?w0 ?p0] =>
      change (fs_creatable w0 p0)
        with (fs_creatable w ("/tmp/fair_eva_results-" ++ identifier ++ ".feather"))
  end.
  rewrite Hfs.
  eexists. split; [reflexivity|]. split; [reflexivity|].
  apply set_scores_ids.
  rewrite (pd_column_length _ Hc). now apply score_values_length.
Qed.

(** X20: a score text that is no numeral makes [store] raise [ValueError]
    whatever the format, before the format is looked at: nothing is logged
    and nothing is written. *)
Theorem store_score_not_numeric
        (identifier file_format path : string) (score_data : list (ScoreRow num))
        (w : World num) :
  numeric_scores score_data = None ->
  store identifier score_data file_format path w = (Raise ValueError, w).
Proof.
  intros Hnum.
  destruct score_data as [|r rows]; [reflexivity|].
  unfold store. unfold m_bind at 1. unfold m_ret at 1.
  unfold m_bind at 1. unfold m_lift at 1.
  unfold pd_DataFrame, set_columns. cbn [length df_columns Nat.eqb df_rows map].
  unfold m_bind at 1. unfold m_lift at 1.
  now rewrite to_numeric_score_fails by exact Hnum.
Qed.

End StoreEdge.

(** A frame that pyarrow does not convert: the file has been opened, and
    stays empty. *)
Example store_feather_refused :
  fst (store "abc123" Samples.score_rows "feather" "/tmp" Samples.no_arrow_world)
  = Raise ArrowTypeError
  /\ w_files (snd (store "abc123" Samples.score_rows "feather" "/tmp" Samples.no_arrow_world))
     = [("/tmp/fair_eva_results-abc123.feather", EmptyFile ExactNum.pynum)].
Proof. split; vm_compute; reflexivity. Qed.

Lemma store_feather_witness :
  exists w',
    store "abc123" Samples.score_rows "feather" "/tmp" Samples.empty_world = (Ok tt, w')
    /\ w_files w'
       = ([] ++ [("/tmp/fair_eva_results-abc123.feather",
                  FeatherFile (stored_frame (set_scores Samples.score_rows
                                                        Samples.score_column)))])%list
    /\ map (@row_id ExactNum.pynum) (set_scores Samples.score_rows Samples.score_column)
       = map (@row_id ExactNum.pynum) Samples.score_rows.
Proof.
  apply (@store_feather _ _ "abc123" Samples.score_rows
           [ExactNum.PInt 100; ExactNum.PInt 0; ExactNum.PFloat (101 # 2);
            ExactNum.PInt 0; ExactNum.PInt 100]
           Samples.score_column Samples.empty_world);
    [discriminate | reflexivity | reflexivity | reflexivity | reflexivity].
Defined.

Lemma store_score_not_numeric_witness :
  store "abc123" Samples.bad_score_rows "xml" "/tmp" Samples.empty_world
  = (Raise ValueError, Samples.empty_world).
Proof.
  apply store_score_not_numeric. reflexivity.
Defined.

(** ** More on the whole run *)

Section MainEdge.
Context {num : Type} `{PyPrims num}.
Variable gettext : string -> string.
Variable env : Env num.
Variable args : Args.

Lemma print_table_eq (indicator_rows : list (ScoreRow num)) (totals : dict num)
      (w : World num) :
  print_table indicator_rows totals w
  = (Ok tt, set_stdout w (w_stdout w ++ printed_tables indicator_rows totals)).
Proof.
  unfold print_table, printed_tables, m_bind, m_lift. rewrite detail_table_eq.
  destruct totals as [|item totals]; [reflexivity|].
  rewrite summary_table_eq. unfold print. cbn. now rewrite <- app_assoc.
Qed.

(** X21: when no repository is given and the service answers 404 for the
    plugin, [main] prints the plugins the service lists and returns
    "Input plugin not found": the port is never probed and no evaluation
    is requested. *)
Theorem main_plugin_not_found
        (w : World num) (plugin : string) (plugins : dict (pyval num)) :
  arg_repository args = None ->
  arg_plugin args = Some plugin ->
  get_endpoints env (endpoints_request plugin)
  = Some (mkEndpointsResponse 404 (VDict plugins)) ->
  exists w',
    main gettext env args w = (Ok (Some "Input plugin not found"), w')
    /\ w_stdout w' = (w_stdout w ++ [plugin_not_found (map fst plugins)])%list
    /\ w_requests w' = (w_requests w ++ [endpoints_request plugin])%list
    /\ w_connects w' = w_connects w.
Proof.
  intros Hr Hp Hget.
  unfold main, startup, resolve_metadata_endpoint. rewrite Hr, Hp.
  unfold m_bind at 1. unfold m_bind at 1. unfold m_bind at 1. unfold m_lift at 1.
  unfold m_bind at 1. unfold send at 1.
  fold (@endpoints_request num plugin). rewrite Hget.
  cbn [ep_status_code ep_json Z.eqb Pos.eqb].
  unfold m_bind, m_lift, print, m_ret.
  eexists. split; [reflexivity|]. repeat split.
Qed.

(** X22: when no repository is given, [main] asks the service for the
    endpoint before the readiness loop: if the service cannot be reached,
    the request raises [ConnectionError] and the run ends without a single
    probe of the port. *)
Theorem main_asks_before_probing (w : World num) (plugin : string) :
  arg_repository args = None ->
  arg_plugin args = Some plugin ->
  get_endpoints env (endpoints_request plugin) = None ->
  exists w',
    main gettext env args w = (Raise ConnectionError, w')
    /\ w_connects w' = w_connects w
    /\ w_requests w' = (w_requests w ++ [endpoints_request plugin])%list.
Proof.
  intros Hr Hp Hget.
  unfold main, startup, resolve_metadata_endpoint. rewrite Hr, Hp.
  unfold m_bind at 1. unfold m_bind at 1. unfold m_bind at 1. unfold m_lift at 1.
  unfold m_bind at 1. unfold send at 1.
  fold (@endpoints_request num plugin). rewrite Hget.
  eexists. split; [reflexivity|]. repeat split.
Qed.

(** X23: with a repository given, when the four connection attempts are
    refused [main] ends with [SystemExit(-1)], status 255: no request has
    been sent, nothing has been printed and no line has been read. *)
Theorem main_service_unavailable (w : World num) (repository : string) :
  arg_repository args = Some repository ->
  (forall j, (1 <= j <= 4)%nat -> probe_attempt env w j <> 0) ->
  exists w',
    main gettext env args w = (Raise (SystemExit (Some (-1))), w')
    /\ exit_status (SystemExit (Some (-1))) = 255
    /\ w_requests w' = w_requests w
    /\ w_stdout w' = w_stdout w
    /\ w_stdin w' = w_stdin w
    /\ w_files w' = w_files w.
Proof.
  intros Hr Hfail.
  unfold main, startup, resolve_metadata_endpoint. rewrite Hr.
  unfold m_bind at 1. unfold m_bind at 1.
  set (w1 := set_metadata_endpoint w _).
  destruct (wait_loop_outcome env (seq 1 4) false w1)
    as [(k & w' & Hk & _ & Hok & _) | (_ & w' & E & _ & _ & F)].
  - exfalso. apply (Hfail k); [simpl in Hk; lia | exact Hok].
  - unfold m_bind at 1. unfold wait_for_api, m_bind. rewrite E. cbn.
    eexists. split; [reflexivity|]. split; [reflexivity|].
    destruct F as (F1 & F2 & F3 & F4 & _). cbn. repeat split; assumption.
Qed.

(** X24: without [--id] and without a search text, [main] passes the
    readiness loop and then dies with [TypeError] on its log line, before
    any request is sent. *)
Theorem main_without_identifier (w : World num) (repository : string) :
  arg_repository args = Some repository ->
  truthy (arg_search args) = false ->
  arg_id args = None ->
  probe_attempt env w 1 = 0 ->
  exists w',
    main gettext env args w = (Raise TypeError, w')
    /\ w_requests w' = w_requests w
    /\ w_stdout w' = w_stdout w.
Proof.
  intros Hr Hsearch Hid Hs.
  unfold main. unfold m_bind at 1.
  rewrite (startup_repository env args _ Hr Hs).
  unfold evaluate. rewrite Hsearch, Hid.
  unfold m_bind at 1. unfold m_ret at 1.
  unfold m_bind at 1. cbn [g_metadata_endpoint after_success set_logs set_connects
                            set_metadata_endpoint].
  unfold m_bind at 1. unfold m_lift at 1.
  eexists. split; [reflexivity|]. split; reflexivity.
Qed.

(** X25: when the service answers the evaluation request with a client or
    server error, [main] logs the reason and leaves through
    [sys.exit(status_code)]: nothing is printed or stored, and the status
    the process ends with is the code modulo 256. *)
Theorem main_remote_error
        (w : World num) (repository identifier : string) (r : EvaluationResponse num) :
  arg_repository args = Some repository ->
  truthy (arg_search args) = false ->
  arg_id args = Some identifier ->
  probe_attempt env w 1 = 0 ->
  post_evaluation env
    (evaluation_request (arg_api_endpoint args) identifier (arg_plugin args) (VStr repository))
  = Some r ->
  response_ok (ev_status_code r) = false ->
  exists w',
    main gettext env args w = (Raise (SystemExit (Some (ev_status_code r))), w')
    /\ exit_status (SystemExit (Some (ev_status_code r))) = ev_status_code r mod 256
    /\ In (ERROR, "Error returned by FAIR-EVA API: " ++ ev_reason r) (w_logs w')
    /\ w_stdout w' = w_stdout w
    /\ w_files w' = w_files w.
Proof.
  intros Hr Hsearch Hid Hs Hpost Hok.
  unfold main. unfold m_bind at 1.
  rewrite (startup_repository env args _ Hr Hs).
  unfold evaluate. rewrite Hsearch, Hid.
  unfold m_bind at 1. unfold m_ret at 1.
  unfold m_bind at 1. cbn [g_metadata_endpoint after_success set_logs set_connects
                            set_metadata_endpoint].
  unfold m_bind at 1. unfold m_lift at 1.
  unfold m_bind at 1. unfold logging at 1.
  unfold m_bind at 1. unfold send at 1.
  cbn [identifier_value].
  fold (evaluation_request (arg_api_endpoint args) identifier (arg_plugin args)
                           (@VStr num repository)).
  rewrite Hpost. rewrite Hok. cbn [negb].
  unfold m_bind, logging, sys_exit, m_raise.
  eexists. split; [reflexivity|]. split; [reflexivity|].
  cbn [w_logs w_stdout w_files set_logs set_requests set_connects set_metadata_endpoint
       after_success].
  split; [|split; reflexivity].
  rewrite !in_app_iff. cbn [In]. auto 10.
Qed.

(** The run up to the answer of the evaluation service. *)
Ltac to_response Hr Hs Hsearch Hid Hpost Hok :=
  unfold main; unfold m_bind at 1;
  rewrite (startup_repository env args _ Hr Hs);
  unfold evaluate; rewrite Hsearch, Hid;
  unfold m_bind at 1; unfold m_ret at 1;
  unfold m_bind at 1;
  cbn [g_metadata_endpoint after_success set_logs set_connects set_metadata_endpoint];
  unfold m_bind at 1; unfold m_lift at 1;
  unfold m_bind at 1; unfold logging at 1;
  unfold m_bind at 1; unfold send at 1;
  cbn [identifier_value];
  unfold evaluation_request in Hpost; rewrite Hpost; rewrite Hok; cbn [negb].

(** X26: with [--json], once the service has answered and the rows have
    been collected, [main] prints the result of the record as it came,
    without the display fields of [calcpoints], and no table. *)
Theorem main_json_mode
        (w : World num) (repository identifier : string) (r : EvaluationResponse num)
        (result : EvaluationResult num) (score_rows : list (ScoreRow num)) :
  arg_repository args = Some repository ->
  truthy (arg_search args) = false ->
  arg_id args = Some identifier ->
  probe_attempt env w 1 = 0 ->
  post_evaluation env
    (evaluation_request (arg_api_endpoint args) identifier (arg_plugin args) (VStr repository))
  = Some r ->
  response_ok (ev_status_code r) = true ->
  dict_find (ev_results r) identifier = Some result ->
  collect_score_data result = Ok score_rows ->
  arg_json args = true ->
  arg_logs args = false ->
  arg_store_feather args = false ->
  arg_store_csv args = false ->
  exists w',
    main gettext env args w = (Ok None, w')
    /\ w_stdout w' = (w_stdout w ++ [OutResult result])%list
    /\ w_requests w'
       = (w_requests w ++ [evaluation_request (arg_api_endpoint args) identifier
                             (arg_plugin args) (VStr repository)])%list
    /\ w_files w' = w_files w.
Proof.
  intros Hr Hsearch Hid Hs Hpost Hok Hres Hrows Hjson Hlogs Hf Hc.
  to_response Hr Hs Hsearch Hid Hpost Hok.
  unfold dict_get. rewrite Hres, Hrows, Hjson, Hlogs, Hf, Hc.
  unfold m_bind, m_ret, m_lift, logging, print.
  eexists. split; [reflexivity|]. repeat split.
Qed.

(** X27: without [--json] and without [--totals], [main] prints one table,
    the detail table with a row per collected score row, and nothing
    else; [calcpoints] is not run, so a result whose weights sum to zero
    is rendered all the same. *)
Theorem main_detail_table
        (w : World num) (repository identifier : string) (r : EvaluationResponse num)
        (result : EvaluationResult num) (score_rows : list (ScoreRow num)) :
  arg_repository args = Some repository ->
  truthy (arg_search args) = false ->
  arg_id args = Some identifier ->
  probe_attempt env w 1 = 0 ->
  post_evaluation env
    (evaluation_request (arg_api_endpoint args) identifier (arg_plugin args) (VStr repository))
  = Some r ->
  response_ok (ev_status_code r) = true ->
  dict_find (ev_results r) identifier = Some result ->
  collect_score_data result = Ok score_rows ->
  arg_json args = false ->
  arg_totals args = false ->
  arg_logs args = false ->
  arg_store_feather args = false ->
  arg_store_csv args = false ->
  exists w',
    main gettext env args w = (Ok None, w')
    /\ w_stdout w' = (w_stdout w ++ [OutTable (expected_detail score_rows)])%list
    /\ w_files w' = w_files w.
Proof.
  intros Hr Hsearch Hid Hs Hpost Hok Hres Hrows Hjson Htot Hlogs Hf Hc.
  to_response Hr Hs Hsearch Hid Hpost Hok.
  unfold dict_get. rewrite Hres, Hrows, Hjson, Htot, Hlogs, Hf, Hc.
  unfold m_bind at 1. unfold m_ret at 1.
  unfold m_bind at 1. unfold logging at 1.
  unfold m_bind at 1. unfold logging at 1.
  unfold m_bind at 1. unfold m_lift at 1.
  unfold m_bind at 1. unfold m_bind at 1. unfold m_ret at 1.
  rewrite print_table_eq.
  unfold m_bind, m_ret.
  eexists. split; [reflexivity|]. repeat split.
Qed.

(** X28: with [--totals] and without [--json], when [calcpoints] returns,
    [main] prints the summary table of the returned scores and then the
    detail table. *)
Theorem main_totals_tables
        (w : World num) (repository identifier : string) (r : EvaluationResponse num)
        (result result' : EvaluationResult num) (score_rows : list (ScoreRow num))
        (totals : dict num) :
  arg_repository args = Some repository ->
  truthy (arg_search args) = false ->
  arg_id args = Some identifier ->
  probe_attempt env w 1 = 0 ->
  post_evaluation env
    (evaluation_request (arg_api_endpoint args) identifier (arg_plugin args) (VStr repository))
  = Some r ->
  response_ok (ev_status_code r) = true ->
  dict_find (ev_results r) identifier = Some result ->
  collect_score_data result = Ok score_rows ->
  calcpoints gettext result = Ok (totals, result') ->
  arg_json args = false ->
  arg_totals args = true ->
  arg_logs args = false ->
  arg_store_feather args = false ->
  arg_store_csv args = false ->
  exists w',
    main gettext env args w = (Ok None, w')
    /\ w_stdout w'
       = (w_stdout w ++ [OutTable (expected_summary totals);
                         OutTable (expected_detail score_rows)])%list
    /\ w_files w' = w_files w.
Proof.
  intros Hr Hsearch Hid Hs Hpost Hok Hres Hrows Hcalc Hjson Htot Hlogs Hf Hc.
  assert (Hne : exists item rest, totals = item :: rest).
  { pose proof Hcalc as Hinv. apply calcpoints_ok_inv in Hinv.
    destruct Hinv as (f & a & i & r0 & _ & _ & _ & _ & _ & _ & _ & _ & _ & -> & _).
    unfold score_summary. eauto. }
  to_response Hr Hs Hsearch Hid Hpost Hok.
  unfold dict_get. rewrite Hres, Hrows, Hjson, Htot, Hlogs, Hf, Hc.
  unfold m_bind at 1. unfold m_ret at 1.
  unfold m_bind at 1. unfold logging at 1.
  unfold m_bind at 1. unfold logging at 1.
  unfold m_bind at 1. unfold m_lift at 1.
  unfold m_bind at 1. unfold m_bind at 1. unfold m_bind at 1. unfold m_lift at 1.
  rewrite Hcalc. unfold m_ret at 1. cbn [fst].
  rewrite print_table_eq.
  unfold m_bind, m_ret.
  eexists. split; [reflexivity|].
  destruct Hne as (item & rest & ->).
  cbn. split; reflexivity.
Qed.

(** X29: with [--store-csv] alone, after the detail table has been
    printed [main] writes the collected rows, the scores as the one
    numeric column pandas makes of them, to
    /tmp/fair_eva_results-<identifier>.csv, the only file of the run, when
    the file system lets that file be created. *)
Theorem main_stores_csv
        (w : World num) (repository identifier : string) (r : EvaluationResponse num)
        (result : EvaluationResult num) (score_rows : list (ScoreRow num))
        (values column : list num) :
  arg_repository args = Some repository ->
  truthy (arg_search args) = false ->
  arg_id args = Some identifier ->
  probe_attempt env w 1 = 0 ->
  post_evaluation env
    (evaluation_request (arg_api_endpoint args) identifier (arg_plugin args) (VStr repository))
  = Some r ->
  response_ok (ev_status_code r) = true ->
  dict_find (ev_results r) identifier = Some result ->
  collect_score_data result = Ok score_rows ->
  score_rows <> [] ->
  score_values score_rows = Some values ->
  pd_column values = Some column ->
  fs_creatable w ("/tmp/fair_eva_results-" ++ identifier ++ ".csv") = true ->
  arg_json args = false ->
  arg_totals args = false ->
  arg_logs args = false ->
  arg_store_feather args = false ->
  arg_store_csv args = true ->
  exists w',
    main gettext env args w = (Ok None, w')
    /\ w_stdout w' = (w_stdout w ++ [OutTable (expected_detail score_rows)])%list
    /\ w_files w'
       = (w_files w ++ [(("/tmp/fair_eva_results-" ++ identifier ++ ".csv")%string,
                         CsvFile csv_header (csv_records 0 score_rows column))])%list.
Proof.
  intros Hr Hsearch Hid Hs Hpost Hok Hres Hrows Hne Hv Hcol Hfs Hjson Htot Hlogs Hf Hc.
  to_response Hr Hs Hsearch Hid Hpost Hok.
  unfold dict_get. rewrite Hres, Hrows, Hjson, Htot, Hlogs, Hf, Hc.
  unfold m_bind at 1. unfold m_ret at 1.
  unfold m_bind at 1. unfold logging at 1.
  unfold m_bind at 1. unfold logging at 1.
  unfold m_bind at 1. unfold m_lift at 1.
  unfold m_bind at 1. unfold m_bind at 1. unfold m_ret at 1.
  rewrite print_table_eq.
  unfold m_bind at 1. unfold m_ret at 1.
  unfold m_bind at 1. unfold m_ret at 1.
  unfold m_bind at 1.
  destruct score_rows as [|row rows]; [contradiction|].
  unfold store. unfold m_bind at 1. unfold m_ret at 1.
  unfold m_bind at 1. unfold m_lift at 1.
  unfold pd_DataFrame, set_columns. cbn [length df_columns Nat.eqb df_rows map].
  unfold m_bind at 1. unfold m_lift at 1.
  rewrite (to_numeric_score_rows _ _ Hv Hcol).
  fold (stored_frame (set_scores (row :: rows) column)).
  unfold m_bind, m_ret, logging, to_csv.
  cbn [in_strings existsb String.eqb Ascii.eqb Bool.eqb negb orb].
  match goal with
  | |- context [fs_creatable ?w0 ?p0] =>
      change (fs_creatable w0 p0)
        with (fs_creatable w ("/tmp/fair_eva_results-" ++ identifier ++ ".csv"))
  end.
  rewrite Hfs.
  eexists. split; [reflexivity|].
  cbn [w_stdout w_files set_logs set_files set_stdout set_requests].
  split; [reflexivity|].
  rewrite csv_of_stored_frame. reflexivity.
Qed.

End MainEdge.

Lemma main_plugin_not_found_witness :
  exists w',
    main Samples.no_translation Samples.unknown_plugin_env Samples.discover_args
         (Samples.start [])
    = (Ok (Some "Input plugin not found"), w')
    /\ w_stdout w' = ([] ++ [plugin_not_found ["epos"; "oai-pmh"]])%list
    /\ w_requests w' = ([] ++ [endpoints_request "foo"])%list
    /\ w_connects w' = [].
Proof.
  apply (@main_plugin_not_found _ _ Samples.no_translation Samples.unknown_plugin_env
           Samples.discover_args (Samples.start []) "foo"
           [("epos", VStr "https://epos"); ("oai-pmh", VStr "https://oai")]);
    reflexivity.
Defined.

Lemma main_asks_before_probing_witness :
  exists w',
    main Samples.no_translation Samples.never Samples.discover_args (Samples.start [])
    = (Raise ConnectionError, w')
    /\ w_connects w' = []
    /\ w_requests w' = ([] ++ [endpoints_request "foo"])%list.
Proof.
  apply (@main_asks_before_probing _ _ Samples.no_translation Samples.never
           Samples.discover_args (Samples.start []) "foo");
    reflexivity.
Defined.

Lemma main_service_unavailable_witness :
  exists w',
    main Samples.no_translation Samples.never Samples.id_args (Samples.start [])
    = (Raise (SystemExit (Some (-1))), w')
    /\ exit_status (SystemExit (Some (-1))) = 255
    /\ w_requests w' = []
    /\ w_stdout w' = []
    /\ w_stdin w' = []
    /\ w_files w' = [].
Proof.
  apply (@main_service_unavailable _ _ Samples.no_translation Samples.never
           Samples.id_args (Samples.start []) "http://repo").
  - reflexivity.
  - intros j Hj. discriminate.
Defined.

Lemma main_without_identifier_witness :
  exists w',
    main Samples.no_translation Samples.search_env Samples.bare_args (Samples.start [])
    = (Raise TypeError, w')
    /\ w_requests w' = []
    /\ w_stdout w' = [].
Proof.
  apply (@main_without_identifier _ _ Samples.no_translation Samples.search_env
           Samples.bare_args (Samples.start []) "http://repo");
    reflexivity.
Defined.

Lemma main_remote_error_witness :
  exists w',
    main Samples.no_translation Samples.error_env Samples.id_args (Samples.start [])
    = (Raise (SystemExit (Some 500)), w')
    /\ exit_status (SystemExit (Some 500)) = 500 mod 256
    /\ In (ERROR, "Error returned by FAIR-EVA API: " ++ "Internal Server Error") (w_logs w')
    /\ w_stdout w' = []
    /\ w_files w' = [].
Proof.
  apply (@main_remote_error _ _ Samples.no_translation Samples.error_env
           Samples.id_args (Samples.start []) "http://repo" "abc"
           (mkEvaluationResponse 500 "Internal Server Error" "boom" [] None));
    reflexivity.
Defined.

Lemma main_json_mode_witness :
  exists w',
    main Samples.no_translation Samples.good_env Samples.json_args (Samples.start [])
    = (Ok None, w')
    /\ w_stdout w' = ([] ++ [OutResult Samples.result])%list
    /\ w_requests w'
       = ([] ++ [evaluation_request "http://localhost:9090/v1.0/rda/rda_all" "abc"
                   (Some "epos") (VStr "http://repo")])%list
    /\ w_files w' = [].
Proof.
  apply (@main_json_mode _ _ Samples.no_translation Samples.good_env Samples.json_args
           (Samples.start []) "http://repo" "abc" Samples.good_response Samples.result
           Samples.score_rows);
    reflexivity.
Defined.

Lemma main_detail_table_witness :
  exists w',
    main Samples.no_translation Samples.good_env Samples.plain_args (Samples.start [])
    = (Ok None, w')
    /\ w_stdout w' = ([] ++ [OutTable (expected_detail Samples.score_rows)])%list
    /\ w_files w' = [].
Proof.
  apply (@main_detail_table _ _ Samples.no_translation Samples.good_env Samples.plain_args
           (Samples.start []) "http://repo" "abc" Samples.good_response Samples.result
           Samples.score_rows);
    reflexivity.
Defined.

Lemma main_totals_tables_witness :
  exists w',
    main Samples.no_translation Samples.good_env Samples.id_args (Samples.start [])
    = (Ok None, w')
    /\ w_stdout w'
       = ([] ++ [OutTable (expected_summary Samples.summary);
                 OutTable (expected_detail Samples.score_rows)])%list
    /\ w_files w' = [].
Proof.
  apply (@main_totals_tables _ _ Samples.no_translation Samples.good_env Samples.id_args
           (Samples.start []) "http://repo" "abc" Samples.good_response Samples.result
           Samples.annotated Samples.score_rows Samples.summary);
    reflexivity.
Defined.

Lemma main_stores_csv_witness :
  exists w',
    main Samples.no_translation Samples.good_env Samples.csv_args (Samples.start [])
    = (Ok None, w')
    /\ w_stdout w' = ([] ++ [OutTable (expected_detail Samples.score_rows)])%list
    /\ w_files w'
       = ([] ++ [("/tmp/fair_eva_results-abc.csv",
                  CsvFile csv_header
                          (csv_records 0 Samples.score_rows Samples.score_column))])%list.
Proof.
  apply (@main_stores_csv _ _ Samples.no_translation Samples.good_env Samples.csv_args
           (Samples.start []) "http://repo" "abc" Samples.good_response Samples.result
           Samples.score_rows
           [ExactNum.PInt 100; ExactNum.PInt 0; ExactNum.PFloat (101 # 2);
            ExactNum.PInt 0; ExactNum.PInt 100]
           Samples.score_column);
    try reflexivity; discriminate.
Defined.

(** ** Log lines *)

Lemma string_app_nil (s : string) : s ++ EmptyString = s.
Proof. induction s as [|c s IH]; simpl; [reflexivity | now rewrite IH]. Qed.

Lemma Formatter_format_line (self_fmt : string) (record : LogLevel * string) :
  fst (Formatter_format self_fmt record) = log_line record.
Proof.
  destruct record as [[| |] message]; unfold Formatter_format, log_line; cbn;
    now rewrite string_app_nil.
Qed.

(** X30: the handler writes a line for exactly the logging calls at or
    above the level of the logger (DEBUG with [--debug], INFO without), in
    order; an INFO record is written as its message alone and any other as
    "LEVEL: message", whatever format the formatter was left with by the
    record before. *)
Theorem handler_lines_formatted
        (args : Args) (self_fmt : string) (records : list (LogLevel * string)) :
  handler_lines args self_fmt records
  = map log_line (filter (fun record => isEnabledFor (log_level args) (fst record)) records).
Proof.
  revert self_fmt; induction records as [|record records IH]; intros self_fmt;
    cbn [handler_lines filter map]; [reflexivity|].
  destruct (isEnabledFor (log_level args) (fst record)); [|apply IH].
  pose proof (Formatter_format_line self_fmt record) as Hl.
  destruct (Formatter_format self_fmt record) as [line fmt]. cbn [fst] in Hl.
  cbn [map]. now rewrite Hl, IH.
Qed.

(** What is written when the port never opens, without [--debug]. *)
Example handler_lines_service_unavailable :
  handler_lines Samples.id_args "%(message)s"
    (w_logs (snd (main Samples.no_translation Samples.never Samples.id_args
                       (Samples.start []))))
  = ["ERROR: FAIR-eva API was not able to launch: exiting"].
Proof. reflexivity. Qed.
